(** * pymeasure instrument drivers: Kepco BOP 50-20 and Rohde & Schwarz ZVA

    A shallow embedding of the two drivers
    [pymeasure/instruments/kepco/kepco_bopgl_5020.py] and
    [pymeasure/instruments/rohdeschwarz/zva50.py].

    The drivers are tables of property declarations plus a few helper
    methods.  The tables and the helpers are transcribed from the source.
    The accessor machinery they are declared with ([Instrument.control],
    [Channel.insert_id], the validators, [add_child]) lives elsewhere in
    the package and is modelled in module [Framework]; the Python builtins
    the drivers rely on (numbers, [%]-formatting, [float], [str.format_map])
    are modelled in module [Py]. *)

From Stdlib Require Import ZArith String Ascii List Bool Floats DecimalString Lia.
From stdpp Require Import gmap strings.

Set Warnings "-inexact-float".
Local Open Scope string_scope.
Local Open Scope Z_scope.

(* ===================================================================== *)
(** * Python values and builtins *)
(* ===================================================================== *)

Module Py.

(** Exceptions, by the kinds the drivers can meet. *)
Inductive error :=
| ValueError        (* a validator rejected the value; bad literal for float()/int() *)
| TypeError         (* unsupported operand types *)
| KeyError          (* missing dictionary key / replacement field *)
| IndexError
| OverflowError
| LookupError       (* property without the requested accessor *)
| EOFError          (* input() at end of input *)
| TransportError.   (* raised by the adapter *)

Inductive result (A : Type) :=
| Ok (a : A)
| Raise (e : error).
Arguments Ok {A} a.
Arguments Raise {A} e.

Definition rbind {A B} (r : result A) (k : A -> result B) : result B :=
  match r with
  | Ok a => k a
  | Raise e => Raise e
  end.

(** Values that travel through the accessors.  [VObject] stands for any
    object without numeric or string behaviour; the drivers meet one: the
    [property] object bound to a class attribute. *)
Inductive value :=
| VNone
| VBool (b : bool)
| VInt (z : Z)
| VFloat (f : float)
| VStr (s : string)
| VObject (name : string).

(** ** Exact numeric order

    Python compares [int] with [float] by value, without rounding.  A
    number is read as an extended dyadic: [XFin m e] is [m * 2^e]. *)
Inductive xnum :=
| XNaN
| XInf (negative : bool)
| XFin (m e : Z).

Definition xnum_of_float (f : float) : xnum :=
  match Prim2SF f with
  | S754_nan => XNaN
  | S754_infinity s => XInf s
  | S754_zero _ => XFin 0 0
  | S754_finite s m e => XFin (cond_Zopp s (Zpos m)) e
  end.

Definition xnum_of (v : value) : option xnum :=
  match v with
  | VBool b => Some (XFin (Z.b2z b) 0)
  | VInt z => Some (XFin z 0)
  | VFloat f => Some (xnum_of_float f)
  | _ => None
  end.

(** [None] when a NaN is involved: every ordered comparison is then false. *)
Definition xcompare (x y : xnum) : option comparison :=
  match x, y with
  | XNaN, _ | _, XNaN => None
  | XInf a, XInf b => Some (if eqb a b then Eq else if a then Lt else Gt)
  | XInf a, XFin _ _ => Some (if a then Lt else Gt)
  | XFin _ _, XInf b => Some (if b then Gt else Lt)
  | XFin m1 e1, XFin m2 e2 =>
      let e := Z.min e1 e2 in
      Some (Z.compare (m1 * 2 ^ (e1 - e)) (m2 * 2 ^ (e2 - e)))
  end.

Definition xle (x y : xnum) : bool :=
  match xcompare x y with Some Lt | Some Eq => true | _ => false end.
Definition xlt (x y : xnum) : bool :=
  match xcompare x y with Some Lt => true | _ => false end.
Definition xeq (x y : xnum) : bool :=
  match xcompare x y with Some Eq => true | _ => false end.

(** [a <= b], [a < b], [a > b]: numbers with numbers, strings with
    strings, anything else is a [TypeError]. *)
Definition py_le (a b : value) : result bool :=
  match xnum_of a, xnum_of b with
  | Some x, Some y => Ok (xle x y)
  | _, _ =>
      match a, b with
      | VStr s, VStr t => Ok (String.leb s t)
      | _, _ => Raise TypeError
      end
  end.

Definition py_lt (a b : value) : result bool :=
  match xnum_of a, xnum_of b with
  | Some x, Some y => Ok (xlt x y)
  | _, _ =>
      match a, b with
      | VStr s, VStr t => Ok (String.ltb s t)
      | _, _ => Raise TypeError
      end
  end.

Definition py_gt (a b : value) : result bool := py_lt b a.

(** [a == b] never raises. *)
Definition py_eq (a b : value) : bool :=
  match xnum_of a, xnum_of b with
  | Some x, Some y => xeq x y
  | _, _ =>
      match a, b with
      | VStr s, VStr t => String.eqb s t
      | VNone, VNone => true
      | VObject n, VObject m => String.eqb n m
      | _, _ => false
      end
  end.

(** [min(values)] and [max(values)]: a left-to-right scan that keeps the
    first of equal items; [ValueError] on an empty sequence. *)
Fixpoint scan_min (best : value) (l : list value) : result value :=
  match l with
  | [] => Ok best
  | x :: l' =>
      rbind (py_lt x best) (fun b => scan_min (if b then x else best) l')
  end.

Fixpoint scan_max (best : value) (l : list value) : result value :=
  match l with
  | [] => Ok best
  | x :: l' =>
      rbind (py_gt x best) (fun b => scan_max (if b then x else best) l')
  end.

Definition py_min (l : list value) : result value :=
  match l with [] => Raise ValueError | x :: l' => scan_min x l' end.
Definition py_max (l : list value) : result value :=
  match l with [] => Raise ValueError | x :: l' => scan_max x l' end.

(** ** Arithmetic *)

(** [float(z)]: the nearest binary64, ties to even. *)
Definition float_of_Z (z : Z) : float :=
  SF2Prim (binary_normalize prec emax z 0 false).

(** [k * v] for a float constant [k], as in [lambda v: 1e9 * v]. *)
Definition float_times (k : float) (v : value) : result value :=
  match v with
  | VFloat f => Ok (VFloat (k * f)%float)
  | VInt z => Ok (VFloat (k * float_of_Z z)%float)
  | VBool b => Ok (VFloat (k * float_of_Z (Z.b2z b))%float)
  | _ => Raise TypeError
  end.

(** [int(x)] on a number: truncation toward zero. *)
Definition trunc_float (f : float) : result Z :=
  match Prim2SF f with
  | S754_nan => Raise ValueError
  | S754_infinity _ => Raise OverflowError
  | S754_zero _ => Ok 0
  | S754_finite s m e =>
      Ok (cond_Zopp s (if 0 <=? e then Zpos m * 2 ^ e else Zpos m / 2 ^ (- e)))
  end.

(** ** Text *)

Definition str_of_Z (z : Z) : string := NilZero.string_of_int (Z.to_int z).

Definition is_digit (c : ascii) : bool :=
  let n := nat_of_ascii c in (48 <=? n)%nat && (n <=? 57)%nat.

Definition digit_val (c : ascii) : Z := Z.of_nat (nat_of_ascii c) - 48.

Definition is_space (c : ascii) : bool :=
  let n := nat_of_ascii c in
  ((9 <=? n)%nat && (n <=? 13)%nat) || ((28 <=? n)%nat && (n <=? 32)%nat).

Fixpoint lstrip (l : list ascii) : list ascii :=
  match l with
  | c :: l' => if is_space c then lstrip l' else l
  | [] => []
  end.

Definition strip (l : list ascii) : list ascii :=
  rev (lstrip (rev (lstrip l))).

Definition lower (c : ascii) : ascii :=
  let n := nat_of_ascii c in
  if (65 <=? n)%nat && (n <=? 90)%nat then ascii_of_nat (n + 32) else c.

(** A run of digits, single underscores allowed between two digits. *)
Fixpoint digit_run (l : list ascii) : list ascii * list ascii :=
  match l with
  | c :: l' =>
      if is_digit c then
        match l' with
        | "_"%char :: l'' =>
            match l'' with
            | d :: _ =>
                if is_digit d then let (ds, r) := digit_run l'' in (c :: ds, r)
                else ([c], l')
            | [] => ([c], l')
            end
        | _ => let (ds, r) := digit_run l' in (c :: ds, r)
        end
      else ([], l)
  | [] => ([], [])
  end.

Definition Z_of_digits (ds : list ascii) : Z :=
  fold_left (fun acc c => 10 * acc + digit_val c) ds 0.

Definition split_sign (l : list ascii) : bool * list ascii :=
  match l with
  | "-"%char :: l' => (true, l')
  | "+"%char :: l' => (false, l')
  | _ => (false, l)
  end.

(** The binary64 nearest to [m * 10^e10], ties to even. *)
Definition float_of_decimal (negative : bool) (m e10 : Z) : float :=
  match m with
  | Zpos p =>
      if 0 <=? e10
      then SF2Prim (binary_normalize prec emax (cond_Zopp negative (m * 10 ^ e10)) 0 false)
      else
        match 10 ^ (- e10) with
        | Zpos d => SF2Prim (SFdiv prec emax (S754_finite negative p 0) (S754_finite false d 0))
        | _ => nan
        end
  | _ => if negative then neg_zero else zero
  end.

(** [float(s)]. *)
Definition parse_float (s : string) : result float :=
  let (neg, body) := split_sign (strip (list_ascii_of_string s)) in
  let word := string_of_list_ascii (map lower body) in
  if String.eqb word "inf" || String.eqb word "infinity"
  then Ok (if neg then neg_infinity else infinity)
  else if String.eqb word "nan" then Ok nan
  else
    let (ip, r1) := digit_run body in
    let (fp, r2) :=
      match r1 with
      | "."%char :: r => digit_run r
      | _ => ([], r1)
      end in
    match (ip ++ fp)%list with
    | [] => Raise ValueError
    | ds =>
        match r2 with
        | [] => Ok (float_of_decimal neg (Z_of_digits ds) (- Z.of_nat (length fp)))
        | c :: r =>
            if Ascii.eqb (lower c) "e" then
              let (eneg, r') := split_sign r in
              match digit_run r' with
              | ((_ :: _) as es, []) =>
                  Ok (float_of_decimal neg (Z_of_digits ds)
                        (cond_Zopp eneg (Z_of_digits es) - Z.of_nat (length fp)))
              | _ => Raise ValueError
              end
            else Raise ValueError
        end
    end.

(** [int(s)]. *)
Definition parse_int (s : string) : result Z :=
  let (neg, body) := split_sign (strip (list_ascii_of_string s)) in
  match digit_run body with
  | ((_ :: _) as ds, []) => Ok (cond_Zopp neg (Z_of_digits ds))
  | _ => Raise ValueError
  end.

(** [int(v)]. *)
Definition py_int (v : value) : result Z :=
  match v with
  | VInt z => Ok z
  | VBool b => Ok (Z.b2z b)
  | VFloat f => trunc_float f
  | VStr s => parse_int s
  | _ => Raise TypeError
  end.

(** [l[i]], negative indices counted from the end. *)
Definition list_item (l : list value) (i : Z) : result value :=
  let j := if i <? 0 then i + Z.of_nat (length l) else i in
  if j <? 0 then Raise IndexError
  else match nth_error l (Z.to_nat j) with
       | Some x => Ok x
       | None => Raise IndexError
       end.

(** [a + s] for a string [s]: defined when [a] is a string too. *)
Definition py_add_str (a : value) (s : string) : result string :=
  match a with
  | VStr x => Ok (x +:+ s)
  | _ => Raise TypeError
  end.

(** [l[i]] on a list of strings. *)
Definition str_item (l : list string) (i : Z) : result string :=
  let j := if i <? 0 then i + Z.of_nat (length l) else i in
  if j <? 0 then Raise IndexError
  else match nth_error l (Z.to_nat j) with
       | Some x => Ok x
       | None => Raise IndexError
       end.

(** Truth value of [v], as tested by [if v:]. *)
Definition truthy (v : value) : bool :=
  match v with
  | VNone => false
  | VBool b => b
  | VInt z => negb (z =? 0)
  | VFloat f => negb (is_zero f)
  | VStr s => negb (String.eqb s "")
  | VObject _ => true
  end.

(** [range(a, b)] as a list. *)
Definition py_range (a b : Z) : list Z :=
  map (fun i => a + Z.of_nat i) (seq 0 (Z.to_nat (b - a))).

(** *** Decimal output

    A positive rational [n / d] is rounded to [p] significant decimal
    digits, ties to even: the result [(r, x)] stands for
    [r * 10^(x - p + 1)] with [10^(p-1) <= r < 10^p]. *)

Fixpoint ndigits_fuel (fuel : nat) (n : Z) : Z :=
  match fuel with
  | O => 0
  | S k => if n <? 10 then 1 else 1 + ndigits_fuel k (n / 10)
  end.

(** Number of decimal digits of [n >= 1]. *)
Definition ndigits (n : Z) : Z := ndigits_fuel (S (Z.to_nat (Z.log2 n))) n.

(** [floor (log10 (n / d))]. *)
Definition dec_exponent (n d : Z) : Z :=
  if d <=? n then ndigits (n / d) - 1
  else - ndigits ((d + n - 1) / n - 1).

Definition round_half_even (num den : Z) : Z :=
  let q := num / den in
  match 2 * (num mod den) ?= den with
  | Lt => q
  | Gt => q + 1
  | Eq => if Z.even q then q else q + 1
  end.

Definition round_sig (n d p : Z) : Z * Z :=
  let x := dec_exponent n d in
  let s := p - 1 - x in
  let r := if 0 <=? s then round_half_even (n * 10 ^ s) d
           else round_half_even n (d * 10 ^ (- s)) in
  if r =? 10 ^ p then (10 ^ (p - 1), x + 1) else (r, x).

Fixpoint drop_zeros (l : list ascii) : list ascii :=
  match l with
  | "0"%char :: l' => drop_zeros l'
  | _ => l
  end.

Definition strip_zeros (ds : list ascii) : list ascii := rev (drop_zeros (rev ds)).

Definition with_point (ip frac : list ascii) (dot0 : bool) : list ascii :=
  match strip_zeros frac with
  | [] => if dot0 then (ip ++ [("."%char : ascii); "0"%char])%list else ip
  | fs => (ip ++ "."%char :: fs)%list
  end.

(** [d.ddde+XX]: at least two exponent digits. *)
Definition scientific (ds : list ascii) (x : Z) : list ascii :=
  let ex := list_ascii_of_string (str_of_Z (Z.abs x)) in
  let ex2 := if Z.abs x <? 10 then "0"%char :: ex else ex in
  (with_point (firstn 1 ds) (skipn 1 ds) false
     ++ "e"%char :: (if x <? 0 then "-"%char else "+"%char) :: ex2)%list.

Definition fixed (ds : list ascii) (x : Z) (dot0 : bool) : list ascii :=
  if 0 <=? x
  then
    let k := Z.to_nat (x + 1) in
    let ds' := (ds ++ repeat "0"%char (k - length ds))%list in
    with_point (firstn k ds') (skipn k ds') dot0
  else with_point ["0"%char] (repeat "0"%char (Z.to_nat (- x - 1)) ++ ds)%list dot0.

Definition digits_of (r : Z) : list ascii := list_ascii_of_string (str_of_Z r).

Definition signed (negative : bool) (body : list ascii) : string :=
  string_of_list_ascii (if negative then "-"%char :: body else body).

(** The magnitude of a finite non-zero float as a fraction. *)
Definition fraction_of (m : positive) (e : Z) : Z * Z :=
  if 0 <=? e then (Zpos m * 2 ^ e, 1) else (Zpos m, 2 ^ (- e)).

(** ['%g' % f]: six significant digits, trailing zeros removed, exponent
    form when the decimal exponent is below [-4] or at least [6]. *)
Definition format_g_float (f : float) : string :=
  match Prim2SF f with
  | S754_nan => "nan"
  | S754_infinity s => signed s (list_ascii_of_string "inf")
  | S754_zero s => signed s ["0"%char]
  | S754_finite s m e =>
      let (n, d) := fraction_of m e in
      let (r, x) := round_sig n d 6 in
      signed s (if (x <? -4) || (6 <=? x) then scientific (digits_of r) x
                else fixed (digits_of r) x false)
  end.

(** [repr(f)]: the shortest digit string that reads back as [f]. *)
Fixpoint shortest_digits (fuel : nat) (p : Z) (f : float) (n d : Z) : Z * Z :=
  match fuel with
  | O => round_sig n d 17
  | S k =>
      let (r, x) := round_sig n d p in
      if PrimFloat.eqb (float_of_decimal false r (x - p + 1)) f then (r, x)
      else shortest_digits k (p + 1) f n d
  end.

Definition repr_float (f : float) : string :=
  match Prim2SF f with
  | S754_nan => "nan"
  | S754_infinity s => signed s (list_ascii_of_string "inf")
  | S754_zero s => signed s (list_ascii_of_string "0.0")
  | S754_finite s m e =>
      let (n, d) := fraction_of m e in
      let (r, x) := shortest_digits 16 1 (abs f) n d in
      signed s (if (x <? -4) || (16 <=? x) then scientific (digits_of r) x
                else fixed (digits_of r) x true)
  end.

(** [str(v)].  The text of an object without a [__str__] of its own
    carries its address; the model keeps the class name only. *)
Definition py_str (v : value) : string :=
  match v with
  | VNone => "None"
  | VBool true => "True"
  | VBool false => "False"
  | VInt z => str_of_Z z
  | VFloat f => repr_float f
  | VStr s => s
  | VObject n => "<" +:+ n +:+ " object>"
  end.

(** *** [template % value]

    One value, and the three conversions the drivers use: [%d], [%g]
    and [%s] ([%%] is a literal percent sign). *)

Definition format_d (v : value) : result string :=
  match v with
  | VInt z => Ok (str_of_Z z)
  | VBool b => Ok (str_of_Z (Z.b2z b))
  | VFloat f => rbind (trunc_float f) (fun z => Ok (str_of_Z z))
  | _ => Raise TypeError
  end.

Definition format_g_int (z : Z) : result string :=
  let f := float_of_Z z in
  if is_infinity f then Raise OverflowError else Ok (format_g_float f).

Definition format_g (v : value) : result string :=
  match v with
  | VFloat f => Ok (format_g_float f)
  | VInt z => format_g_int z
  | VBool b => format_g_int (Z.b2z b)
  | _ => Raise TypeError
  end.

Definition convert (c : ascii) (v : value) : result string :=
  if Ascii.eqb c "d" then format_d v
  else if Ascii.eqb c "g" then format_g v
  else if Ascii.eqb c "s" then Ok (py_str v)
  else Raise ValueError.

Fixpoint percent_loop (t : list ascii) (arg : option value) : result string :=
  match t with
  | [] =>
      match arg with
      | None => Ok ""
      | Some _ => Raise TypeError            (* not all arguments converted *)
      end
  | c :: t1 =>
      if Ascii.eqb c "%" then
        match t1 with
        | [] => Raise ValueError             (* incomplete format *)
        | c' :: t2 =>
            if Ascii.eqb c' "%"
            then rbind (percent_loop t2 arg) (fun r => Ok (String "%" r))
            else
              match arg with
              | None => Raise TypeError      (* not enough arguments *)
              | Some v =>
                  rbind (convert c' v) (fun s =>
                  rbind (percent_loop t2 None) (fun r => Ok (s +:+ r)))
              end
        end
      else rbind (percent_loop t1 arg) (fun r => Ok (String c r))
  end.

Definition percent (template : string) (v : value) : result string :=
  percent_loop (list_ascii_of_string template) (Some v).

(** *** [template.format_map({key: id})]

    [{{] and [}}] are literal braces; [{name}] is replaced by the mapped
    text.  Field names are looked up whole: conversion flags and format
    specifications inside a field, which no template of the drivers
    uses, are not interpreted. *)

Definition lookup_field (key text : string) (name : list ascii) : result string :=
  if String.eqb (string_of_list_ascii name) key then Ok text
  else if forallb is_digit name then Raise IndexError
  else Raise KeyError.

Fixpoint format_loop (key text : string) (field : option (list ascii))
    (t : list ascii) : result string :=
  match field with
  | None =>
      match t with
      | [] => Ok ""
      | c :: t1 =>
          if Ascii.eqb c "{" then
            match t1 with
            | [] => Raise ValueError         (* single '{' *)
            | c' :: t2 =>
                if Ascii.eqb c' "{"
                then rbind (format_loop key text None t2) (fun r => Ok (String "{" r))
                else format_loop key text (Some []) t1
            end
          else if Ascii.eqb c "}" then
            match t1 with
            | [] => Raise ValueError         (* single '}' *)
            | c' :: t2 =>
                if Ascii.eqb c' "}"
                then rbind (format_loop key text None t2) (fun r => Ok (String "}" r))
                else Raise ValueError
            end
          else rbind (format_loop key text None t1) (fun r => Ok (String c r))
      end
  | Some acc =>
      match t with
      | [] => Raise ValueError               (* expected '}' *)
      | c :: t1 =>
          if Ascii.eqb c "}" then
            rbind (lookup_field key text (rev acc)) (fun s =>
            rbind (format_loop key text None t1) (fun r => Ok (s +:+ r)))
          else if Ascii.eqb c "{" then Raise ValueError   (* '{' in field name *)
          else format_loop key text (Some (c :: acc)) t1
      end
  end.

Definition format_map (template key text : string) : result string :=
  format_loop key text None (list_ascii_of_string template).

End Py.

(* ===================================================================== *)
(** * The accessor framework *)
(* ===================================================================== *)

Module Framework.
Import Py.

(** ** The transport adapter

    Modelled from the spec: the adapter of the package (not among the
    sources), a line-oriented write and read over a connection.  It is
    modelled by what a spy on the connection records.  A write attempt
    consumes the head of [faults] and raises when it is [true]; a read
    returns the next reply line and raises (a timeout) when the device
    has none left.  The line terminator the adapter appends is not part
    of the recorded command. *)
Record transport := {
  sent : list string;      (* commands written, oldest first *)
  pending : list string;   (* reply lines the device still returns *)
  faults : list bool       (* outcome of the coming write attempts *)
}.

(** ** Units

    A sub-unit identifier is opaque: a number or a string. *)
Inductive ident :=
| IdInt (z : Z)
| IdStr (s : string).

#[global] Instance ident_eq_dec : EqDecision ident.
Proof. solve_decision. Defined.

#[global] Instance ident_countable : Countable ident.
Proof.
  refine (inj_countable'
            (fun i => match i with IdInt z => inl z | IdStr s => inr s end)
            (fun x => match x with inl z => IdInt z | inr s => IdStr s end) _).
  intros []; reflexivity.
Defined.

Definition ident_value (i : ident) : value :=
  match i with IdInt z => VInt z | IdStr s => VStr s end.

(** A class of sub-units, with the placeholder its templates leave open. *)
Record unit_class := {
  cls_name : string;
  cls_placeholder : string
}.

(** The units reachable from the instrument: every unit owns a mapping
    from child identifier to child unit. *)
#[local] Set Warnings "-register-all".
Inductive unit_tree :=
| Unit (cls : unit_class) (kids : gmap ident unit_tree).

Definition unit_kids (u : unit_tree) : gmap ident unit_tree :=
  match u with Unit _ k => k end.

(** A unit is addressed by the chain of links up to the instrument,
    innermost first; [[]] is the instrument itself. *)
Record link := {
  link_placeholder : string;
  link_id : ident
}.

Definition handle := list link.

Definition path_of (h : handle) : list ident := rev (map link_id h).

(** [self.id]; the instrument itself has none. *)
Definition unit_id (h : handle) : value :=
  match h with
  | l :: _ => ident_value (link_id l)
  | [] => VNone
  end.

(** What a call can observe and change. *)
Record world := {
  wire : transport;
  channels : gmap ident unit_tree;   (* the instrument's child mapping *)
  stdout : list string;              (* what [print] and [input] wrote *)
  stdin : list string                (* the lines [input] will read *)
}.

Definition set_wire (t : transport) (w : world) : world :=
  {| wire := t; channels := channels w; stdout := stdout w; stdin := stdin w |}.
Definition set_channels (m : gmap ident unit_tree) (w : world) : world :=
  {| wire := wire w; channels := m; stdout := stdout w; stdin := stdin w |}.
Definition set_stdout (l : list string) (w : world) : world :=
  {| wire := wire w; channels := channels w; stdout := l; stdin := stdin w |}.
Definition set_stdin (l : list string) (w : world) : world :=
  {| wire := wire w; channels := channels w; stdout := stdout w; stdin := l |}.

(** ** Calls: state passing with exceptions

    A raised exception keeps the state reached so far. *)
Definition M (A : Type) : Type := world -> result A * world.

Definition ret {A} (a : A) : M A := fun w => (Ok a, w).
Definition raise {A} (e : error) : M A := fun w => (Raise e, w).
Definition bind {A B} (c : M A) (k : A -> M B) : M B :=
  fun w =>
    match c w with
    | (Ok a, w') => k a w'
    | (Raise e, w') => (Raise e, w')
    end.
Definition lift {A} (r : result A) : M A :=
  match r with Ok a => ret a | Raise e => raise e end.

Notation "'let*' x := c1 'in' c2" := (bind c1 (fun x => c2))
  (at level 10, x pattern, c1 at level 100, c2 at level 200).
Notation "c1 >> c2" := (bind c1 (fun _ => c2))
  (at level 75, right associativity).

Definition print (line : string) : M unit :=
  fun w => (Ok tt, set_stdout (stdout w ++ [line]) w).

(** [input(prompt)]. *)
Definition input (prompt : string) : M string :=
  fun w =>
    let w' := set_stdout (stdout w ++ [prompt]) w in
    match stdin w with
    | l :: ls => (Ok l, set_stdin ls w')
    | [] => (Raise EOFError, w')
    end.

(** Modelled from the spec: the adapter's write (not among the sources):
    the command is sent as a single write, or the transport error
    surfaces. *)
Definition adapter_write (cmd : string) : M unit :=
  fun w =>
    let t := wire w in
    match faults t with
    | true :: fs =>
        (Raise TransportError,
         set_wire {| sent := sent t; pending := pending t; faults := fs |} w)
    | _ =>
        (Ok tt,
         set_wire {| sent := sent t ++ [cmd]; pending := pending t;
                     faults := tl (faults t) |} w)
    end.

(** Modelled from the spec: the adapter's read (not among the sources):
    one line of response. *)
Definition adapter_read : M string :=
  fun w =>
    let t := wire w in
    match pending t with
    | r :: rs =>
        (Ok r, set_wire {| sent := sent t; pending := rs; faults := faults t |} w)
    | [] => (Raise TransportError, w)
    end.

(** ** Sub-unit templating *)

(** Modelled from the spec: [Channel.insert_id] of the package (not
    among the sources): a sub-unit fills the placeholder of its class
    with its own identifier at send time.  The templates of the sources
    are Python format strings ([{ch}], [{tr}], and [{{ch}}] where a
    trace leaves the channel's placeholder for its parent), so the
    placeholder is filled by [Py.format_map]. *)
Definition insert_id (l : link) (command : string) : result string :=
  format_map command (link_placeholder l) (py_str (ident_value (link_id l))).

(** Modelled from the spec: [Channel.write] and [Instrument.write] of the
    package (not among the sources): a sub-unit fills its placeholder
    and hands the command to its parent; the instrument writes it to the
    adapter. *)
Fixpoint write (h : handle) (command : string) : M unit :=
  match h with
  | [] => adapter_write command
  | l :: parent => let* c := lift (insert_id l command) in write parent c
  end.

(** Modelled from the spec: [Channel.read] and [Instrument.read] of the
    package (not among the sources): units share the one transport. *)
Definition read (h : handle) : M string := adapter_read.

(** Modelled from the spec: [ask] of the package (not among the
    sources): a query writes a command string, then reads back one
    line. *)
Definition ask (h : handle) (command : string) : M string :=
  write h command >> read h.

(** ** Child units *)

(** The mapping [m] with [f] applied to the child mapping found along
    [path]; a path that leads nowhere changes nothing. *)
Fixpoint update_at (path : list ident)
    (f : gmap ident unit_tree -> gmap ident unit_tree)
    (m : gmap ident unit_tree) : gmap ident unit_tree :=
  match path with
  | [] => f m
  | i :: p => alter (fun u => match u with Unit c k => Unit c (update_at p f k) end) i m
  end.

Fixpoint kids_at (path : list ident) (m : gmap ident unit_tree)
    : option (gmap ident unit_tree) :=
  match path with
  | [] => Some m
  | i :: p =>
      match m !! i with
      | Some u => kids_at p (unit_kids u)
      | None => None
      end
  end.

(** The child mapping of the unit at [h]. *)
Definition children_of (h : handle) (w : world) : option (gmap ident unit_tree) :=
  kids_at (path_of h) (channels w).

(** Modelled from the spec: [add_child] of the package (not among the
    sources): it allocates the in-memory unit and registers the handle
    under the caller-chosen key in the parent's mapping; a second
    registration under the same key replaces the first. *)
Definition add_child (h : handle) (cls : unit_class) (id : ident) : M handle :=
  fun w =>
    (Ok ({| link_placeholder := cls_placeholder cls; link_id := id |} :: h),
     set_channels (update_at (path_of h) (insert id (Unit cls ∅)) (channels w)) w).

(** ** Property descriptors *)

Inductive validator :=
| strict_range
| truncated_range
| strict_discrete_set
| no_validator.            (* the default: every value passes *)

(** The [values=] argument: a list (or set) of values, or a dictionary
    from user-facing values to wire values. *)
Inductive bounds :=
| Seq (l : list value)
| Dict (kv : list (value * value)).

Definition bound_keys (b : bounds) : list value :=
  match b with Seq l => l | Dict kv => map fst kv end.

Inductive cast_kind := cast_float | cast_int.

Record property := {
  prop_name : string;
  get_command : option string;
  set_command : option string;
  prop_validator : validator;
  prop_values : bounds;
  map_values : bool;
  prop_cast : cast_kind;
  get_process : value -> result value;
  set_process : value -> result value;
  dynamic : bool
}.

(** [min(values) <= value <= max(values)]: the range is spanned by the
    least and the greatest declared value. *)
Definition within (v : value) (vs : list value) : result bool :=
  rbind (py_min vs) (fun lo =>
  rbind (py_le lo v) (fun above =>
  if above then rbind (py_max vs) (fun hi => py_le v hi) else Ok false)).

(** Modelled from the spec: the validator [strict_range] of
    [pymeasure.instruments.validators] (not among the sources): the
    value "must lie within a numeric range", and is rejected otherwise. *)
Definition run_strict_range (v : value) (vs : list value) : result value :=
  rbind (within v vs) (fun ok => if ok then Ok v else Raise ValueError).

(** Modelled from the spec: the validator [truncated_range] of
    [pymeasure.instruments.validators] (not among the sources): the
    value "must lie within a numeric range", and is clamped to the
    bound it passed otherwise. *)
Definition run_truncated_range (v : value) (vs : list value) : result value :=
  rbind (within v vs) (fun ok =>
  if ok then Ok v
  else
    rbind (py_max vs) (fun hi =>
    rbind (py_gt v hi) (fun over =>
    if over then Ok hi else py_min vs))).

(** Modelled from the spec: the validator [strict_discrete_set] of
    [pymeasure.instruments.validators] (not among the sources): the
    value "must be exactly one of an enumerated set". *)
Definition run_strict_discrete_set (v : value) (vs : list value) : result value :=
  if existsb (py_eq v) vs then Ok v else Raise ValueError.

Definition validate (k : validator) (v : value) (b : bounds) : result value :=
  match k with
  | strict_range => run_strict_range v (bound_keys b)
  | truncated_range => run_truncated_range v (bound_keys b)
  | strict_discrete_set => run_strict_discrete_set v (bound_keys b)
  | no_validator => Ok v
  end.

(** The value map, user-facing value to wire value and back.  With a
    list the wire value is the position in the list. *)
Fixpoint index_of (v : value) (l : list value) (i : Z) : result value :=
  match l with
  | [] => Raise ValueError
  | x :: l' => if py_eq x v then Ok (VInt i) else index_of v l' (i + 1)
  end.

Fixpoint dict_get (v : value) (kv : list (value * value)) : result value :=
  match kv with
  | [] => Raise KeyError
  | (k, x) :: kv' => if py_eq k v then Ok x else dict_get v kv'
  end.

Fixpoint dict_key_of (wire_value : value) (kv : list (value * value)) : result value :=
  match kv with
  | [] => Raise KeyError
  | (k, x) :: kv' => if py_eq x wire_value then Ok k else dict_key_of wire_value kv'
  end.

Definition to_wire (b : bounds) (v : value) : result value :=
  match b with
  | Seq l => index_of v l 0
  | Dict kv => dict_get v kv
  end.

Definition from_wire (b : bounds) (v : value) : result value :=
  match b with
  | Seq l => rbind (py_int v) (list_item l)
  | Dict kv => dict_key_of v kv
  end.

Definition run_cast (c : cast_kind) (reply : string) : result value :=
  match c with
  | cast_float => rbind (parse_float reply) (fun f => Ok (VFloat f))
  | cast_int => rbind (parse_int reply) (fun z => Ok (VInt z))
  end.

(** Modelled from the spec: the set accessor that [control] and
    [setting] of the package (not among the sources) build from a
    declaration.  The candidate is checked by the validator against the
    declared values (the user-facing keys, for a value map), passed
    through [set_process], replaced by its wire value when a value map
    is present, formatted into the set command and written.  Nothing is
    written unless every earlier step succeeded. *)
Definition fset (p : property) (h : handle) (v : value) : M unit :=
  match set_command p with
  | None => raise LookupError
  | Some template =>
      let* v1 := lift (validate (prop_validator p) v (prop_values p)) in
      let* v2 := lift (set_process p v1) in
      let* v3 := lift (if map_values p then to_wire (prop_values p) v2 else Ok v2) in
      let* command := lift (percent template v3) in
      write h command
  end.

(** Modelled from the spec: the get accessor that [control] and
    [measurement] of the package (not among the sources) build from a
    declaration.  The query is written, one reply line is read, cast (a
    reply that cannot be cast is a decoding failure), passed through
    [get_process] and, when a value map is present, replaced by the
    user-facing value of the wire value. *)
Definition fget (p : property) (h : handle) : M value :=
  match get_command p with
  | None => raise LookupError
  | Some query =>
      let* reply := ask h query in
      let* v := lift (run_cast (prop_cast p) reply) in
      let* v' := lift (get_process p v) in
      lift (if map_values p then from_wire (prop_values p) v' else Ok v')
  end.

(** Modelled from the spec: the declaration forms [control],
    [measurement] and [setting] of the package (not among the sources),
    with its defaults: no validator, no values, float cast, identity
    processing. *)
Definition control (name get_cmd set_cmd : string) : property :=
  {| prop_name := name; get_command := Some get_cmd; set_command := Some set_cmd;
     prop_validator := no_validator; prop_values := Seq []; map_values := false;
     prop_cast := cast_float; get_process := Ok; set_process := Ok;
     dynamic := false |}.

Definition measurement (name get_cmd : string) : property :=
  {| prop_name := name; get_command := Some get_cmd; set_command := None;
     prop_validator := no_validator; prop_values := Seq []; map_values := false;
     prop_cast := cast_float; get_process := Ok; set_process := Ok;
     dynamic := false |}.

Definition setting (name set_cmd : string) : property :=
  {| prop_name := name; get_command := None; set_command := Some set_cmd;
     prop_validator := no_validator; prop_values := Seq []; map_values := false;
     prop_cast := cast_float; get_process := Ok; set_process := Ok;
     dynamic := false |}.

Definition with_validator (k : validator) (b : bounds) (p : property) : property :=
  {| prop_name := prop_name p; get_command := get_command p;
     set_command := set_command p; prop_validator := k; prop_values := b;
     map_values := map_values p; prop_cast := prop_cast p;
     get_process := get_process p; set_process := set_process p;
     dynamic := dynamic p |}.

Definition with_map_values (p : property) : property :=
  {| prop_name := prop_name p; get_command := get_command p;
     set_command := set_command p; prop_validator := prop_validator p;
     prop_values := prop_values p; map_values := true; prop_cast := prop_cast p;
     get_process := get_process p; set_process := set_process p;
     dynamic := dynamic p |}.

Definition with_cast (c : cast_kind) (p : property) : property :=
  {| prop_name := prop_name p; get_command := get_command p;
     set_command := set_command p; prop_validator := prop_validator p;
     prop_values := prop_values p; map_values := map_values p; prop_cast := c;
     get_process := get_process p; set_process := set_process p;
     dynamic := dynamic p |}.

Definition with_get_process (f : value -> result value) (p : property) : property :=
  {| prop_name := prop_name p; get_command := get_command p;
     set_command := set_command p; prop_validator := prop_validator p;
     prop_values := prop_values p; map_values := map_values p;
     prop_cast := prop_cast p; get_process := f; set_process := set_process p;
     dynamic := dynamic p |}.

Definition with_set_process (f : value -> result value) (p : property) : property :=
  {| prop_name := prop_name p; get_command := get_command p;
     set_command := set_command p; prop_validator := prop_validator p;
     prop_values := prop_values p; map_values := map_values p;
     prop_cast := prop_cast p; get_process := get_process p; set_process := f;
     dynamic := dynamic p |}.

Definition with_dynamic (p : property) : property :=
  {| prop_name := prop_name p; get_command := get_command p;
     set_command := set_command p; prop_validator := prop_validator p;
     prop_values := prop_values p; map_values := map_values p;
     prop_cast := prop_cast p; get_process := get_process p;
     set_process := set_process p; dynamic := true |}.

End Framework.

(* ===================================================================== *)
(** * Kepco BOP 50-20 bipolar power supply *)
(* ===================================================================== *)

Module KepcoBOP5020.
Import Py Framework.

Definition OPERATING_MODES : list value := [VStr "VOLT"; VStr "CURR"].

Definition _Vmax : Z := 50.
Definition _Imax : Z := 20.

(** The instrument is its own root unit. *)
Definition self : handle := [].

Definition beep : M unit := write self "SYSTem:BEEP".

Definition wait_to_continue : M unit := write self "*WAI".

Definition voltage : property :=
  with_cast cast_float (measurement "voltage" "MEASure:VOLTage?").

Definition current : property :=
  with_cast cast_float (measurement "current" "MEASure:CURRent?").

(** [get_process=lambda x: OPERATING_MODES[int(x)]] *)
Definition operating_mode : property :=
  with_get_process (fun x => rbind (py_int x) (list_item OPERATING_MODES))
    (with_validator strict_discrete_set (Seq OPERATING_MODES)
       (control "operating_mode" "FUNCtion:MODE?" "FUNCtion:MODE %s")).

Definition current_setpoint : property :=
  with_validator truncated_range (Seq [VInt (-1 * _Imax); VInt _Imax])
    (control "current_setpoint" "CURRent?" "CURRent %g").

Definition voltage_setpoint : property :=
  with_validator truncated_range (Seq [VInt (-1 * _Vmax); VInt _Vmax])
    (control "voltage_setpoint" "VOLTage?" "VOLTage %g").

Definition output_enabled : property :=
  with_map_values
    (with_validator strict_discrete_set
       (Dict [(VBool true, VInt 1); (VBool false, VInt 0)])
       (control "output_enabled" "OUTPut?" "OUTP:CONT OFF; OUTPut %d")).

Definition output_mode : property :=
  with_validator strict_discrete_set
    (Seq [VStr "ACTIVE"; VStr "RESISTIVE"; VStr "BATTERY"])
    (control "output_mode" "OUTP:MODE?" "OUTP:MODE %s").

Definition trigger_source : property :=
  with_validator strict_discrete_set (Seq [VStr "BUS"; VStr "EXT"; VStr "IMM"])
    (control "trigger_source" "TRIG:SOUR?" "TRIG:SOUR %s").

Definition trigger_voltage : property :=
  with_validator truncated_range (Seq [VInt (-1 * _Vmax); VInt _Vmax])
    (control "trigger_voltage" "VOLT:TRIG?" "VOLT:TRIG %d").

Definition trigger_current : property :=
  with_validator truncated_range (Seq [VInt (-1 * _Imax); VInt _Imax])
    (control "trigger_current" "CURR:TRIG?" "CURR:TRIG %d").

Definition trigger_continuous : property :=
  with_map_values
    (with_validator strict_discrete_set
       (Dict [(VBool false, VInt 0); (VBool true, VInt 1)])
       (control "trigger_continuous" "INIT:CONT?" "INIT:CONT %d")).

(** [values=[-1 * _Vmax * 1.01, _Vmax * 1.01]] *)
Definition voltage_protect_limit : property :=
  with_validator truncated_range
    (Seq [VFloat (float_of_Z (-1 * _Vmax) * 1.01)%float;
          VFloat (float_of_Z _Vmax * 1.01)%float])
    (control "voltage_protect_limit" "VOLT:PROT:LIM?" "VOLT:PROT:LIM %d").

Definition current_protect_limit : property :=
  with_validator truncated_range
    (Seq [VFloat (float_of_Z (-1 * _Imax) * 1.01)%float;
          VFloat (float_of_Z _Imax * 1.01)%float])
    (control "current_protect_limit" "CURR:PROT:LIM?" "CURR:PROT:LIM %d").

Definition voltage_limit : property :=
  with_validator truncated_range (Seq [VInt (-1 * _Vmax); VInt _Vmax])
    (control "voltage_limit" "VOLT:LIM?" "VOLT:LIM %d").

Definition current_limit : property :=
  with_validator truncated_range (Seq [VInt (-1 * _Imax); VInt _Imax])
    (control "current_limit" "CURR:LIM?" "CURR:LIM %d").

(** The declared properties.  The two self-test measurements
    ([confidence_test], [bop_test]) decode into an [IntFlag] and are
    left out. *)
Definition properties : list property :=
  [voltage; current; operating_mode; current_setpoint; voltage_setpoint;
   output_enabled; output_mode; trigger_source; trigger_voltage;
   trigger_current; trigger_continuous; voltage_protect_limit;
   current_protect_limit; voltage_limit; current_limit].

Definition arm_single_trigger : M unit :=
  let message := "INIT:IMM; *WAI" in
  write self message.

Definition single_trigger : M unit :=
  let message := "*TRG" in
  write self message.

Definition remote_output : M unit :=
  let message := "OUTP:CONT OFF" in
  write self message.

Definition establish_limits (volt curr store : value) : M unit :=
  let* v := lift (float_times 1.01 volt) in
  fset voltage_protect_limit self v >>
  let* c := lift (float_times 1.01 curr) in
  fset current_protect_limit self c >>
  fset voltage_limit self volt >>
  fset current_limit self curr >>
  if truthy store then
    let message := "MEM:UPD LIM" in
    write self message
  else ret tt.

Definition save_state (slot : Z) : M unit :=
  let message := "*SAV " +:+ py_str (VInt slot) in
  write self message.

Definition recall_state (slot : Z) : M unit :=
  let message := "*RCL " +:+ py_str (VInt slot) +:+ "; *OPC" in
  write self message.

End KepcoBOP5020.

(* ===================================================================== *)
(** * Rohde & Schwarz ZVA vector network analyzer *)
(* ===================================================================== *)

(** ** A channel [ch] of the analyzer *)
Module VNAChannel.
Import Py Framework.

(** [Channel.placeholder] default. *)
Definition class : unit_class :=
  {| cls_name := "VNAChannel"; cls_placeholder := "ch" |}.

Definition off_on : bounds :=
  Dict [(VBool false, VStr "OFF"); (VBool true, VStr "ON")].

Definition power : property :=
  with_dynamic
    (with_validator strict_range (Seq [VInt (-40); VInt 10])
       (control "power" "SOUR{ch}:POW?" "SOUR{ch}:POW %d")).

Definition if_bandwidth : property :=
  with_dynamic
    (with_validator strict_range (Seq [VInt 1; VFloat 1e6])
       (with_cast cast_int
          (control "if_bandwidth" "SENS{ch}:BAND?" "SENS{ch}:BAND %d"))).

Definition selective_bandwidth : property :=
  with_map_values
    (with_validator strict_discrete_set off_on
       (control "selective_bandwidth" "SENS{ch}:BAND:DRED?" "SENS{ch}:BAND:DRED %s")).

Definition sweep_continuity : property :=
  with_map_values
    (with_validator strict_discrete_set off_on
       (control "sweep_continuity" "INIT{ch}:CONT?" "INIT{ch}:CONT %s")).

Definition sweep_number : property :=
  with_dynamic
    (with_validator strict_range (Seq [VInt 1; VInt 999])
       (with_cast cast_int
          (control "sweep_number" "SENS{ch}:SWE:COUN?" "SENS{ch}:SWE:COUN %d"))).

Definition sweep_counter : property :=
  measurement "sweep_counter" "CALC{ch}:DATA:NSW:COUN?".

Definition scope_single_sweep : property :=
  with_map_values
    (with_validator strict_discrete_set
       (Dict [(VBool false, VStr "ALL"); (VBool true, VStr "SING")])
       (control "scope_single_sweep" "INIT:IMM:SCOP?" "INIT:IMM:SCOP %s")).

Definition launch_single_sweep (self : handle) : M unit :=
  write self "INIT{ch}:IMM; *OPC".

Definition sweep_points : property :=
  with_dynamic
    (with_validator strict_range (Seq [VInt 1; VInt 60001])
       (with_cast cast_int
          (control "sweep_points" "SENS{ch}:SWE:POIN?" "SENS{ch}:SWE:POIN %d"))).

Definition sweep_time : property :=
  measurement "sweep_time" "SEN{ch}:SWE:TIME?".

Definition sweep_type : property :=
  with_dynamic
    (with_validator strict_discrete_set
       (Seq [VStr "LIN"; VStr "SEG"; VStr "POW"; VStr "POIN"; VStr "LOG";
             VStr "CW"; VStr "PUL"; VStr "IAMP"; VStr "IPH"])
       (control "sweep_type" "SENSe{ch}:SWEep:TYPE?" "SENSe{ch}:SWEep:TYPE %s")).

(** [set_process=lambda v: 1e9 * v]; no [get_process]. *)
Definition cw_frequency : property :=
  with_set_process (float_times 1e9)
    (with_dynamic
       (with_validator strict_range (Seq [VFloat 0.01; VInt 50])
          (control "cw_frequency" "SENS{ch}:FREQ:CW?" "SENS{ch}:FREQ:CW %d"))).

Definition avg_active : property :=
  with_map_values
    (with_validator strict_discrete_set off_on
       (control "avg_active" "SENSe{ch}:AVER:STAT?" "SENSe{ch}:AVER:STAT %s")).

(** [values=[1, sweep_number]]: in the class body the name
    [sweep_number] is bound to the property object declared above. *)
Definition avg_number : property :=
  with_dynamic
    (with_validator strict_range (Seq [VInt 1; VObject "property"])
       (with_cast cast_int
          (control "avg_number" "SENS{ch}:AVER:COUN?" "SENS{ch}:AVER:COUN %d"))).

Definition avg_counter : property :=
  measurement "avg_counter" "SENS{ch}:AVER:COUN:CURR?".

Definition clear_avg (self : handle) : M unit :=
  let message := "SENSe{ch}:AVER:CLE" in
  write self message.

(** [set_process=lambda v: 1e9 * v], [get_process=lambda v: 1e-9 * v] *)
Definition freq_start : property :=
  with_get_process (float_times 1e-9)
    (with_set_process (float_times 1e9)
       (with_dynamic
          (with_validator strict_range (Seq [VFloat 0.01; VInt 50])
             (control "freq_start" "SENS{ch}:FREQ:STAR?" "SENS{ch}:FREQ:STAR %d")))).

Definition freq_stop : property :=
  with_get_process (float_times 1e-9)
    (with_set_process (float_times 1e9)
       (with_dynamic
          (with_validator strict_range (Seq [VFloat 0.01; VInt 50])
             (control "freq_stop" "SENS{ch}:FREQ:STOP?" "SENS{ch}:FREQ:STOP %d")))).

Definition meas_ports : property :=
  with_dynamic
    (with_validator strict_discrete_set (Seq [VStr "1"; VStr "2"; VStr "1,2"])
       (setting "meas_ports" "CALC{ch}:PAR:DEF:SGR %s")).

Definition meas_traces : property :=
  measurement "meas_traces" "CALC{ch}:DATA:SGR?".

Definition meas_xaxis_values : property :=
  measurement "meas_xaxis_values" "CALC{ch}:DATA:STIM?".

Definition trigger_sequence : property :=
  with_dynamic
    (with_validator strict_discrete_set
       (Seq [VStr "SWE"; VStr "SEG"; VStr "POIN"; VStr "PPO"])
       (control "trigger_sequence" "TRIG{ch}:SEQ:LINK?" "TRIG{ch}:SEQ:LINK %s")).

Definition trigger_source : property :=
  with_dynamic
    (with_validator strict_discrete_set
       (Seq [VStr "IMM"; VStr "EXT"; VStr "TIM"; VStr "MAN"; VStr "PGEN"])
       (control "trigger_source" "TRIG{ch}:SEQ:SOUR?" "TRIG{ch}:SEQ:SOUR %s")).

(** [set_process=lambda v: 1e-3 * v] *)
Definition trigger_timer : property :=
  with_set_process (float_times 1e-3)
    (with_dynamic
       (with_validator strict_range (Seq [VFloat 0.01; VInt 13680000])
          (control "trigger_timer" "TRIG{ch}:SEQ:TIM?" "TRIG{ch}:SEQ:TIM %d"))).

Definition properties : list property :=
  [power; if_bandwidth; selective_bandwidth; sweep_continuity; sweep_number;
   sweep_counter; scope_single_sweep; sweep_points; sweep_time; sweep_type;
   cw_frequency; avg_active; avg_number; avg_counter; freq_start; freq_stop;
   meas_ports; meas_traces; meas_xaxis_values; trigger_sequence;
   trigger_source; trigger_timer].

(** *** A trace [tr] of the channel [ch] *)
Module ChannelTrace.

(** [placeholder = "tr"] *)
Definition class : unit_class :=
  {| cls_name := "ChannelTrace"; cls_placeholder := "tr" |}.

Definition measurement : property :=
  with_dynamic
    (with_validator strict_discrete_set
       (Seq [VStr "S11"; VStr "S12"; VStr "S21"; VStr "S22";
             VStr "Z-S11"; VStr "Z-S12"; VStr "Z-S21"; VStr "Z-S22"])
       (control "measurement"
          "CALC{{ch}}:PAR:MEAS? 'Trc{tr}'" "CALC{{ch}}:PAR:MEAS 'Trc{tr}', '%s'")).

Definition format : property :=
  with_dynamic
    (with_validator strict_discrete_set
       (Seq [VStr "MLIN"; VStr "MLOG"; VStr "UPH"; VStr "PHAS"; VStr "SMIT";
             VStr "REAL"; VStr "IMAG"; VStr "POL"; VStr "ISM"; VStr "GDEL";
             VStr "SWR"])
       (control "format"
          "CALC{{ch}}:PAR:SEL 'Trc{tr}'; :CALC{{ch}}:FORM?"
          "CALC{{ch}}:PAR:SEL 'Trc{tr}'; :CALC{{ch}}:FORM %s")).

Definition data_raw : property :=
  Framework.measurement "data_raw"
    "CALC{{ch}}:PAR:SEL 'Trc{tr}'; :CALC:DATA? SDAT; *WAI".

Definition data_formated : property :=
  Framework.measurement "data_formated"
    "CALC{{ch}}:PAR:SEL 'Trc{tr}'; :CALC:DATA? FDAT; *WAI".

Definition properties : list property :=
  [measurement; format; data_raw; data_formated].

Definition assign_trace_to_window (self : handle) (wnd : string) : M unit :=
  let message := "DISP:WIND" +:+ wnd +:+ ":TRAC:EFE 'Trc{tr}'" in
  write self message.

End ChannelTrace.

Definition create_zva_trace (self : handle) (trc_id measurement : string) : M unit :=
  let message :=
    "CALC{ch}:PAR:SDEF " +:+ "'Trc" +:+ trc_id +:+ "', " +:+ "'" +:+ measurement +:+ "'" in
  write self message.

(** The body of [for i in traces_list], with the list of identifiers
    built so far. *)
Fixpoint define_default_traces_loop (self : handle) (measurements : list string)
    (traces_list : list Z) (traces_id_list : list string) : M unit :=
  match traces_list with
  | [] => ret tt
  | i :: rest =>
      let traces_id_list :=
        (traces_id_list ++ [py_str (unit_id self) +:+ "_" +:+ py_str (VInt i)])%list in
      let* trc_id := lift (str_item traces_id_list (i - 1)) in
      add_child self ChannelTrace.class (IdStr trc_id) >>
      let* trc_id' := lift (str_item traces_id_list (i - 1)) in
      let* m := lift (str_item measurements (i - 1)) in
      create_zva_trace self trc_id' m >>
      define_default_traces_loop self measurements rest traces_id_list
  end.

Definition define_default_traces (self : handle) (measurements : list string) : M unit :=
  let traces_number := Z.of_nat (length measurements) in
  let traces_list := py_range 1 (traces_number + 1) in
  define_default_traces_loop self measurements traces_list [].

(** The [while] loop of [single_sweep_vna].  Every turn reads at least
    one reply, so the number of pending replies, plus one, bounds the
    number of turns. *)
Fixpoint sweep_loop (fuel : nat) (self : handle) (sweeps control idn : value)
    (count2 : Z) : M unit :=
  match fuel with
  | O => raise TransportError
  | S k =>
      let* c := fget sweep_counter self in
      let* continue := lift (py_lt c sweeps) in
      if continue then
        let* c' := fget sweep_counter self in
        let* count := lift (py_int c') in
        if (count =? count2 + 1) && py_eq control (VBool true) then
          let* head := lift (py_add_str idn " Freq. sweeps done:") in
          print (head +:+ py_str (VInt count)) >>
          sweep_loop k self sweeps control idn count
        else sweep_loop k self sweeps control idn count2
      else ret tt
  end.

Definition single_sweep_vna (self : handle) (sweeps control idn : value) : M unit :=
  let count2 := -1 in
  clear_avg self >>
  launch_single_sweep self >>
  (fun w => sweep_loop (S (length (pending (wire w)))) self sweeps control idn count2 w) >>
  if truthy control then
    let* head := lift (py_add_str idn " Freq. sweeps done:") in
    let* c := fget sweep_counter self in
    let* n := lift (py_int c) in
    print (head +:+ py_str (VInt n))
  else ret tt.

End VNAChannel.

(** ** The analyzer *)
Module ZVA.
Import Py Framework.

Definition self : handle := [].

(** The [while channel_number < 1] loop: every turn reads one line of
    input, so the number of lines left, plus one, bounds the turns. *)
Fixpoint read_channel_number (fuel : nat) (name : string) (channel_number : Z) : M Z :=
  if channel_number <? 1 then
    match fuel with
    | O => raise EOFError
    | S k =>
        print ("For " +:+ name +:+ " the number of channels must be at least 1.") >>
        let* line := input "Please enter a valid number of channels: " in
        let* n := lift (parse_int line) in
        read_channel_number k name n
    end
  else ret channel_number.

Definition create_zva_channel (numb : value) : M unit :=
  let numb := py_str numb in
  let message := "CONF:CHAN" +:+ numb +:+ ":STAT ON" in
  write self message >>
  print ("Ch" +:+ numb +:+ " created.").

Fixpoint define_default_channels_loop (channels_list : list Z) : M unit :=
  match channels_list with
  | [] => ret tt
  | channel :: rest =>
      add_child self VNAChannel.class (IdInt channel) >>
      create_zva_channel (VInt channel) >>
      define_default_channels_loop rest
  end.

(** [name] is [self.name]. *)
Definition define_default_channels (name : string) (channel_number : Z) : M unit :=
  let* channel_number :=
    (fun w => read_channel_number (S (length (stdin w))) name channel_number w) in
  let channels_list := py_range 1 (channel_number + 1) in
  define_default_channels_loop channels_list.

Definition delete_zva_channel (numb : value) : M unit :=
  let numb := py_str numb in
  let message := "CONF:CHAN" +:+ numb +:+ ":STAT OFF" in
  write self message >>
  print ("Ch" +:+ numb +:+ " deleted.").

Definition create_window (numb : value) : M unit :=
  let numb := py_str numb in
  let message := "DISP:WIND" +:+ numb +:+ ":STAT ON" in
  write self message >>
  print ("Window " +:+ numb +:+ " created.").

Definition delete_window (numb : value) : M unit :=
  let numb := py_str numb in
  let message := "DISP:WIND" +:+ numb +:+ ":STAT OFF" in
  write self message >>
  print ("Window " +:+ numb +:+ " deleted.").

Definition state : property :=
  setting "state" "MMEM:LOAD:STAT 1,%s".

Definition source : property :=
  with_validator strict_discrete_set (Seq [VStr "OFF"; VStr "ON"])
    (control "source" "OUTP:STAT?" "OUTP:STAT %s").

Definition properties : list property := [state; source].

End ZVA.

(* ===================================================================== *)
(** * Vocabulary of the properties proved below *)
(* ===================================================================== *)

Module Laws.
Import Py Framework.

(** A connection on which nothing was sent and nothing is pending. *)
Definition idle : transport := {| sent := []; pending := []; faults := [] |}.

Definition quiet : world :=
  {| wire := idle; channels := ∅; stdout := []; stdin := [] |}.

(** A quiet world whose device will return [replies]. *)
Definition replying (replies : list string) : world :=
  set_wire {| sent := []; pending := replies; faults := [] |} quiet.

(** A quiet world whose coming write attempts end as [fs] says. *)
Definition failing (fs : list bool) : world :=
  set_wire {| sent := []; pending := []; faults := fs |} quiet.

(** The state after [command] went out through the adapter. *)
Definition after_write (command : string) (w : world) : world :=
  set_wire {| sent := sent (wire w) ++ [command]; pending := pending (wire w);
              faults := tl (faults (wire w)) |} w.

(** The state after the query [q] went out and its reply was read. *)
Definition after_query (q : string) (w : world) : world :=
  set_wire {| sent := sent (wire w) ++ [q]; pending := tl (pending (wire w));
              faults := tl (faults (wire w)) |} w.

(** The next write attempt does not raise. *)
Definition next_write_ok (w : world) : Prop := hd false (faults (wire w)) = false.

(** Handles of a channel of the analyzer and of a trace of a channel. *)
Definition channel (ch : ident) : handle :=
  [{| link_placeholder := cls_placeholder VNAChannel.class; link_id := ch |}].

Definition trace (ch tr : ident) : handle :=
  {| link_placeholder := cls_placeholder VNAChannel.ChannelTrace.class; link_id := tr |}
    :: channel ch.

Definition id_text (i : ident) : string := py_str (ident_value i).

(** Every property declared by the two drivers. *)
Definition all_properties : list property :=
  KepcoBOP5020.properties ++ VNAChannel.properties
    ++ VNAChannel.ChannelTrace.properties ++ ZVA.properties.

(** The numeric bounds a declaration [values=[lo, hi]] states. *)
Definition declared_range (p : property) : option (xnum * xnum) :=
  match prop_values p with
  | Seq [a; b] =>
      match xnum_of a, xnum_of b with
      | Some lo, Some hi => if xlt lo hi then Some (lo, hi) else None
      | _, _ => None
      end
  | _ => None
  end.

Definition in_range (lo hi x : xnum) : bool := xle lo x && xle x hi.

(** The bound a truncating validator puts in the place of an
    out-of-range number: the upper one for a number above it, the lower
    one otherwise. *)
Definition nearest_bound (p : property) (x : xnum) : option value :=
  match bound_keys (prop_values p), declared_range p with
  | [a; b], Some (_, hi) => Some (if xlt hi x then b else a)
  | _, _ => None
  end.

(** The value map [{True: 1, False: 0}], in either order of writing. *)
Definition is_bool_flag_map (p : property) : bool :=
  map_values p &&
  match prop_values p with
  | Dict [(VBool a, VInt x); (VBool b, VInt y)] =>
      (a && negb b && (x =? 1) && (y =? 0)) || (negb a && b && (x =? 0) && (y =? 1))
  | _ => false
  end.

(** No brace in [s]: nothing a format string would interpret. *)
Definition is_brace (c : ascii) : bool := Ascii.eqb c "{" || Ascii.eqb c "}".

Definition plain (l : list ascii) : bool := forallb (fun c => negb (is_brace c)) l.

Definition brace_free (s : string) : bool := plain (list_ascii_of_string s).

(** The text a set command carries: what follows its last space. *)
Fixpoint after_last_space (l acc : list ascii) : list ascii :=
  match l with
  | [] => acc
  | c :: l' => if Ascii.eqb c " " then after_last_space l' l' else after_last_space l' acc
  end.

Definition argument_of (command : string) : string :=
  let l := list_ascii_of_string command in
  string_of_list_ascii (after_last_space l l).

(** Setting then getting, against a device that stores what it is sent
    and reports it back: the reply to the query is the text the last set
    command carried. *)
Definition set_then_get (p : property) (h : handle) (v : value) (w : world)
    : result value * world :=
  match fset p h v w with
  | (Ok _, w1) =>
      let t := wire w1 in
      let reply := argument_of (List.last (sent t) "") in
      fget p h (set_wire {| sent := sent t; pending := reply :: pending t;
                            faults := faults t |} w1)
  | (Raise e, w1) => (Raise e, w1)
  end.

(** The replies consumed between two states. *)
Definition polls_made (before after : world) : nat :=
  length (pending (wire before)) - length (pending (wire after)).

(** A reply that reads as a number not below [target]: the counter has
    reached or exceeded it. *)
Definition reaches (target : xnum) (reply : string) : bool :=
  match parse_float reply with
  | Ok f => negb (xlt (xnum_of_float f) target)
  | Raise _ => false
  end.

(** A reply that reads as a number below [target]. *)
Definition below (target : xnum) (reply : string) : bool :=
  match parse_float reply with
  | Ok f => xlt (xnum_of_float f) target
  | Raise _ => false
  end.

(** A reply that reads as a number [int] accepts. *)
Definition countable (reply : string) : bool :=
  match parse_float reply with
  | Ok f => match trunc_float f with Ok _ => true | Raise _ => false end
  | Raise _ => false
  end.

(** [v] is a string. *)
Definition is_str (v : value) : bool :=
  match v with VStr _ => true | _ => false end.

(** What the progress report of [single_sweep_vna] needs to go through:
    a string to print after, when a line is printed at all, and, for the
    final report, one more reply that reads as a count. *)
Definition report_ready (control idn : value) (rest : list string) : bool :=
  implb (py_eq control (VBool true) || truthy control) (is_str idn)
  && implb (truthy control)
       (match rest with extra :: _ => countable extra | [] => false end).

(** The replies of the turns of a polling loop that reads twice a turn:
    once in the loop test, once in the body. *)
Definition flat_turns (turns : list (string * string)) : list string :=
  flat_map (fun t => [fst t; snd t]) turns.

(** The commands sent between two states. *)
Definition issued (before after : world) : list string :=
  skipn (length (sent (wire before))) (sent (wire after)).

(** A call that sends nothing but the query [q], any number of times. *)
Definition only_queries {A} (q : string) (c : M A) : Prop :=
  forall w, exists n, sent (wire (snd (c w))) = (sent (wire w) ++ repeat q n)%list.

(** The commands of [single_sweep_vna] on channel [ch]. *)
Definition sweep_clear (ch : ident) : string :=
  "SENSe" +:+ py_str (ident_value ch) +:+ ":AVER:CLE".
Definition sweep_start (ch : ident) : string :=
  "INIT" +:+ py_str (ident_value ch) +:+ ":IMM; *OPC".
Definition sweep_query (ch : ident) : string :=
  "CALC" +:+ py_str (ident_value ch) +:+ ":DATA:NSW:COUN?".

(** Position, counted from one, of the first reply that reaches the
    target; [0] when none does. *)
Fixpoint first_reaching (target : xnum) (replies : list string) : nat :=
  match replies with
  | [] => 0
  | r :: rs =>
      if reaches target r then 1
      else match first_reaching target rs with 0%nat => 0 | S n => S (S n) end
  end.

(** The channel mapping with the channels [ids] registered afresh. *)
Definition with_channels (ids : list Z) (m : gmap ident unit_tree)
    : gmap ident unit_tree :=
  fold_left (fun acc i => <[IdInt i := Unit VNAChannel.class ∅]> acc) ids m.

(** *** Templates by segments

    A template read as a sequence of literal text, replacement fields
    [{name}] and escaped fields [{{name}}]. *)
Inductive segment :=
| Lit (s : string)
| Field (name : string)
| Escaped (name : string).

Definition segment_text (g : segment) : string :=
  match g with
  | Lit s => s
  | Field n => "{" +:+ n +:+ "}"
  | Escaped n => "{{" +:+ n +:+ "}}"
  end.

Definition template_text (segs : list segment) : string :=
  fold_right (fun g r => segment_text g +:+ r) "" segs.

(** What one formatting pass with [{key: text}] makes of a segment. *)
Definition fill (text : string) (g : segment) : segment :=
  match g with
  | Lit s => Lit s
  | Field _ => Lit text
  | Escaped n => Field n
  end.

(** A segment a pass with [key] goes through without an error. *)
Definition passes (key : string) (g : segment) : bool :=
  match g with
  | Lit s => brace_free s
  | Field n => String.eqb n key
  | Escaped n => brace_free n
  end.

(** *** Both placeholders at once

    The command a trace of a channel is meant to send: one pass over the
    template that puts the channel identifier in the place of [{{ch}}]
    and the trace identifier in the place of [{tr}], and copies
    everything else. *)
Fixpoint starts_with (prefix l : list ascii) : bool :=
  match prefix, l with
  | [], _ => true
  | p :: prefix', c :: l' => Ascii.eqb p c && starts_with prefix' l'
  | _ :: _, [] => false
  end.

Fixpoint fill_both_loop (ch tr : string) (skip : nat) (t : list ascii) : string :=
  match t with
  | [] => ""
  | c :: t' =>
      match skip with
      | S k => fill_both_loop ch tr k t'
      | O =>
          if starts_with (list_ascii_of_string "{{ch}}") t
          then ch +:+ fill_both_loop ch tr 5 t'
          else if starts_with (list_ascii_of_string "{tr}") t
          then tr +:+ fill_both_loop ch tr 3 t'
          else String c (fill_both_loop ch tr 0 t')
      end
  end.

Definition fill_both (ch tr template : string) : string :=
  fill_both_loop ch tr 0 (list_ascii_of_string template).

(** The state after the command that creates channel [i] went out and
    was announced. *)
Definition channel_created_command (i : Z) : string :=
  "CONF:CHAN" +:+ str_of_Z i +:+ ":STAT ON".

Definition channel_created_line (i : Z) : string :=
  "Ch" +:+ str_of_Z i +:+ " created.".

(** The state after channel [i] was registered in memory, and after its
    creation command went out and was announced. *)
Definition channel_registered (i : Z) (w : world) : world :=
  set_channels (<[IdInt i := Unit VNAChannel.class ∅]> (channels w)) w.

Definition channel_created (i : Z) (w : world) : world :=
  set_stdout (stdout w ++ [channel_created_line i])
    (after_write (channel_created_command i) (channel_registered i w)).

Definition channels_created (ids : list Z) (w : world) : world :=
  fold_left (fun acc i => channel_created i acc) ids w.

(** The state in which a write attempt leaves a world when it raises. *)
Definition after_fault (w : world) : world :=
  set_wire {| sent := sent (wire w); pending := pending (wire w);
              faults := tl (faults (wire w)) |} w.

(** The trace [i] of channel [ch], as [define_default_traces] names it. *)
Definition trace_name (ch : ident) (i : Z) : string :=
  id_text ch +:+ "_" +:+ str_of_Z i.

Definition trace_created_command (ch : ident) (i : Z) (measurement : string) : string :=
  "CALC" +:+ id_text ch +:+ ":PAR:SDEF 'Trc" +:+ trace_name ch i +:+ "', '"
    +:+ measurement +:+ "'".

(** A child mapping with the traces [ids] of channel [ch] registered
    afresh. *)
Definition with_traces (ch : ident) (ids : list Z) (m : gmap ident unit_tree)
    : gmap ident unit_tree :=
  fold_left
    (fun acc i => <[IdStr (trace_name ch i) := Unit VNAChannel.ChannelTrace.class ∅]> acc)
    ids m.

(** The state after trace [i] of channel [ch] was registered in memory,
    and after its creation command went out. *)
Definition trace_registered (ch : ident) (i : Z) (w : world) : world :=
  set_channels
    (update_at [ch]
       (insert (IdStr (trace_name ch i)) (Unit VNAChannel.ChannelTrace.class ∅))
       (channels w)) w.

Definition trace_created (ch : ident) (measurements : list string) (i : Z)
    (w : world) : world :=
  after_write
    (trace_created_command ch i (nth (Z.to_nat (i - 1)) measurements ""))
    (trace_registered ch i w).

Definition traces_created (ch : ident) (measurements : list string) (ids : list Z)
    (w : world) : world :=
  fold_left (fun acc i => trace_created ch measurements i acc) ids w.

End Laws.

(* ===================================================================== *)
(** * Vocabulary of the further properties *)
(* ===================================================================== *)

Module Behaviour.
Import Py Framework Laws.

(** What a set accessor does with a value once the validator let it
    through: [set_process], the value map, the format, the write. *)
Definition send_validated (p : property) (h : handle) (u : value) : M unit :=
  match set_command p with
  | None => raise LookupError
  | Some template =>
      let* v2 := lift (set_process p u) in
      let* v3 := lift (if map_values p then to_wire (prop_values p) v2 else Ok v2) in
      let* command := lift (percent template v3) in
      write h command
  end.

(** The command a set accessor hands to [write] for the candidate [v],
    when every step before the write succeeds. *)
Definition wire_text (p : property) (v : value) : option string :=
  match set_command p with
  | None => None
  | Some template =>
      match validate (prop_validator p) v (prop_values p) with
      | Raise _ => None
      | Ok v1 =>
          match set_process p v1 with
          | Raise _ => None
          | Ok v2 =>
              match (if map_values p then to_wire (prop_values p) v2 else Ok v2) with
              | Raise _ => None
              | Ok v3 =>
                  match percent template v3 with
                  | Ok c => Some c
                  | Raise _ => None
                  end
              end
          end
      end
  end.

Definition same_text (o : option string) (s : string) : bool :=
  match o with Some c => String.eqb c s | None => false end.

(** Commands written to the adapter one after the other. *)
Fixpoint write_all (commands : list string) : M unit :=
  match commands with
  | [] => ret tt
  | c :: rest => adapter_write c >> write_all rest
  end.

(** The state after [commands] went out. *)
Definition after_writes (commands : list string) (w : world) : world :=
  fold_left (fun acc c => after_write c acc) commands w.

(** The first [n] write attempts to come do not raise. *)
Definition writes_ok (n : nat) (w : world) : Prop :=
  forallb negb (firstn n (faults (wire w))) = true.

(** The commands [establish_limits] sends for whole-number limits. *)
Definition limit_commands (volt curr : Z) (store : value) : list string :=
  ["VOLT:PROT:LIM " +:+ str_of_Z volt; "CURR:PROT:LIM " +:+ str_of_Z curr;
   "VOLT:LIM " +:+ str_of_Z volt; "CURR:LIM " +:+ str_of_Z curr]
  ++ (if truthy store then ["MEM:UPD LIM"] else []).

(** The declared values of [p] are strings. *)
Definition string_valued (p : property) : bool :=
  match prop_values p with
  | Seq l => forallb is_str l
  | Dict _ => false
  end.



(** A call that prints nothing. *)
Definition silent {A} (c : M A) : Prop :=
  forall w, stdout (snd (c w)) = stdout w.

(** The entry of [OPERATING_MODES] at the index [i], as Python's
    indexing finds it. *)
Definition mode_at (i : Z) : result value :=
  if (i =? 0) || (i =? -2) then Ok (VStr "VOLT")
  else if (i =? 1) || (i =? -1) then Ok (VStr "CURR")
  else Raise IndexError.

(** A template cut at its first [%]: the text before it, the conversion
    character after it, the text that follows. *)
Fixpoint cut_conversion (t : list ascii) : option (list ascii * ascii * list ascii) :=
  match t with
  | [] => None
  | c :: t1 =>
      if Ascii.eqb c "%" then
        match t1 with
        | [] => None
        | k :: t2 => Some ([], k, t2)
        end
      else
        match cut_conversion t1 with
        | Some (pre, k, post) => Some (c :: pre, k, post)
        | None => None
        end
  end.

Definition conversion_of (template : string) : option (string * ascii * string) :=
  match cut_conversion (list_ascii_of_string template) with
  | Some (pre, k, post) => Some (string_of_list_ascii pre, k, string_of_list_ascii post)
  | None => None
  end.

(** A value map keyed by the two booleans, in either order of writing. *)
Definition bool_keyed (p : property) : bool :=
  map_values p &&
  match prop_values p with
  | Dict [(VBool a, _); (VBool b, _)] => xorb a b
  | _ => false
  end.

(** The command a channel is meant to send: one pass over the template
    that puts the channel identifier in the place of every [{ch}] and
    copies everything else. *)
Fixpoint fill_ch_loop (ch : string) (skip : nat) (t : list ascii) : string :=
  match t with
  | [] => ""
  | c :: t' =>
      match skip with
      | S k => fill_ch_loop ch k t'
      | O =>
          if starts_with (list_ascii_of_string "{ch}") t
          then ch +:+ fill_ch_loop ch 3 t'
          else String c (fill_ch_loop ch 0 t')
      end
  end.

Definition fill_ch (ch template : string) : string :=
  fill_ch_loop ch 0 (list_ascii_of_string template).

(** A template without escaped braces read as segments: the text
    outside the braces and the field names inside them.  [lit] and
    [field] hold, reversed, what was read of the current segment. *)
Fixpoint segments_loop (t lit : list ascii) (field : option (list ascii))
    : list segment :=
  match t with
  | [] => [Lit (string_of_list_ascii (rev lit))]
  | c :: t' =>
      match field with
      | None =>
          if Ascii.eqb c "{"
          then Lit (string_of_list_ascii (rev lit)) :: segments_loop t' [] (Some [])
          else segments_loop t' (c :: lit) None
      | Some name =>
          if Ascii.eqb c "}"
          then Field (string_of_list_ascii (rev name)) :: segments_loop t' [] None
          else segments_loop t' [] (Some (c :: name))
      end
  end.

Definition segments_of (template : string) : list segment :=
  segments_loop (list_ascii_of_string template) [] None.

(** The set command of [p] at the float [f] is [pre] followed by a
    number, and that number reads back as [f]. *)
Definition echo_ok (p : property) (pre : string) (f : float) : bool :=
  match wire_text p (VFloat f) with
  | Some c =>
      String.eqb c (pre +:+ argument_of c)
      && match parse_float (argument_of c) with
         | Ok g => PrimFloat.Leibniz.eqb g f
         | Raise _ => false
         end
  | None => false
  end.

End Behaviour.

(* ===================================================================== *)
(** * Properties *)
(* ===================================================================== *)

Import Py Framework Laws.

(** ** Calls *)

Lemma bind_ok {A B} (c : M A) (k : A -> M B) (w w' : world) (a : A) :
  c w = (Ok a, w') -> bind c k w = k a w'.
Proof. intros H. unfold bind. rewrite H. reflexivity. Qed.

Lemma bind_raise {A B} (c : M A) (k : A -> M B) (w w' : world) (e : error) :
  c w = (Raise e, w') -> bind c k w = (Raise e, w').
Proof. intros H. unfold bind. rewrite H. reflexivity. Qed.

Lemma adapter_write_ok (command : string) (w : world) :
  next_write_ok w -> adapter_write command w = (Ok tt, after_write command w).
Proof.
  unfold next_write_ok, adapter_write, after_write.
  destruct (faults (wire w)) as [|[] fs]; simpl; intros H;
    try discriminate H; reflexivity.
Qed.

Lemma adapter_write_fault (command : string) (w : world) (fs : list bool) :
  faults (wire w) = true :: fs ->
  adapter_write command w =
    (Raise TransportError,
     set_wire {| sent := sent (wire w); pending := pending (wire w); faults := fs |} w).
Proof. intros H. unfold adapter_write. rewrite H. reflexivity. Qed.

(** ** The exact order on numbers *)

Lemma py_le_num (a b : value) (x y : xnum) :
  xnum_of a = Some x -> xnum_of b = Some y -> py_le a b = Ok (xle x y).
Proof. intros Ha Hb. unfold py_le. rewrite Ha, Hb. reflexivity. Qed.

Lemma py_lt_num (a b : value) (x y : xnum) :
  xnum_of a = Some x -> xnum_of b = Some y -> py_lt a b = Ok (xlt x y).
Proof. intros Ha Hb. unfold py_lt. rewrite Ha, Hb. reflexivity. Qed.

Lemma xlt_asym (x y : xnum) : xlt x y = true -> xlt y x = false.
Proof.
  unfold xlt. destruct x as [|a|m1 e1], y as [|b|m2 e2]; simpl; try discriminate;
    try (destruct a; try destruct b; simpl; congruence).
  - destruct b; simpl; congruence.
  - rewrite (Z.min_comm e2 e1), (Z.compare_antisym (m1 * _) (m2 * _)).
    destruct (m1 * _ ?= m2 * _); simpl; congruence.
Qed.

Lemma xlt_xle (x y : xnum) : xlt x y = true -> xle x y = true.
Proof. unfold xlt, xle. destruct (xcompare x y) as [[]|]; congruence. Qed.

Lemma xle_refl_left (x y : xnum) : xlt x y = true -> xle x x = true.
Proof.
  unfold xlt, xle. destruct x as [|a|m e]; simpl.
  - discriminate.
  - intros _. rewrite eqb_reflx. reflexivity.
  - intros _. rewrite Z.compare_refl. reflexivity.
Qed.

Lemma xle_refl_right (x y : xnum) : xlt x y = true -> xle y y = true.
Proof.
  unfold xlt, xle. destruct y as [|a|m e]; simpl.
  - destruct x; discriminate.
  - intros _. rewrite eqb_reflx. reflexivity.
  - intros _. rewrite Z.compare_refl. reflexivity.
Qed.

(** ** Range validators *)

Section Ranges.
Variables (a b v : value) (lo hi x : xnum).
Hypothesis Ha : xnum_of a = Some lo.
Hypothesis Hb : xnum_of b = Some hi.
Hypothesis Hv : xnum_of v = Some x.
Hypothesis Hlt : xlt lo hi = true.

Lemma py_min_pair : py_min [a; b] = Ok a.
Proof.
  simpl. rewrite (py_lt_num b a hi lo Hb Ha), (xlt_asym lo hi Hlt). reflexivity.
Qed.

Lemma py_max_pair : py_max [a; b] = Ok b.
Proof.
  simpl. unfold py_gt. rewrite (py_lt_num a b lo hi Ha Hb), Hlt. reflexivity.
Qed.

Lemma within_pair : within v [a; b] = Ok (in_range lo hi x).
Proof.
  unfold within, in_range. rewrite py_min_pair. cbn [rbind].
  rewrite (py_le_num a v lo x Ha Hv).
  cbn [rbind]. destruct (xle lo x); [|reflexivity].
  rewrite py_max_pair. simpl. apply py_le_num; assumption.
Qed.

Lemma strict_range_outside :
  in_range lo hi x = false -> run_strict_range v [a; b] = Raise ValueError.
Proof. intros H. unfold run_strict_range. rewrite within_pair, H. reflexivity. Qed.

Lemma strict_range_inside :
  in_range lo hi x = true -> run_strict_range v [a; b] = Ok v.
Proof. intros H. unfold run_strict_range. rewrite within_pair, H. reflexivity. Qed.

Lemma truncated_range_outside :
  in_range lo hi x = false ->
  run_truncated_range v [a; b] = Ok (if xlt hi x then b else a).
Proof.
  intros H. unfold run_truncated_range. rewrite within_pair, H. cbn [rbind].
  rewrite py_max_pair. cbn [rbind]. unfold py_gt.
  rewrite (py_lt_num b v hi x Hb Hv). cbn [rbind].
  destruct (xlt hi x); [reflexivity | apply py_min_pair].
Qed.
End Ranges.

Lemma declared_range_inv (p : property) (lo hi : xnum) :
  declared_range p = Some (lo, hi) ->
  exists a b, prop_values p = Seq [a; b] /\ xnum_of a = Some lo
              /\ xnum_of b = Some hi /\ xlt lo hi = true.
Proof.
  unfold declared_range. intros H.
  destruct (prop_values p) as [[|a [|b [|c l]]]|kv]; try discriminate H.
  destruct (xnum_of a) as [la|] eqn:Ea; try discriminate H.
  destruct (xnum_of b) as [lb|] eqn:Eb; try discriminate H.
  destruct (xlt la lb) eqn:El; try discriminate H.
  injection H as <- <-. exists a, b. repeat split; assumption.
Qed.

(** A strict range validator stops an out-of-range number before
    anything else happens. *)
Lemma fset_strict_range_rejects (p : property) (lo hi x : xnum) (v : value)
    (h : handle) (w : world) :
  prop_validator p = strict_range ->
  (exists t, set_command p = Some t) ->
  declared_range p = Some (lo, hi) ->
  xnum_of v = Some x ->
  in_range lo hi x = false ->
  fset p h v w = (Raise ValueError, w).
Proof.
  intros Hk [t Ht] Hr Hv Hout.
  destruct (declared_range_inv p lo hi Hr) as (a & b & Hvals & Ha & Hb & Hlt).
  unfold fset. rewrite Ht. unfold validate. rewrite Hk, Hvals. simpl bound_keys.
  rewrite (strict_range_outside a b v lo hi x Ha Hb Hv Hlt Hout). reflexivity.
Qed.

(** A truncating range validator replaces an out-of-range number by the
    nearest bound, which then goes the way of any accepted value. *)
Lemma fset_truncated_range_clamps (p : property) (lo hi x : xnum) (v bound : value)
    (h : handle) (w : world) :
  prop_validator p = truncated_range ->
  declared_range p = Some (lo, hi) ->
  xnum_of v = Some x ->
  in_range lo hi x = false ->
  nearest_bound p x = Some bound ->
  fset p h v w = fset p h bound w.
Proof.
  intros Hk Hr Hv Hout Hn.
  destruct (declared_range_inv p lo hi Hr) as (a & b & Hvals & Ha & Hb & Hlt).
  unfold nearest_bound in Hn. rewrite Hr, Hvals in Hn. simpl in Hn.
  injection Hn as <-.
  unfold fset. destruct (set_command p) as [t|]; [|reflexivity].
  unfold validate. rewrite Hk, Hvals. simpl bound_keys.
  rewrite (truncated_range_outside a b v lo hi x Ha Hb Hv Hlt Hout).
  assert (Hin : run_truncated_range (if xlt hi x then b else a) [a; b]
                = Ok (if xlt hi x then b else a)).
  { unfold run_truncated_range.
    destruct (xlt hi x).
    - rewrite (within_pair a b b lo hi hi Ha Hb Hb Hlt). unfold in_range.
      rewrite (xlt_xle lo hi Hlt), (xle_refl_right lo hi Hlt). reflexivity.
    - rewrite (within_pair a b a lo hi lo Ha Hb Ha Hlt). unfold in_range.
      rewrite (xlt_xle lo hi Hlt), (xle_refl_left lo hi Hlt). reflexivity. }
  rewrite Hin. reflexivity.
Qed.

(** An accepted value is formatted and written; nothing else happens. *)
Lemma fset_accepted (p : property) (t command : string) (v v1 v2 v3 : value)
    (h : handle) (w : world) :
  set_command p = Some t ->
  validate (prop_validator p) v (prop_values p) = Ok v1 ->
  set_process p v1 = Ok v2 ->
  (if map_values p then to_wire (prop_values p) v2 else Ok v2) = Ok v3 ->
  percent t v3 = Ok command ->
  fset p h v w = write h command w.
Proof.
  intros Ht Hval Hsp Hmap Hfmt. unfold fset. rewrite Ht, Hval.
  unfold bind, lift, ret. rewrite Hsp, Hmap, Hfmt. reflexivity.
Qed.

Lemma fset_truncated_writes (p : property) (t ca cb : string) (a b v : value)
    (lo hi x : xnum) (h : handle) (w : world) :
  prop_validator p = truncated_range ->
  set_command p = Some t ->
  prop_values p = Seq [a; b] ->
  declared_range p = Some (lo, hi) ->
  (forall u, set_process p u = Ok u) ->
  map_values p = false ->
  percent t a = Ok ca ->
  percent t b = Ok cb ->
  xnum_of v = Some x ->
  in_range lo hi x = false ->
  exists t' bound command,
    set_command p = Some t' /\ nearest_bound p x = Some bound /\
    percent t' bound = Ok command /\ fset p h v w = write h command w.
Proof.
  intros Hk Ht Hvals Hr Hsp Hmap Hca Hcb Hv Hout.
  destruct (declared_range_inv p lo hi Hr) as (a' & b' & Hvals' & Ha & Hb & Hlt).
  rewrite Hvals in Hvals'. injection Hvals' as <- <-.
  assert (Hn : nearest_bound p x = Some (if xlt hi x then b else a)).
  { unfold nearest_bound. rewrite Hr, Hvals. reflexivity. }
  exists t, (if xlt hi x then b else a), (if xlt hi x then cb else ca).
  split; [assumption|]. split; [assumption|]. split.
  - destruct (xlt hi x); assumption.
  - apply (fset_accepted p t _ v (if xlt hi x then b else a)
             (if xlt hi x then b else a) (if xlt hi x then b else a)).
    + assumption.
    + unfold validate. rewrite Hk, Hvals. simpl bound_keys.
      apply (truncated_range_outside a b v lo hi x Ha Hb Hv Hlt Hout).
    + apply Hsp.
    + rewrite Hmap. reflexivity.
    + destruct (xlt hi x); assumption.
Qed.

Ltac each_property H :=
  unfold all_properties, KepcoBOP5020.properties, VNAChannel.properties,
    VNAChannel.ChannelTrace.properties, ZVA.properties in H;
  cbn [app In] in H;
  repeat (destruct H as [<- | H]); [.. | contradiction H].

(** C1 (amended).  For every property of the two drivers declared with a
    numeric range [lo, hi], and every number outside that range: when the
    validator is [strict_range] (the channel properties of the analyzer,
    [power] among them) the assignment raises [ValueError] and leaves the
    state, the transport included, as it was; when the validator is
    [truncated_range] (the properties of the power supply,
    [voltage_setpoint] among them) the assignment does what assigning the
    nearest bound does: that bound is formatted into the set command and
    the command is written. *)
Theorem range_validator_out_of_range (p : property) (lo hi x : xnum) (v : value)
    (h : handle) (w : world) :
  In p all_properties ->
  declared_range p = Some (lo, hi) ->
  xnum_of v = Some x ->
  in_range lo hi x = false ->
  (prop_validator p = strict_range -> fset p h v w = (Raise ValueError, w)) /\
  (prop_validator p = truncated_range ->
     exists t bound command,
       set_command p = Some t /\ nearest_bound p x = Some bound /\
       percent t bound = Ok command /\ fset p h v w = write h command w).
Proof.
  intros Hin Hr Hv Hout.
  each_property Hin; try (vm_compute in Hr; discriminate Hr);
    (split; intros Hk; try discriminate Hk;
     first
     [ apply (fset_strict_range_rejects _ lo hi x);
       [ reflexivity | eexists; reflexivity | assumption.. ]
     | eapply fset_truncated_writes;
       [ reflexivity | reflexivity | reflexivity | exact Hr
       | intros; reflexivity | reflexivity
       | vm_compute; reflexivity | vm_compute; reflexivity
       | exact Hv | exact Hout ] ]).
Qed.

Ltac in_properties :=
  unfold all_properties, KepcoBOP5020.properties, VNAChannel.properties,
    VNAChannel.ChannelTrace.properties, ZVA.properties;
  cbn [app In]; repeat (first [left; reflexivity | right]).

(** [power] at 11, above its range [-40, 10], and [voltage_setpoint] at 60,
    above its range [-50, 50]. *)
Lemma range_validator_out_of_range_witness :
  fset VNAChannel.power (channel (IdInt 1)) (VInt 11) quiet = (Raise ValueError, quiet)
  /\ exists t bound command,
       set_command KepcoBOP5020.voltage_setpoint = Some t
       /\ nearest_bound KepcoBOP5020.voltage_setpoint (XFin 60 0) = Some bound
       /\ percent t bound = Ok command
       /\ fset KepcoBOP5020.voltage_setpoint KepcoBOP5020.self (VInt 60) quiet
          = write KepcoBOP5020.self command quiet.
Proof.
  split.
  - apply (range_validator_out_of_range VNAChannel.power
             (XFin (-40) 0) (XFin 10 0) (XFin 11 0) (VInt 11) (channel (IdInt 1)) quiet);
      [in_properties | reflexivity | reflexivity | reflexivity | reflexivity].
  - apply (range_validator_out_of_range KepcoBOP5020.voltage_setpoint
             (XFin (-50) 0) (XFin 50 0) (XFin 60 0) (VInt 60) KepcoBOP5020.self quiet);
      [in_properties | reflexivity | reflexivity | reflexivity | reflexivity].
Defined.

(** C1 (counterexample).  [voltage_setpoint] of the power supply has a
    numeric-range validator and the bounds [-50, 50]; assigning 60 raises
    nothing and writes [VOLTage 50]. *)
Lemma voltage_setpoint_out_of_range_is_written :
  In KepcoBOP5020.voltage_setpoint all_properties
  /\ prop_validator KepcoBOP5020.voltage_setpoint = truncated_range
  /\ declared_range KepcoBOP5020.voltage_setpoint = Some (XFin (-50) 0, XFin 50 0)
  /\ in_range (XFin (-50) 0) (XFin 50 0) (XFin 60 0) = false
  /\ fset KepcoBOP5020.voltage_setpoint KepcoBOP5020.self (VInt 60) quiet
     = (Ok tt, after_write "VOLTage 50" quiet).
Proof. split; [in_properties | repeat split; reflexivity]. Qed.

(** ** [avg_number] *)

(** C9.  Whatever value is assigned to [avg_number], its validator
    compares against the bounds [[1, <property object>]]; ordering a
    property object with a number is a [TypeError], raised before the
    candidate is looked at.  No candidate is accepted and nothing is
    written. *)
Theorem avg_number_never_validates (v : value) (h : handle) (w : world) :
  prop_values VNAChannel.avg_number = Seq [VInt 1; VObject "property"]
  /\ fset VNAChannel.avg_number h v w = (Raise TypeError, w).
Proof. split; reflexivity. Qed.

(** ** Memory slots of the power supply *)

(** C10.  For every integer [slot], with a transport that accepts the
    write, [save_state] writes exactly [*SAV <slot>] and [recall_state]
    writes exactly [*RCL <slot>; *OPC]; no validator is involved, for no
    slot does either raise [ValueError]. *)
Theorem save_recall_write_unvalidated (slot : Z) (w : world) :
  (next_write_ok w ->
     KepcoBOP5020.save_state slot w
       = (Ok tt, after_write ("*SAV " +:+ str_of_Z slot) w)
     /\ KepcoBOP5020.recall_state slot w
       = (Ok tt, after_write ("*RCL " +:+ str_of_Z slot +:+ "; *OPC") w))
  /\ fst (KepcoBOP5020.save_state slot w) <> Raise ValueError
  /\ fst (KepcoBOP5020.recall_state slot w) <> Raise ValueError.
Proof.
  split; [intros Hok; split; apply adapter_write_ok; exact Hok |].
  unfold KepcoBOP5020.save_state, KepcoBOP5020.recall_state, KepcoBOP5020.self.
  cbn [write]. unfold adapter_write.
  split; destruct (faults (wire w)) as [|[] fs]; simpl; discriminate.
Qed.

(** Slot 150, outside the documented 1-99. *)
Lemma save_recall_write_unvalidated_witness :
  KepcoBOP5020.save_state 150 quiet = (Ok tt, after_write "*SAV 150" quiet)
  /\ KepcoBOP5020.recall_state 150 quiet = (Ok tt, after_write "*RCL 150; *OPC" quiet).
Proof.
  apply (proj1 (save_recall_write_unvalidated 150 quiet)). reflexivity.
Defined.

(** ** Queries *)

Lemma ask_instrument (q r : string) (rest : list string) (w : world) :
  next_write_ok w ->
  pending (wire w) = r :: rest ->
  ask [] q w = (Ok r, after_query q w).
Proof.
  intros Hok Hp. unfold ask. cbn [write].
  rewrite (bind_ok _ _ w (after_write q w) tt (adapter_write_ok q w Hok)).
  unfold read, adapter_read, after_write, after_query. simpl. rewrite Hp. reflexivity.
Qed.

Lemma fget_decoded (p : property) (q r : string) (v v' v'' : value) (h : handle)
    (w w' : world) :
  get_command p = Some q ->
  ask h q w = (Ok r, w') ->
  run_cast (prop_cast p) r = Ok v ->
  get_process p v = Ok v' ->
  (if map_values p then from_wire (prop_values p) v' else Ok v') = Ok v'' ->
  fget p h w = (Ok v'', w').
Proof.
  intros Hq Hask Hcast Hgp Hmap. unfold fget. rewrite Hq.
  rewrite (bind_ok _ _ w w' r Hask). unfold bind, lift, ret.
  rewrite Hcast, Hgp, Hmap. reflexivity.
Qed.

(** ** Boolean flags *)

(** C6.  For every property of the drivers mapped by [{True: 1, False: 0}]
    ([output_enabled], [trigger_continuous]): assigning [True] writes the
    set command with the wire value [1] formatted into it, and the reply
    ["0"] to the query decodes to [False]. *)
Theorem bool_flag_map_wire_values (p : property) (w : world) :
  In p all_properties ->
  is_bool_flag_map p = true ->
  exists t q command,
    set_command p = Some t /\ get_command p = Some q
    /\ percent t (VInt 1) = Ok command
    /\ fset p KepcoBOP5020.self (VBool true) w = write KepcoBOP5020.self command w
    /\ forall rest, next_write_ok w -> pending (wire w) = "0" :: rest ->
         fget p KepcoBOP5020.self w = (Ok (VBool false), after_query q w).
Proof.
  intros Hin Hmap.
  each_property Hin; try (vm_compute in Hmap; discriminate Hmap);
    (do 3 eexists; split; [reflexivity|]; split; [reflexivity|];
     split; [vm_compute; reflexivity|]; split; [reflexivity|];
     intros rest Hok Hp;
     eapply fget_decoded;
     [ reflexivity | apply (ask_instrument _ "0" rest w Hok Hp)
     | reflexivity | reflexivity | reflexivity ]).
Qed.

(** [output_enabled]: [True] on the way out, ["0"] on the way in. *)
Lemma bool_flag_map_wire_values_witness :
  fset KepcoBOP5020.output_enabled KepcoBOP5020.self (VBool true) quiet
    = (Ok tt, after_write "OUTP:CONT OFF; OUTPut 1" quiet)
  /\ fget KepcoBOP5020.output_enabled KepcoBOP5020.self (replying ["0"])
    = (Ok (VBool false), after_query "OUTPut?" (replying ["0"])).
Proof.
  destruct (bool_flag_map_wire_values KepcoBOP5020.output_enabled quiet
              ltac:(in_properties) eq_refl)
    as (t & q & command & Ht & Hq & Hc & Hset & _).
  destruct (bool_flag_map_wire_values KepcoBOP5020.output_enabled (replying ["0"])
              ltac:(in_properties) eq_refl)
    as (t' & q' & command' & Ht' & Hq' & _ & _ & Hget).
  injection Ht as <-. injection Hq' as <-. injection Hc as <-.
  split; [exact Hset | exact (Hget [] eq_refl eq_refl)].
Defined.

(** ** Frequencies *)

(** C7 (the code at the failing input).  Assigning 2.4 (GHz) to
    [freq_start], [freq_stop] and [cw_frequency] writes 2400000000 (Hz).
    The reply ["1.0e10"] decodes to 10.0 (GHz) for [freq_start] and
    [freq_stop]; for [cw_frequency], declared without a [get_process],
    it decodes to 10000000000.0: the reading stays in Hz. *)
Theorem cw_frequency_reads_hertz :
  let ch := channel (IdInt 1) in
  fset VNAChannel.freq_start ch (VFloat 2.4) quiet
    = (Ok tt, after_write "SENS1:FREQ:STAR 2400000000" quiet)
  /\ fset VNAChannel.freq_stop ch (VFloat 2.4) quiet
    = (Ok tt, after_write "SENS1:FREQ:STOP 2400000000" quiet)
  /\ fset VNAChannel.cw_frequency ch (VFloat 2.4) quiet
    = (Ok tt, after_write "SENS1:FREQ:CW 2400000000" quiet)
  /\ fst (fget VNAChannel.freq_start ch (replying ["1.0e10"])) = Ok (VFloat 10)
  /\ fst (fget VNAChannel.freq_stop ch (replying ["1.0e10"])) = Ok (VFloat 10)
  /\ fst (fget VNAChannel.cw_frequency ch (replying ["1.0e10"])) = Ok (VFloat 1e10)
  /\ py_eq (VFloat 1e10) (VFloat 10) = false.
Proof. repeat split; vm_compute; reflexivity. Qed.

(** ** Round trips *)

(** C2 (the code at the failing input).  2.4 lies within the bounds
    [0.01, 50] of [cw_frequency]; setting it and getting it back from a
    device that reports what it was sent returns 2400000000.0, the value
    in Hz, not 2.4.  The same round trip returns the value set for
    [voltage_setpoint] at 12.5. *)
Theorem cw_frequency_round_trip_in_hertz :
  declared_range VNAChannel.cw_frequency
    = Some (xnum_of_float 0.01, XFin 50 0)
  /\ in_range (xnum_of_float 0.01) (XFin 50 0) (xnum_of_float 2.4) = true
  /\ fst (set_then_get VNAChannel.cw_frequency (channel (IdInt 1)) (VFloat 2.4) quiet)
     = Ok (VFloat 2400000000)
  /\ py_eq (VFloat 2400000000) (VFloat 2.4) = false
  /\ fst (set_then_get KepcoBOP5020.voltage_setpoint KepcoBOP5020.self
            (VFloat 12.5) quiet)
     = Ok (VFloat 12.5).
Proof. repeat split; vm_compute; reflexivity. Qed.

(** ** Format strings *)

Lemma list_ascii_of_string_app (s t : string) :
  list_ascii_of_string (s +:+ t) = (list_ascii_of_string s ++ list_ascii_of_string t)%list.
Proof. induction s as [|c s IH]; simpl; [reflexivity | rewrite IH; reflexivity]. Qed.

Lemma string_of_list_ascii_app (l k : list ascii) :
  string_of_list_ascii (l ++ k) = string_of_list_ascii l +:+ string_of_list_ascii k.
Proof. induction l as [|c l IH]; simpl; [reflexivity | rewrite IH; reflexivity]. Qed.

Lemma append_cons (c : ascii) (s t : string) : String c s +:+ t = String c (s +:+ t).
Proof. reflexivity. Qed.

Lemma append_assoc (s t u : string) : (s +:+ t) +:+ u = s +:+ t +:+ u.
Proof.
  induction s as [|c s IH]; [reflexivity|]. rewrite !append_cons, IH. reflexivity.
Qed.

Lemma is_brace_false (c : ascii) :
  is_brace c = false -> Ascii.eqb c "{" = false /\ Ascii.eqb c "}" = false.
Proof. unfold is_brace. apply orb_false_elim. Qed.

Lemma plain_cons (c : ascii) (l : list ascii) :
  plain (c :: l) = true -> is_brace c = false /\ plain l = true.
Proof.
  unfold plain. simpl. intros H. apply andb_prop in H as [Hc Hl].
  split; [apply negb_true_iff; exact Hc | exact Hl].
Qed.

Section FormatLoop.
Variables key text : string.

Lemma format_loop_plain (l rest : list ascii) :
  plain l = true ->
  format_loop key text None (l ++ rest)
  = rbind (format_loop key text None rest)
      (fun r => Ok (string_of_list_ascii l +:+ r)).
Proof.
  induction l as [|c l IH]; intros H.
  - simpl. destruct (format_loop key text None rest); reflexivity.
  - apply plain_cons in H as [Hc Hl]. apply is_brace_false in Hc as [Ho Hcl].
    cbn [app format_loop]. rewrite Ho, Hcl, (IH Hl).
    destruct (format_loop key text None rest); reflexivity.
Qed.

Lemma format_loop_name (l acc rest : list ascii) :
  plain l = true ->
  format_loop key text (Some acc) (l ++ "}"%char :: rest)
  = rbind (lookup_field key text (rev acc ++ l))
      (fun s => rbind (format_loop key text None rest) (fun r => Ok (s +:+ r))).
Proof.
  revert acc. induction l as [|c l IH]; intros acc H.
  - cbn [app format_loop]. rewrite app_nil_r. reflexivity.
  - apply plain_cons in H as [Hc Hl]. apply is_brace_false in Hc as [Ho Hcl].
    cbn [app format_loop]. rewrite Ho, Hcl, (IH (c :: acc) Hl).
    cbn [rev]. rewrite <- app_assoc. reflexivity.
Qed.

Lemma format_loop_field (l rest : list ascii) :
  plain l = true ->
  format_loop key text None ("{"%char :: l ++ "}"%char :: rest)
  = rbind (lookup_field key text l)
      (fun s => rbind (format_loop key text None rest) (fun r => Ok (s +:+ r))).
Proof.
  intros H.
  transitivity (format_loop key text (Some []) (l ++ "}"%char :: rest)).
  - destruct l as [|c l]; [reflexivity|].
    apply plain_cons in H as [Hc _]. apply is_brace_false in Hc as [Ho _].
    cbn [app format_loop]. rewrite Ho. reflexivity.
  - rewrite (format_loop_name l [] rest H). reflexivity.
Qed.

Lemma format_loop_escaped (l rest : list ascii) :
  plain l = true ->
  format_loop key text None
    ("{"%char :: "{"%char :: l ++ "}"%char :: "}"%char :: rest)
  = rbind (format_loop key text None rest)
      (fun r => Ok ("{" +:+ string_of_list_ascii l +:+ "}" +:+ r)).
Proof.
  intros H. cbn [format_loop]. simpl Ascii.eqb. cbv iota.
  rewrite (format_loop_plain l _ H). cbn [format_loop]. simpl Ascii.eqb. cbv iota.
  destruct (format_loop key text None rest); reflexivity.
Qed.

(** One pass fills the fields named [key] and peels one layer of
    escaping. *)
Lemma format_pass (segs : list segment) :
  forallb (passes key) segs = true ->
  brace_free key = true ->
  format_map (template_text segs) key text
  = Ok (template_text (map (fill text) segs)).
Proof.
  intros Hsegs Hkey. unfold format_map.
  induction segs as [|g segs IH]; [reflexivity|].
  cbn [forallb] in Hsegs. apply andb_prop in Hsegs as [Hg Hrest].
  specialize (IH Hrest).
  cbn [template_text fold_right map]. fold (template_text segs).
  fold (template_text (map (fill text) segs)).
  rewrite list_ascii_of_string_app.
  destruct g as [s|n|n]; cbn [passes segment_text fill] in *.
  - rewrite (format_loop_plain _ _ Hg), IH. cbn [rbind].
    rewrite string_of_list_ascii_of_string. reflexivity.
  - apply String.eqb_eq in Hg. subst n.
    rewrite list_ascii_of_string_app. cbn [list_ascii_of_string app].
    rewrite list_ascii_of_string_app. cbn [list_ascii_of_string app].
    rewrite <- app_assoc. cbn [app].
    rewrite (format_loop_field _ _ Hkey), IH.
    unfold lookup_field. rewrite string_of_list_ascii_of_string, String.eqb_refl.
    reflexivity.
  - rewrite list_ascii_of_string_app. cbn [list_ascii_of_string app].
    rewrite list_ascii_of_string_app. cbn [list_ascii_of_string app].
    rewrite <- app_assoc. cbn [app].
    rewrite (format_loop_escaped _ _ Hg), IH. cbn [rbind].
    rewrite string_of_list_ascii_of_string, !append_assoc. reflexivity.
Qed.
End FormatLoop.

(** ** Traces: two placeholders *)

(** A command of a trace goes through two passes: the trace fills
    [{tr}], the channel fills what the first pass left as [{ch}]. *)
Lemma write_trace_segments (ch tr : ident) (segs : list segment) (w : world) :
  forallb (passes "tr") segs = true ->
  forallb (passes "ch") (map (fill (id_text tr)) segs) = true ->
  write (trace ch tr) (template_text segs) w
  = adapter_write
      (template_text (map (fill (id_text ch)) (map (fill (id_text tr)) segs))) w.
Proof.
  intros H1 H2. unfold trace, channel. cbn [write].
  unfold insert_id. cbn [link_placeholder link_id cls_placeholder
                         VNAChannel.class VNAChannel.ChannelTrace.class].
  fold (id_text tr). fold (id_text ch).
  rewrite (format_pass "tr" (id_text tr) segs H1 eq_refl).
  cbn [lift]. unfold bind at 1. cbn [ret].
  rewrite (format_pass "ch" (id_text ch) _ H2 eq_refl).
  reflexivity.
Qed.

Lemma write_channel_segments (ch : ident) (segs : list segment) (w : world) :
  forallb (passes "ch") segs = true ->
  write (channel ch) (template_text segs) w
  = adapter_write (template_text (map (fill (id_text ch)) segs)) w.
Proof.
  intros H. unfold channel. cbn [write]. unfold insert_id.
  cbn [link_placeholder link_id cls_placeholder VNAChannel.class].
  fold (id_text ch). rewrite (format_pass "ch" (id_text ch) segs H eq_refl).
  reflexivity.
Qed.

Ltac trace_write segs Htr :=
  match goal with
  | |- write (trace ?ch ?tr) _ ?w = _ =>
      change (write (trace ch tr) (template_text segs) w
              = adapter_write
                  (template_text (map (fill (id_text ch)) (map (fill (id_text tr)) segs))) w);
      apply write_trace_segments;
      [ reflexivity
      | cbn [forallb map fill passes]; rewrite Htr; reflexivity ]
  end.

Ltac trace_set segs Htr :=
  eexists; split; [vm_compute; reflexivity|];
  etransitivity;
  [ eapply fset_accepted;
    [ reflexivity | reflexivity | reflexivity | reflexivity | vm_compute; reflexivity ]
  | trace_write segs Htr ].

(** C8 (amended).  For a trace [tr] of a channel [ch], the trace
    identifier containing no brace, every command of a trace property
    goes out with both placeholders filled independently: it is the
    template with the channel identifier in the place of [{{ch}}] and the
    trace identifier in the place of [{tr}], each verbatim.  This holds
    for the query of every trace property and for the set command of
    every trace property with every declared value. *)
Theorem trace_placeholders_filled (ch tr : ident) (p : property) (w : world) :
  brace_free (id_text tr) = true ->
  In p VNAChannel.ChannelTrace.properties ->
  (forall q, get_command p = Some q ->
     write (trace ch tr) q w
     = adapter_write (fill_both (id_text ch) (id_text tr) q) w)
  /\ (forall t v, set_command p = Some t -> In v (bound_keys (prop_values p)) ->
        exists c, percent t v = Ok c
          /\ fset p (trace ch tr) v w
             = adapter_write (fill_both (id_text ch) (id_text tr) c) w).
Proof.
  intros Htr Hin.
  destruct Hin as [<- | [<- | [<- | [<- | []]]]]; split;
    try (intros t v Hset; discriminate Hset).
  - intros q Hq. injection Hq as <-.
    trace_write [Lit "CALC"; Escaped "ch"; Lit ":PAR:MEAS? 'Trc"; Field "tr"; Lit "'"] Htr.
  - intros t v Ht Hv. injection Ht as <-.
    cbn [VNAChannel.ChannelTrace.measurement with_dynamic with_validator control
         prop_values bound_keys In] in Hv.
    repeat (destruct Hv as [<- | Hv]); [.. | contradiction Hv];
      match goal with
      | |- context [fset _ _ (VStr ?s) _] =>
          trace_set [Lit "CALC"; Escaped "ch"; Lit ":PAR:MEAS 'Trc"; Field "tr";
                     Lit ("', '" +:+ s +:+ "'")] Htr
      end.
  - intros q Hq. injection Hq as <-.
    trace_write [Lit "CALC"; Escaped "ch"; Lit ":PAR:SEL 'Trc"; Field "tr";
                 Lit "'; :CALC"; Escaped "ch"; Lit ":FORM?"] Htr.
  - intros t v Ht Hv. injection Ht as <-.
    cbn [VNAChannel.ChannelTrace.format with_dynamic with_validator control
         prop_values bound_keys In] in Hv.
    repeat (destruct Hv as [<- | Hv]); [.. | contradiction Hv];
      match goal with
      | |- context [fset _ _ (VStr ?s) _] =>
          trace_set [Lit "CALC"; Escaped "ch"; Lit ":PAR:SEL 'Trc"; Field "tr";
                     Lit "'; :CALC"; Escaped "ch"; Lit (":FORM " +:+ s)] Htr
      end.
  - intros q Hq. injection Hq as <-.
    trace_write [Lit "CALC"; Escaped "ch"; Lit ":PAR:SEL 'Trc"; Field "tr";
                 Lit "'; :CALC:DATA? SDAT; *WAI"] Htr.
  - intros q Hq. injection Hq as <-.
    trace_write [Lit "CALC"; Escaped "ch"; Lit ":PAR:SEL 'Trc"; Field "tr";
                 Lit "'; :CALC:DATA? FDAT; *WAI"] Htr.
Qed.

(** Trace ["1_1"] of channel 1. *)
Lemma trace_placeholders_filled_witness :
  write (trace (IdInt 1) (IdStr "1_1")) "CALC{{ch}}:PAR:MEAS? 'Trc{tr}'" quiet
  = adapter_write "CALC1:PAR:MEAS? 'Trc1_1'" quiet.
Proof.
  apply (proj1 (trace_placeholders_filled (IdInt 1) (IdStr "1_1")
                  VNAChannel.ChannelTrace.measurement quiet eq_refl
                  (or_introl eq_refl))).
  reflexivity.
Defined.

(** C8 (counterexample).  With the trace identifier ["{ch}"] on channel
    7 the query of [measurement] goes out as [CALC7:PAR:MEAS? 'Trc7']:
    the channel's pass rewrites the trace identifier, which does not
    appear verbatim; filling both placeholders independently would give
    [CALC7:PAR:MEAS? 'Trc{ch}']. *)
Lemma trace_identifier_with_braces_is_rewritten :
  get_command VNAChannel.ChannelTrace.measurement
    = Some "CALC{{ch}}:PAR:MEAS? 'Trc{tr}'"
  /\ write (trace (IdInt 7) (IdStr "{ch}")) "CALC{{ch}}:PAR:MEAS? 'Trc{tr}'" quiet
     = (Ok tt, after_write "CALC7:PAR:MEAS? 'Trc7'" quiet)
  /\ sent (wire (snd (fget VNAChannel.ChannelTrace.measurement
                        (trace (IdInt 7) (IdStr "{ch}")) (replying ["1"]))))
     = ["CALC7:PAR:MEAS? 'Trc7'"]
  /\ fill_both "7" "{ch}" "CALC{{ch}}:PAR:MEAS? 'Trc{tr}'"
     = "CALC7:PAR:MEAS? 'Trc{ch}'".
Proof. repeat split; vm_compute; reflexivity. Qed.

(** ** Deleting a channel *)

(** C4 (amended).  For every identifier, [delete_zva_channel] leaves the
    in-memory child mapping as it is, and, the transport accepting the
    write, issues the deactivation command exactly once: one command is
    appended to what was sent, and one line is printed. *)
Theorem delete_zva_channel_effect (numb : value) (w : world) :
  channels (snd (ZVA.delete_zva_channel numb w)) = channels w
  /\ (next_write_ok w ->
        ZVA.delete_zva_channel numb w
        = (Ok tt,
           set_stdout (stdout w ++ ["Ch" +:+ py_str numb +:+ " deleted."])
             (after_write ("CONF:CHAN" +:+ py_str numb +:+ ":STAT OFF") w))).
Proof.
  unfold ZVA.delete_zva_channel, ZVA.self, next_write_ok, after_write.
  cbn [write]. unfold bind, adapter_write, print.
  destruct (faults (wire w)) as [|[] fs]; simpl; split; try reflexivity;
    intros H; discriminate H.
Qed.

(** Deleting channel 1 on an idle connection. *)
Lemma delete_zva_channel_effect_witness :
  ZVA.delete_zva_channel (VInt 1) quiet
  = (Ok tt, set_stdout ["Ch1 deleted."] (after_write "CONF:CHAN1:STAT OFF" quiet)).
Proof.
  apply (proj2 (delete_zva_channel_effect (VInt 1) quiet)). reflexivity.
Defined.

(** C4 (counterexample).  After channel 1 was created, deleting it
    writes [CONF:CHAN1:STAT OFF] and the handle of channel 1 is still in
    the child mapping. *)
Lemma delete_zva_channel_keeps_handle :
  let w1 := snd (ZVA.define_default_channels "ZVA" 1 quiet) in
  let r := ZVA.delete_zva_channel (VInt 1) w1 in
  channels w1 !! IdInt 1 = Some (Unit VNAChannel.class ∅)
  /\ fst r = Ok tt
  /\ sent (wire (snd r)) = ["CONF:CHAN1:STAT ON"; "CONF:CHAN1:STAT OFF"]
  /\ channels (snd r) !! IdInt 1 = Some (Unit VNAChannel.class ∅).
Proof. repeat split; vm_compute; reflexivity. Qed.

(** ** Creating channels *)

Lemma py_range_length (a b : Z) : length (py_range a b) = Z.to_nat (b - a).
Proof. unfold py_range. rewrite length_map, length_seq. reflexivity. Qed.

Lemma map_seq_from (f : nat -> Z) (n s : nat) :
  map f (seq s n) = map (fun i => f (s + i)%nat) (seq 0 n).
Proof.
  revert s f. induction n as [|n IH]; intros s f; [reflexivity|].
  cbn [seq map]. rewrite Nat.add_0_r. f_equal.
  rewrite (IH (S s) f), (IH 1%nat (fun i => f (s + i)%nat)).
  apply map_ext. intros i. f_equal. lia.
Qed.

Lemma py_range_split (a m b : Z) :
  a <= m < b -> py_range a b = (py_range a m ++ m :: py_range (m + 1) b)%list.
Proof.
  intros H. unfold py_range.
  replace (Z.to_nat (b - a)) with (Z.to_nat (m - a) + S (Z.to_nat (b - (m + 1))))%nat by lia.
  rewrite seq_app, map_app. f_equal. cbn [seq map Nat.add]. f_equal.
  - lia.
  - rewrite map_seq_from. apply map_ext. intros i. lia.
Qed.

Lemma define_default_channels_loop_ok (d : Z) (l : list Z) (w : world) :
  next_write_ok w ->
  ZVA.define_default_channels_loop (d :: l) w
  = ZVA.define_default_channels_loop l (channel_created d w).
Proof.
  destruct w as [[s p f] m o i]. unfold next_write_ok. cbn [wire faults].
  intros Hok. destruct f as [|[] f]; try discriminate Hok; reflexivity.
Qed.

Lemma define_default_channels_loop_raises (d : Z) (l : list Z) (w : world) :
  hd false (faults (wire w)) = true ->
  ZVA.define_default_channels_loop (d :: l) w
  = (Raise TransportError, after_fault (channel_registered d w)).
Proof.
  destruct w as [[s p f] m o i]. cbn [wire faults].
  intros Hf. destruct f as [|[] f]; try discriminate Hf; reflexivity.
Qed.

Lemma channels_created_faults (ids : list Z) (w : world) :
  faults (wire (channels_created ids w)) = skipn (length ids) (faults (wire w)).
Proof.
  revert w. induction ids as [|d ids IH]; intros w; [reflexivity|].
  cbn [channels_created fold_left]. fold (channels_created ids (channel_created d w)).
  rewrite IH. cbn. destruct (faults (wire w)); [apply skipn_nil | reflexivity].
Qed.

Lemma channels_created_channels (ids : list Z) (w : world) :
  channels (channels_created ids w) = with_channels ids (channels w).
Proof.
  revert w. induction ids as [|d ids IH]; intros w; [reflexivity|].
  cbn [channels_created fold_left]. fold (channels_created ids (channel_created d w)).
  rewrite IH. reflexivity.
Qed.

Lemma channels_created_sent (ids : list Z) (w : world) :
  sent (wire (channels_created ids w))
  = (sent (wire w) ++ map channel_created_command ids)%list.
Proof.
  revert w. induction ids as [|d ids IH]; intros w.
  - cbn. rewrite app_nil_r. reflexivity.
  - cbn [channels_created fold_left]. fold (channels_created ids (channel_created d w)).
    rewrite IH. cbn. rewrite <- app_assoc. reflexivity.
Qed.

Lemma skipn_repeat_false (n : nat) (l : list bool) :
  skipn n (repeat false n ++ l) = l.
Proof. induction n as [|n IH]; [reflexivity | exact IH]. Qed.

(** The loop of [define_default_channels] when the write for channel
    [c] is the first to fail: the channels before [c] are created, [c]
    is registered, the exception leaves the loop. *)
Lemma define_default_channels_loop_fault (done : list Z) (c : Z) (rest : list Z)
    (fs : list bool) (w : world) :
  faults (wire w) = (repeat false (length done) ++ true :: fs)%list ->
  ZVA.define_default_channels_loop (done ++ c :: rest) w
  = (Raise TransportError,
     after_fault (channel_registered c (channels_created done w))).
Proof.
  revert w. induction done as [|d done IH]; intros w Hf.
  - apply (define_default_channels_loop_raises c rest w). rewrite Hf. reflexivity.
  - cbn [app]. rewrite define_default_channels_loop_ok.
    + apply IH. destruct w as [[s p f] m o i]. cbn in *. subst f. reflexivity.
    + unfold next_write_ok. rewrite Hf. reflexivity.
Qed.

Lemma with_channels_app (l k : list Z) (m : gmap ident unit_tree) :
  with_channels (l ++ k) m = with_channels k (with_channels l m).
Proof. unfold with_channels. apply fold_left_app. Qed.

(** C3 (amended), channels.  When the creation command of channel
    [k + 1] is the first write the transport refuses,
    [define_default_channels] ends with the transport error; the
    channels [1..k] were created, and channel [k + 1], whose command
    failed, stays registered in the child mapping; no later channel is
    registered. *)
Lemma define_default_channels_fault (name : string) (n k : Z) (fs : list bool)
    (w : world) :
  0 <= k < n ->
  faults (wire w) = (repeat false (Z.to_nat k) ++ true :: fs)%list ->
  let r := ZVA.define_default_channels name n w in
  fst r = Raise TransportError
  /\ channels (snd r) = with_channels (py_range 1 (k + 2)) (channels w)
  /\ sent (wire (snd r))
     = (sent (wire w) ++ map channel_created_command (py_range 1 (k + 1)))%list.
Proof.
  intros Hk Hf.
  assert (Hr : ZVA.define_default_channels name n w
               = (Raise TransportError,
                  after_fault (channel_registered (k + 1)
                                 (channels_created (py_range 1 (k + 1)) w)))).
  { unfold ZVA.define_default_channels.
    unfold bind at 1. cbn [ZVA.read_channel_number].
    replace (n <? 1) with false by (symmetry; apply Z.ltb_ge; lia).
    cbn [ret].
    rewrite (py_range_split 1 (k + 1) (n + 1)) by lia.
    apply (define_default_channels_loop_fault _ _ _ fs).
    rewrite py_range_length, Hf. repeat f_equal. lia. }
  cbv zeta. rewrite Hr. cbn [fst snd].
  split; [reflexivity|]. split.
  - change (channels (after_fault (channel_registered (k + 1)
                                    (channels_created (py_range 1 (k + 1)) w))))
      with (<[IdInt (k + 1) := Unit VNAChannel.class ∅]>
              (channels (channels_created (py_range 1 (k + 1)) w))).
    rewrite channels_created_channels.
    rewrite (py_range_split 1 (k + 1) (k + 2)) by lia.
    replace (k + 1 + 1) with (k + 2) by lia.
    replace (py_range (k + 2) (k + 2)) with (@nil Z)
      by (unfold py_range; rewrite Z.sub_diag; reflexivity).
    rewrite with_channels_app. reflexivity.
  - apply channels_created_sent.
Qed.

(** ** Creating traces *)

Lemma append_nil_r (s : string) : s +:+ "" = s.
Proof. induction s as [|c s IH]; [reflexivity|]. rewrite append_cons, IH. reflexivity. Qed.

Lemma brace_free_app (s t : string) :
  brace_free (s +:+ t) = brace_free s && brace_free t.
Proof. unfold brace_free, plain. rewrite list_ascii_of_string_app. apply forallb_app. Qed.

Lemma brace_free_uint (u : Decimal.uint) :
  brace_free (NilEmpty.string_of_uint u) = true.
Proof. induction u; [reflexivity | exact IHu ..]. Qed.

Lemma brace_free_str_of_Z (z : Z) : brace_free (str_of_Z z) = true.
Proof.
  assert (H : forall u, brace_free (NilZero.string_of_uint u) = true).
  { intros u. destruct u; try reflexivity; apply (brace_free_uint (_ u)). }
  unfold str_of_Z. destruct (Z.to_int z) as [u|u]; cbn [NilZero.string_of_int].
  - apply H.
  - change (brace_free (NilZero.string_of_uint u) = true). apply H.
Qed.

Lemma brace_free_trace_name (ch : ident) (i : Z) :
  brace_free (id_text ch) = true -> brace_free (trace_name ch i) = true.
Proof.
  intros H. unfold trace_name.
  rewrite !brace_free_app, H, brace_free_str_of_Z. reflexivity.
Qed.

Lemma create_zva_trace_writes (ch : ident) (i : Z) (m : string) (w : world) :
  brace_free (id_text ch) = true ->
  brace_free m = true ->
  VNAChannel.create_zva_trace (channel ch) (trace_name ch i) m w
  = adapter_write (trace_created_command ch i m) w.
Proof.
  intros Hch Hm. unfold VNAChannel.create_zva_trace.
  set (tail := ":PAR:SDEF 'Trc" +:+ trace_name ch i +:+ "', '" +:+ m +:+ "'").
  transitivity (write (channel ch) (template_text [Lit "CALC"; Field "ch"; Lit tail]) w).
  - f_equal. cbn [template_text fold_right segment_text]. rewrite append_nil_r.
    reflexivity.
  - rewrite write_channel_segments.
    + f_equal. cbn [template_text fold_right segment_text map fill].
      rewrite append_nil_r. reflexivity.
    + cbn [forallb passes]. unfold tail.
      rewrite !brace_free_app, (brace_free_trace_name ch i Hch), Hm. reflexivity.
Qed.

Lemma str_item_nth (l : list string) (i : Z) (x : string) :
  1 <= i ->
  nth_error l (Z.to_nat (i - 1)) = Some x ->
  str_item l (i - 1) = Ok x.
Proof.
  intros Hi Hn. unfold str_item.
  assert (E : (i - 1 <? 0) = false) by (apply Z.ltb_ge; lia).
  rewrite E. cbv zeta. rewrite E, Hn. reflexivity.
Qed.

Lemma nth_error_last (acc : list string) (x : string) (n : nat) :
  length acc = n -> nth_error (acc ++ [x]) n = Some x.
Proof.
  intros <-. rewrite nth_error_app2 by lia. rewrite Nat.sub_diag. reflexivity.
Qed.

Section TraceLoop.
Variables (ch : ident) (measurements : list string).
Hypothesis Hch : brace_free (id_text ch) = true.
Hypothesis Hms : forallb brace_free measurements = true.

Lemma measurement_at (i : Z) :
  1 <= i <= Z.of_nat (length measurements) ->
  let m := nth (Z.to_nat (i - 1)) measurements "" in
  nth_error measurements (Z.to_nat (i - 1)) = Some m /\ brace_free m = true.
Proof.
  intros Hi m.
  assert (Hlt : (Z.to_nat (i - 1) < length measurements)%nat) by lia.
  split.
  - apply nth_error_nth'. exact Hlt.
  - rewrite forallb_forall in Hms. apply Hms. apply nth_In. exact Hlt.
Qed.

Lemma define_default_traces_loop_step (i : Z) (rest : list Z) (acc : list string)
    (w : world) :
  1 <= i <= Z.of_nat (length measurements) ->
  length acc = Z.to_nat (i - 1) ->
  VNAChannel.define_default_traces_loop (channel ch) measurements (i :: rest) acc w
  = (VNAChannel.create_zva_trace (channel ch) (trace_name ch i)
       (nth (Z.to_nat (i - 1)) measurements "") >>
     VNAChannel.define_default_traces_loop (channel ch) measurements rest
       (acc ++ [trace_name ch i])) (trace_registered ch i w).
Proof.
  intros Hi Hacc. destruct (measurement_at i Hi) as [Hm _].
  cbn [VNAChannel.define_default_traces_loop].
  change (py_str (unit_id (channel ch)) +:+ "_" +:+ py_str (VInt i))
    with (trace_name ch i).
  rewrite (str_item_nth _ i (trace_name ch i)) by
    (try lia; apply nth_error_last; exact Hacc).
  rewrite (str_item_nth _ i _ (proj1 Hi) Hm).
  reflexivity.
Qed.

Lemma define_default_traces_loop_ok (i : Z) (rest : list Z) (acc : list string)
    (w : world) :
  1 <= i <= Z.of_nat (length measurements) ->
  length acc = Z.to_nat (i - 1) ->
  next_write_ok w ->
  VNAChannel.define_default_traces_loop (channel ch) measurements (i :: rest) acc w
  = VNAChannel.define_default_traces_loop (channel ch) measurements rest
      (acc ++ [trace_name ch i]) (trace_created ch measurements i w).
Proof.
  intros Hi Hacc Hok. rewrite (define_default_traces_loop_step i rest acc w Hi Hacc).
  destruct (measurement_at i Hi) as [_ Hm].
  erewrite bind_ok; [reflexivity|].
  rewrite (create_zva_trace_writes ch i _ _ Hch Hm).
  apply adapter_write_ok. exact Hok.
Qed.

Lemma define_default_traces_loop_raises (i : Z) (rest : list Z) (acc : list string)
    (w : world) :
  1 <= i <= Z.of_nat (length measurements) ->
  length acc = Z.to_nat (i - 1) ->
  hd false (faults (wire w)) = true ->
  VNAChannel.define_default_traces_loop (channel ch) measurements (i :: rest) acc w
  = (Raise TransportError, after_fault (trace_registered ch i w)).
Proof.
  intros Hi Hacc Hf. rewrite (define_default_traces_loop_step i rest acc w Hi Hacc).
  destruct (measurement_at i Hi) as [_ Hm].
  erewrite bind_raise; [reflexivity|].
  rewrite (create_zva_trace_writes ch i _ _ Hch Hm).
  destruct w as [[s p f] m o j]. cbn [wire faults] in Hf.
  destruct f as [|[] f]; try discriminate Hf. reflexivity.
Qed.

Lemma define_default_traces_loop_fault (k : nat) :
  forall (i : Z) (acc : list string) (fs : list bool) (w : world),
  1 <= i ->
  i + Z.of_nat k <= Z.of_nat (length measurements) ->
  length acc = Z.to_nat (i - 1) ->
  faults (wire w) = (repeat false k ++ true :: fs)%list ->
  VNAChannel.define_default_traces_loop (channel ch) measurements
    (py_range i (Z.of_nat (length measurements) + 1)) acc w
  = (Raise TransportError,
     after_fault (trace_registered ch (i + Z.of_nat k)
                    (traces_created ch measurements (py_range i (i + Z.of_nat k)) w))).
Proof.
  induction k as [|k IH]; intros i acc fs w Hi Hik Hacc Hf.
  - rewrite (py_range_split i i) by lia.
    replace (py_range i i) with (@nil Z)
      by (unfold py_range; rewrite Z.sub_diag; reflexivity).
    cbn [app]. rewrite Z.add_0_r.
    replace (py_range i i) with (@nil Z)
      by (unfold py_range; rewrite Z.sub_diag; reflexivity).
    apply (define_default_traces_loop_raises i _ acc w); [lia | exact Hacc |].
    rewrite Hf. reflexivity.
  - rewrite (py_range_split i i) by lia.
    replace (py_range i i) with (@nil Z)
      by (unfold py_range; rewrite Z.sub_diag; reflexivity).
    cbn [app].
    rewrite (define_default_traces_loop_ok i _ acc w) by
      (try lia; try exact Hacc; unfold next_write_ok; rewrite Hf; reflexivity).
    rewrite (IH (i + 1) (acc ++ [trace_name ch i])%list fs).
    + replace (i + 1 + Z.of_nat k) with (i + Z.of_nat (S k)) by lia.
      rewrite (py_range_split i i (i + Z.of_nat (S k))) by lia.
      replace (py_range i i) with (@nil Z)
        by (unfold py_range; rewrite Z.sub_diag; reflexivity).
      reflexivity.
    + lia.
    + lia.
    + rewrite length_app, Hacc. cbn [length]. lia.
    + destruct w as [[s p f] m o j]. cbn in *. subst f. reflexivity.
Qed.
End TraceLoop.

Lemma children_of_trace_registered (ch : ident) (i : Z) (kids : gmap ident unit_tree)
    (w : world) :
  children_of (channel ch) w = Some kids ->
  children_of (channel ch) (trace_registered ch i w)
  = Some (<[IdStr (trace_name ch i) := Unit VNAChannel.ChannelTrace.class ∅]> kids).
Proof.
  unfold children_of, trace_registered.
  change (path_of (channel ch)) with [ch].
  cbn [kids_at update_at set_channels channels].
  intros H. rewrite lookup_alter_eq.
  destruct (channels w !! ch) as [[c k]|]; [|discriminate H].
  cbn in H. injection H as <-. reflexivity.
Qed.

Lemma children_of_traces_created (ch : ident) (measurements : list string)
    (ids : list Z) (kids : gmap ident unit_tree) (w : world) :
  children_of (channel ch) w = Some kids ->
  children_of (channel ch) (traces_created ch measurements ids w)
  = Some (with_traces ch ids kids).
Proof.
  revert kids w. induction ids as [|i ids IH]; intros kids w H; [exact H|].
  cbn [traces_created with_traces fold_left].
  apply (IH _ (trace_created ch measurements i w)).
  apply (children_of_trace_registered ch i kids w H).
Qed.

Lemma with_traces_app (ch : ident) (l k : list Z) (m : gmap ident unit_tree) :
  with_traces ch (l ++ k) m = with_traces ch k (with_traces ch l m).
Proof. unfold with_traces. apply fold_left_app. Qed.

Lemma py_range_snoc (a b : Z) : a <= b -> py_range a (b + 1) = (py_range a b ++ [b])%list.
Proof.
  intros H. rewrite (py_range_split a b (b + 1)) by lia.
  replace (py_range (b + 1) (b + 1)) with (@nil Z)
    by (unfold py_range; rewrite Z.sub_diag; reflexivity).
  reflexivity.
Qed.

(** C3 (amended).  When the creation command of child [k + 1] is the
    first write the transport refuses, the operation ends with the
    transport error and the child whose command failed stays registered
    in its parent's mapping, together with the children created before
    it; no later child is registered.  This is so for the channels of
    the analyzer ([define_default_channels]) and for the traces of a
    registered channel ([define_default_traces], identifiers and
    measurement names without braces). *)
Theorem creation_failure_keeps_child (name : string) (n : Z) (ch : ident)
    (measurements : list string) (kids : gmap ident unit_tree) (k : nat)
    (fs : list bool) (w : world) :
  faults (wire w) = (repeat false k ++ true :: fs)%list ->
  (Z.of_nat k < n ->
     let r := ZVA.define_default_channels name n w in
     fst r = Raise TransportError
     /\ channels (snd r) = with_channels (py_range 1 (Z.of_nat k + 2)) (channels w)
     /\ channels (snd r) !! IdInt (Z.of_nat k + 1) = Some (Unit VNAChannel.class ∅))
  /\ (brace_free (id_text ch) = true ->
      forallb brace_free measurements = true ->
      (k < length measurements)%nat ->
      children_of (channel ch) w = Some kids ->
      let r := VNAChannel.define_default_traces (channel ch) measurements w in
      fst r = Raise TransportError
      /\ children_of (channel ch) (snd r)
         = Some (with_traces ch (py_range 1 (Z.of_nat k + 2)) kids)
      /\ with_traces ch (py_range 1 (Z.of_nat k + 2)) kids
           !! IdStr (trace_name ch (Z.of_nat k + 1))
         = Some (Unit VNAChannel.ChannelTrace.class ∅)).
Proof.
  intros Hf. split.
  - intros Hk.
    destruct (define_default_channels_fault name n (Z.of_nat k) fs w) as (Hr & Hc & _);
      [lia | rewrite Nat2Z.id; exact Hf |].
    cbv zeta. split; [exact Hr|]. split; [exact Hc|].
    rewrite Hc. replace (Z.of_nat k + 2) with (Z.of_nat k + 1 + 1) by lia.
    rewrite py_range_snoc by lia. rewrite with_channels_app.
    apply lookup_insert_eq.
  - intros Hch Hms Hk Hkids. cbv zeta.
    unfold VNAChannel.define_default_traces.
    rewrite (define_default_traces_loop_fault ch measurements Hch Hms k 1 [] fs w)
      by (try lia; try reflexivity; exact Hf).
    cbn [fst snd]. split; [reflexivity|].
    replace (Z.of_nat k + 2) with (1 + Z.of_nat k + 1) by lia.
    rewrite py_range_snoc by lia. rewrite with_traces_app.
    split.
    + change (children_of (channel ch)
                (after_fault (trace_registered ch (1 + Z.of_nat k)
                   (traces_created ch measurements (py_range 1 (1 + Z.of_nat k)) w))))
        with (children_of (channel ch)
                (trace_registered ch (1 + Z.of_nat k)
                   (traces_created ch measurements (py_range 1 (1 + Z.of_nat k)) w))).
      apply children_of_trace_registered.
      apply children_of_traces_created. exact Hkids.
    + replace (Z.of_nat k + 1) with (1 + Z.of_nat k) by lia.
      apply lookup_insert_eq.
Qed.

(** The second creation command refused: of two channels, and of two
    traces of channel 1. *)
Lemma creation_failure_keeps_child_witness :
  (let r := ZVA.define_default_channels "ZVA" 2 (failing [false; true]) in
   fst r = Raise TransportError
   /\ channels (snd r) = with_channels (py_range 1 3) ∅
   /\ channels (snd r) !! IdInt 2 = Some (Unit VNAChannel.class ∅))
  /\ (let w := snd (ZVA.define_default_channels "ZVA" 1 (failing [false; false; true])) in
      let r := VNAChannel.define_default_traces (channel (IdInt 1)) ["S11"; "S21"] w in
      fst r = Raise TransportError
      /\ children_of (channel (IdInt 1)) (snd r)
         = Some (with_traces (IdInt 1) (py_range 1 3) ∅)
      /\ with_traces (IdInt 1) (py_range 1 3) ∅ !! IdStr "1_2"
         = Some (Unit VNAChannel.ChannelTrace.class ∅)).
Proof.
  split.
  - apply (proj1 (creation_failure_keeps_child "ZVA" 2 (IdInt 1) [] ∅ 1 []
                    (failing [false; true]) eq_refl)).
    reflexivity.
  - apply (proj2 (creation_failure_keeps_child "ZVA" 2 (IdInt 1) ["S11"; "S21"] ∅ 1 []
                    (snd (ZVA.define_default_channels "ZVA" 1
                            (failing [false; false; true])))
                    eq_refl));
      [reflexivity | reflexivity | simpl; lia | vm_compute; reflexivity].
Defined.

(** C3 (counterexample).  The transport refusing the first write,
    [define_default_channels] raises and channel 1, absent before, is in
    the child mapping; likewise trace ["1_1"] of a registered channel 1
    after [define_default_traces] raised. *)
Lemma failed_creation_leaves_orphan :
  (let r := ZVA.define_default_channels "ZVA" 1 (failing [true]) in
   channels (failing [true]) !! IdInt 1 = None
   /\ fst r = Raise TransportError
   /\ sent (wire (snd r)) = []
   /\ channels (snd r) !! IdInt 1 = Some (Unit VNAChannel.class ∅))
  /\ (let w := snd (ZVA.define_default_channels "ZVA" 1 (failing [false; true])) in
      let r := VNAChannel.define_default_traces (channel (IdInt 1)) ["S11"] w in
      children_of (channel (IdInt 1)) w = Some ∅
      /\ fst r = Raise TransportError
      /\ sent (wire (snd r)) = ["CONF:CHAN1:STAT ON"]
      /\ children_of (channel (IdInt 1)) (snd r)
         = Some {[ IdStr "1_1" := Unit VNAChannel.ChannelTrace.class ∅ ]}).
Proof. repeat split; vm_compute; reflexivity. Qed.

(** ** Polling the sweep counter *)

Lemma ask_channel (ch : ident) (segs : list segment) (r : string)
    (rest : list string) (w : world) :
  forallb (passes "ch") segs = true ->
  next_write_ok w ->
  pending (wire w) = r :: rest ->
  ask (channel ch) (template_text segs) w
  = (Ok r, after_query (template_text (map (fill (id_text ch)) segs)) w).
Proof.
  intros Hs Hok Hp. unfold ask.
  erewrite bind_ok;
    [| rewrite (write_channel_segments ch segs w Hs); apply adapter_write_ok; exact Hok].
  unfold read, adapter_read, after_write, after_query. simpl. rewrite Hp. reflexivity.
Qed.

Lemma sweep_counter_reads (ch : ident) (r : string) (f : float) (rest : list string)
    (w : world) :
  next_write_ok w ->
  pending (wire w) = r :: rest ->
  parse_float r = Ok f ->
  fget VNAChannel.sweep_counter (channel ch) w
  = (Ok (VFloat f), after_query (sweep_query ch) w).
Proof.
  intros Hok Hp Hf.
  assert (Hq : template_text (map (fill (id_text ch))
                 [Lit "CALC"; Field "ch"; Lit ":DATA:NSW:COUN?"]) = sweep_query ch).
  { cbn [template_text fold_right segment_text map fill]. rewrite append_nil_r.
    reflexivity. }
  rewrite <- Hq.
  apply (fget_decoded VNAChannel.sweep_counter
           (template_text [Lit "CALC"; Field "ch"; Lit ":DATA:NSW:COUN?"])
           r (VFloat f) (VFloat f) (VFloat f)).
  - reflexivity.
  - apply (ask_channel ch [Lit "CALC"; Field "ch"; Lit ":DATA:NSW:COUN?"]
             r rest w eq_refl Hok Hp).
  - cbn. rewrite Hf. reflexivity.
  - reflexivity.
  - reflexivity.
Qed.

Lemma after_query_faults (q : string) (w : world) :
  faults (wire w) = [] -> faults (wire (after_query q w)) = [].
Proof. intros H. cbn. rewrite H. reflexivity. Qed.

Lemma after_query_pending (q : string) (w : world) :
  pending (wire (after_query q w)) = tl (pending (wire w)).
Proof. reflexivity. Qed.

Lemma clear_avg_writes (ch : ident) (w : world) :
  VNAChannel.clear_avg (channel ch) w = adapter_write (sweep_clear ch) w.
Proof.
  unfold VNAChannel.clear_avg.
  change "SENSe{ch}:AVER:CLE"
    with (template_text [Lit "SENSe"; Field "ch"; Lit ":AVER:CLE"]).
  rewrite write_channel_segments by reflexivity.
  cbn [template_text fold_right segment_text map fill]. rewrite append_nil_r.
  reflexivity.
Qed.

Lemma launch_single_sweep_writes (ch : ident) (w : world) :
  VNAChannel.launch_single_sweep (channel ch) w = adapter_write (sweep_start ch) w.
Proof.
  unfold VNAChannel.launch_single_sweep.
  change "INIT{ch}:IMM; *OPC"
    with (template_text [Lit "INIT"; Field "ch"; Lit ":IMM; *OPC"]).
  rewrite write_channel_segments by reflexivity.
  cbn [template_text fold_right segment_text map fill]. rewrite append_nil_r.
  reflexivity.
Qed.

Lemma polled_sent (q : string) (n : nat) (w : world) :
  sent (wire (Nat.iter n (after_query q) w)) = (sent (wire w) ++ repeat q n)%list.
Proof.
  induction n as [|n IH].
  - cbn. rewrite app_nil_r. reflexivity.
  - rewrite Nat.iter_succ.
    change (sent (wire (after_query q (Nat.iter n (after_query q) w))))
      with (sent (wire (Nat.iter n (after_query q) w)) ++ [q])%list.
    rewrite IH, <- app_assoc. f_equal. symmetry. apply (repeat_cons n q).
Qed.

Lemma polled_pending (q : string) (n : nat) (w : world) :
  pending (wire (Nat.iter n (after_query q) w)) = skipn n (pending (wire w)).
Proof.
  induction n as [|n IH]; [reflexivity|].
  rewrite Nat.iter_succ, after_query_pending, IH. clear IH. revert n.
  induction (pending (wire w)) as [|x l IHl]; intros n.
  - rewrite !skipn_nil. reflexivity.
  - destruct n as [|n]; [reflexivity|]. cbn [skipn]. apply IHl.
Qed.

Lemma flat_turns_length (turns : list (string * string)) :
  length (flat_turns turns) = (2 * length turns)%nat.
Proof.
  induction turns as [|t turns IH]; [reflexivity|].
  unfold flat_turns in *. cbn [flat_map]. rewrite length_app, IH. cbn [length]. lia.
Qed.

Lemma count_once (a b c : string) (n : nat) :
  b <> a -> b <> c -> count_occ string_dec (a :: b :: repeat c n) b = 1%nat.
Proof.
  intros Hab Hbc. cbn [count_occ].
  destruct (string_dec a b) as [E|_]; [congruence|].
  destruct (string_dec b b) as [_|N]; [|congruence].
  f_equal. apply count_occ_not_In. intros Hin. apply repeat_spec in Hin. congruence.
Qed.

(** ** The loop bounds are never reached *)

Lemma write_keeps_pending (h : handle) (command : string) (w : world) :
  pending (wire (snd (write h command w))) = pending (wire w).
Proof.
  revert command. induction h as [|l parent IH]; intros command.
  - cbn [write]. unfold adapter_write.
    destruct (faults (wire w)) as [|[] fs]; reflexivity.
  - cbn [write]. unfold bind, lift.
    destruct (insert_id l command) as [c|e]; [apply IH | reflexivity].
Qed.

Lemma fget_consumes (p : property) (h : handle) (w : world) :
  forall r w', fget p h w = (r, w') ->
  (length (pending (wire w')) <= length (pending (wire w)))%nat
  /\ (forall v, r = Ok v -> (length (pending (wire w')) < length (pending (wire w)))%nat).
Proof.
  intros r w'. unfold fget.
  destruct (get_command p) as [q|];
    [| intros H; injection H as <- <-; split; [lia | intros v Hv; discriminate Hv]].
  unfold ask, bind, read, adapter_read, lift, ret, raise.
  pose proof (write_keeps_pending h q w) as Hw.
  destruct (write h q w) as [[[]|e] w1]; cbn [snd] in Hw; rewrite <- Hw;
    [| intros H; injection H as <- <-; split; [lia | intros v Hv; discriminate Hv]].
  destruct (pending (wire w1)) as [|x rest] eqn:Hp;
    [intros H; injection H as <- <-; rewrite Hp; split;
       [cbn; lia | intros v Hv; discriminate Hv] |].
  destruct (run_cast (prop_cast p) x) as [v1|e1];
    [| intros H; injection H as <- <-; cbn; split; [lia | intros; lia]].
  destruct (get_process p v1) as [v2|e2];
    [| intros H; injection H as <- <-; cbn; split; [lia | intros; lia]].
  destruct (if map_values p then from_wire (prop_values p) v2 else Ok v2);
    intros H; injection H as <- <-; cbn; split; try lia; intros; lia.
Qed.

Lemma bind_ext_on {A B} (c : M A) (k1 k2 : A -> M B) (w : world) :
  (forall a w', c w = (Ok a, w') -> k1 a w' = k2 a w') ->
  bind c k1 w = bind c k2 w.
Proof. intros H. unfold bind. destruct (c w) as [[a|e] w']; [apply H|]; reflexivity. Qed.

Lemma lift_ok {A} (r : result A) (a : A) (w w' : world) :
  lift r w = (Ok a, w') -> r = Ok a /\ w' = w.
Proof.
  destruct r as [x|e]; cbn; intros H; [|discriminate H].
  injection H as <- <-. split; reflexivity.
Qed.

(** Any bound above the number of pending replies gives the loop of
    [single_sweep_vna] the same outcome. *)
Lemma sweep_loop_bound_irrelevant (self : handle) (sweeps control idn : value)
    (fuel1 : nat) :
  forall (fuel2 : nat) (count2 : Z) (w : world),
  (length (pending (wire w)) < fuel1)%nat ->
  (length (pending (wire w)) < fuel2)%nat ->
  VNAChannel.sweep_loop fuel1 self sweeps control idn count2 w
  = VNAChannel.sweep_loop fuel2 self sweeps control idn count2 w.
Proof.
  induction fuel1 as [|k1 IH]; intros fuel2 count2 w H1 H2; [inversion H1|].
  destruct fuel2 as [|k2]; [inversion H2|].
  cbn [VNAChannel.sweep_loop].
  apply bind_ext_on. intros c w1 E1.
  destruct (fget_consumes _ _ _ _ _ E1) as [_ Hlt1]. specialize (Hlt1 c eq_refl).
  apply bind_ext_on. intros continue w1' E2. apply lift_ok in E2 as [_ ->].
  destruct continue; [|reflexivity].
  apply bind_ext_on. intros c' w2 E3.
  destruct (fget_consumes _ _ _ _ _ E3) as [Hle2 _].
  apply bind_ext_on. intros count w2' E4. apply lift_ok in E4 as [_ ->].
  destruct ((count =? count2 + 1) && py_eq control (VBool true)).
  - apply bind_ext_on. intros head w2' E5. apply lift_ok in E5 as [_ ->].
    apply bind_ext_on. intros u w3 E6. unfold print in E6. injection E6 as _ <-.
    apply IH; cbn; lia.
  - apply IH; lia.
Qed.

(** Any bound above the number of lines of input gives the loop of
    [define_default_channels] the same outcome. *)
Lemma read_channel_number_bound_irrelevant (name : string) (fuel1 : nat) :
  forall (fuel2 : nat) (channel_number : Z) (w : world),
  (length (stdin w) < fuel1)%nat ->
  (length (stdin w) < fuel2)%nat ->
  ZVA.read_channel_number fuel1 name channel_number w
  = ZVA.read_channel_number fuel2 name channel_number w.
Proof.
  induction fuel1 as [|k1 IH]; intros fuel2 n w H1 H2; [inversion H1|].
  destruct fuel2 as [|k2]; [inversion H2|].
  cbn [ZVA.read_channel_number]. destruct (n <? 1); [|reflexivity].
  apply bind_ext_on. intros u w1 E1. unfold print in E1. injection E1 as _ <-.
  apply bind_ext_on. intros line w2 E2. unfold input in E2. cbn [stdin set_stdout] in E2.
  destruct (stdin w) as [|l ls] eqn:Hs; [discriminate E2|]. injection E2 as _ <-.
  apply bind_ext_on. intros m w3 E3. apply lift_ok in E3 as [_ ->].
  apply IH; cbn in *; lia.
Qed.

(** ** What [single_sweep_vna] sends *)

Section OnlyQueries.
Variable q : string.

Lemma only_queries_ret {A} (a : A) : only_queries q (ret a).
Proof. intros w. exists 0%nat. cbn. rewrite app_nil_r. reflexivity. Qed.

Lemma only_queries_lift {A} (r : result A) : only_queries q (lift r).
Proof. intros w. exists 0%nat. destruct r; cbn; rewrite app_nil_r; reflexivity. Qed.

Lemma only_queries_print (line : string) : only_queries q (print line).
Proof. intros w. exists 0%nat. cbn. rewrite app_nil_r. reflexivity. Qed.

Lemma only_queries_bind {A B} (c : M A) (k : A -> M B) :
  only_queries q c -> (forall a, only_queries q (k a)) -> only_queries q (bind c k).
Proof.
  intros Hc Hk w. destruct (Hc w) as [n Hn]. unfold bind.
  destruct (c w) as [[a|e] w1]; cbn [snd] in *.
  - destruct (Hk a w1) as [m Hm]. exists (n + m)%nat.
    rewrite Hm, Hn, repeat_app, app_assoc. reflexivity.
  - exists n. exact Hn.
Qed.

Lemma only_queries_adapter_write : only_queries q (adapter_write q).
Proof.
  intros w. unfold adapter_write. destruct (faults (wire w)) as [|[] fs].
  - exists 1%nat. reflexivity.
  - exists 0%nat. cbn. rewrite app_nil_r. reflexivity.
  - exists 1%nat. reflexivity.
Qed.

Lemma only_queries_adapter_read : only_queries q adapter_read.
Proof.
  intros w. exists 0%nat. unfold adapter_read.
  destruct (pending (wire w)); cbn; rewrite app_nil_r; reflexivity.
Qed.
End OnlyQueries.

Lemma only_queries_sweep_counter (ch : ident) :
  only_queries (sweep_query ch) (fget VNAChannel.sweep_counter (channel ch)).
Proof.
  assert (Hq : template_text (map (fill (id_text ch))
                 [Lit "CALC"; Field "ch"; Lit ":DATA:NSW:COUN?"]) = sweep_query ch).
  { cbn [template_text fold_right segment_text map fill]. rewrite append_nil_r.
    reflexivity. }
  unfold fget. cbn [get_command VNAChannel.sweep_counter measurement].
  apply only_queries_bind.
  - unfold ask. apply only_queries_bind.
    + intros w.
      change "CALC{ch}:DATA:NSW:COUN?"
        with (template_text [Lit "CALC"; Field "ch"; Lit ":DATA:NSW:COUN?"]).
      rewrite write_channel_segments by reflexivity. rewrite Hq.
      apply only_queries_adapter_write.
    + intros _. apply only_queries_adapter_read.
  - intros reply. apply only_queries_bind; [apply only_queries_lift|].
    intros v. apply only_queries_bind; [apply only_queries_lift|].
    intros v'. apply only_queries_lift.
Qed.

Lemma only_queries_sweep_loop (ch : ident) (sweeps control idn : value) (fuel : nat) :
  forall count2,
  only_queries (sweep_query ch)
    (VNAChannel.sweep_loop fuel (channel ch) sweeps control idn count2).
Proof.
  induction fuel as [|fuel IH]; intros count2.
  - intros w. exists 0%nat. cbn. rewrite app_nil_r. reflexivity.
  - cbn [VNAChannel.sweep_loop].
    apply only_queries_bind; [apply only_queries_sweep_counter|]. intros c.
    apply only_queries_bind; [apply only_queries_lift|]. intros continue.
    destruct continue; [|apply only_queries_ret].
    apply only_queries_bind; [apply only_queries_sweep_counter|]. intros c'.
    apply only_queries_bind; [apply only_queries_lift|]. intros count.
    destruct ((count =? count2 + 1) && py_eq control (VBool true)); [|apply IH].
    apply only_queries_bind; [apply only_queries_lift|]. intros head.
    apply only_queries_bind; [apply only_queries_print|]. intros _. apply IH.
Qed.

Lemma issued_app (w w' : world) (l : list string) :
  sent (wire w') = (sent (wire w) ++ l)%list -> issued w w' = l.
Proof.
  intros H. unfold issued. rewrite H, skipn_app, skipn_all, Nat.sub_diag. reflexivity.
Qed.

(** The start command goes out at most once, whatever the replies, the
    faults of the transport and the arguments. *)
Lemma single_sweep_vna_starts_once (ch : ident) (sweeps control idn : value)
    (w : world) :
  (count_occ string_dec
     (issued w (snd (VNAChannel.single_sweep_vna (channel ch) sweeps control idn w)))
     (sweep_start ch) <= 1)%nat.
Proof.
  unfold VNAChannel.single_sweep_vna. unfold bind at 1.
  rewrite clear_avg_writes. unfold adapter_write at 1.
  destruct (faults (wire w)) as [|[] fs] eqn:Hf;
    try (cbn [snd]; rewrite (issued_app w _ []) by (cbn; rewrite app_nil_r; reflexivity);
         cbn; lia).
  all: unfold bind at 1; rewrite launch_single_sweep_writes; unfold adapter_write at 1;
    cbn [wire faults set_wire];
    match goal with
    | |- context [match ?fs' with _ => _ end] => destruct fs' as [|[] fs'']
    end;
    try (cbn [snd];
         rewrite (issued_app w _ [sweep_clear ch]) by reflexivity;
         cbn [count_occ];
         destruct (string_dec (sweep_clear ch) (sweep_start ch)) as [E|_];
         [discriminate E | lia]).
  all: match goal with
       | |- context [snd (bind ?c ?k ?w2)] =>
           assert (H : only_queries (sweep_query ch) (bind c k))
       end;
    [ apply only_queries_bind;
      [ intros w2; apply only_queries_sweep_loop |];
      intros _; destruct (truthy control); [|apply only_queries_ret];
      apply only_queries_bind; [apply only_queries_lift|]; intros head;
      apply only_queries_bind; [apply only_queries_sweep_counter|]; intros c;
      apply only_queries_bind; [apply only_queries_lift|]; intros n;
      apply only_queries_print
    | match goal with
      | |- context [snd (bind ?c ?k ?w2)] => destruct (H w2) as [n Hn]
      end;
      rewrite (issued_app w _ (sweep_clear ch :: sweep_start ch
                                 :: repeat (sweep_query ch) n))
        by (rewrite Hn; cbn; rewrite <- !app_assoc; reflexivity);
      rewrite count_once;
      [lia | unfold sweep_start, sweep_clear; intros E; discriminate E
           | unfold sweep_start, sweep_query; intros E; discriminate E] ].
Qed.

(** ** The polling loop *)

Lemma set_stdout_idem (o o' : list string) (w : world) :
  set_stdout o (set_stdout o' w) = set_stdout o w.
Proof. reflexivity. Qed.

Lemma polled_set_stdout (q : string) (n : nat) (o : list string) (w : world) :
  Nat.iter n (after_query q) (set_stdout o w)
  = set_stdout o (Nat.iter n (after_query q) w).
Proof.
  induction n as [|n IH]; [reflexivity|]. rewrite !Nat.iter_succ, IH. reflexivity.
Qed.

Lemma polled_faults (q : string) (n : nat) (w : world) :
  faults (wire w) = [] -> faults (wire (Nat.iter n (after_query q) w)) = [].
Proof.
  intros H. induction n as [|n IH]; [exact H|].
  rewrite Nat.iter_succ. apply after_query_faults, IH.
Qed.

Lemma is_str_inv (v : value) : is_str v = true -> exists s, v = VStr s.
Proof. destruct v; try discriminate. intros _. eexists. reflexivity. Qed.

Section Sweep.
Variables (ch : ident) (sweeps control idn : value) (target : xnum).
Hypothesis Hsweeps : xnum_of sweeps = Some target.
Hypothesis Hidn : py_eq control (VBool true) = true -> is_str idn = true.

Lemma sweep_loop_runs (turns : list (string * string)) (last : string)
    (rest : list string) :
  forallb (fun t => below target (fst t) && countable (snd t)) turns = true ->
  reaches target last = true ->
  forall (fuel : nat) (count2 : Z) (w : world),
  (length turns < fuel)%nat ->
  faults (wire w) = [] ->
  pending (wire w) = (flat_turns turns ++ last :: rest)%list ->
  exists out,
    VNAChannel.sweep_loop fuel (channel ch) sweeps control idn count2 w
    = (Ok tt,
       set_stdout out (Nat.iter (2 * length turns + 1) (after_query (sweep_query ch)) w)).
Proof.
  intros Hturns Hlast.
  induction turns as [|[c b] turns IH]; intros fuel count2 w Hfuel Hfaults Hpending.
  - destruct fuel as [|fuel]; [inversion Hfuel|].
    cbn [flat_turns flat_map app] in Hpending.
    unfold reaches in Hlast.
    destruct (parse_float last) as [f|] eqn:Hf; [|discriminate Hlast].
    exists (stdout w).
    cbn [VNAChannel.sweep_loop].
    erewrite bind_ok;
      [| apply (sweep_counter_reads ch last f rest w);
         [unfold next_write_ok; rewrite Hfaults; reflexivity | exact Hpending | exact Hf]].
    unfold py_lt. cbn [xnum_of]. rewrite Hsweeps.
    apply negb_true_iff in Hlast. rewrite Hlast. reflexivity.
  - destruct fuel as [|fuel]; [inversion Hfuel|].
    cbn [forallb fst snd] in Hturns.
    apply andb_prop in Hturns as [Hcb Hturns].
    apply andb_prop in Hcb as [Hc Hb].
    unfold below in Hc. destruct (parse_float c) as [fc|] eqn:Hfc; [|discriminate Hc].
    unfold countable in Hb. destruct (parse_float b) as [fb|] eqn:Hfb; [|discriminate Hb].
    destruct (trunc_float fb) as [z|] eqn:Hz; [|discriminate Hb].
    cbn [flat_turns flat_map app fst snd] in Hpending. fold (flat_turns turns) in Hpending.
    assert (Hok : next_write_ok w) by (unfold next_write_ok; rewrite Hfaults; reflexivity).
    set (w2 := after_query (sweep_query ch) (after_query (sweep_query ch) w)).
    assert (Hf2 : faults (wire w2) = [])
      by (apply after_query_faults, after_query_faults, Hfaults).
    assert (Hp2 : pending (wire w2) = (flat_turns turns ++ last :: rest)%list)
      by (unfold w2; rewrite !after_query_pending, Hpending; reflexivity).
    assert (Hiter : forall o,
              set_stdout o (Nat.iter (2 * length turns + 1)
                              (after_query (sweep_query ch)) w2)
              = set_stdout o (Nat.iter (2 * length ((c, b) :: turns) + 1)
                                (after_query (sweep_query ch)) w)).
    { intros o. cbn [length].
      replace (2 * S (length turns) + 1)%nat with (S (S (2 * length turns + 1))) by lia.
      rewrite !Nat.iter_succ_r. reflexivity. }
    assert (Hfuel' : (length turns < fuel)%nat) by (cbn [length] in Hfuel; lia).
    cbn [VNAChannel.sweep_loop].
    erewrite bind_ok;
      [| apply (sweep_counter_reads ch c fc _ w Hok Hpending Hfc)].
    unfold py_lt at 1. cbn [xnum_of]. rewrite Hsweeps, Hc. cbn [lift]. unfold bind at 1.
    cbn [ret].
    erewrite bind_ok;
      [| apply (sweep_counter_reads ch b fb (flat_turns turns ++ last :: rest)
                  (after_query (sweep_query ch) w));
         [ unfold next_write_ok; rewrite after_query_faults by exact Hfaults; reflexivity
         | rewrite after_query_pending, Hpending; reflexivity
         | exact Hfb ]].
    fold w2.
    cbn [py_int]. rewrite Hz. cbn [lift]. unfold bind at 1. cbn [ret].
    destruct ((z =? count2 + 1) && py_eq control (VBool true)) eqn:Hreport.
    + apply andb_prop in Hreport as [_ Hloud].
      destruct (is_str_inv idn (Hidn Hloud)) as [s ->].
      cbn [py_add_str lift]. unfold bind at 1. cbn [ret]. unfold bind at 1.
      unfold print at 1.
      set (o := (stdout w2 ++ [(s +:+ " Freq. sweeps done:") +:+ py_str (VInt z)])%list).
      destruct (IH Hturns fuel z (set_stdout o w2) Hfuel' Hf2 Hp2) as [out Hout].
      exists out. rewrite Hout, polled_set_stdout, set_stdout_idem. apply f_equal, Hiter.
    + destruct (IH Hturns fuel count2 w2 Hfuel' Hf2 Hp2) as [out Hout].
      exists out. rewrite Hout. apply f_equal, Hiter.
Qed.
End Sweep.

(** C5 (amended).  [single_sweep_vna] never writes the sweep-start
    command more than once, whatever the replies, the transport and the
    arguments: it goes out before the loop, and the loop only queries.
    The loop reads the counter twice a turn: in the loop test and again
    in the body.  Only the loop test ends it: with every loop-test
    reading of the first [length turns] turns below the target, whatever
    the readings taken in their bodies, and the next loop-test reading
    not below it, the loop ends at that reading, the reply number
    [2 * length turns + 1].  With progress reporting on, one more query
    follows the loop for the final report.  The remaining replies are
    left unread. *)
Theorem single_sweep_vna_polls (ch : ident) (sweeps control idn : value)
    (target : xnum) (turns : list (string * string)) (last : string)
    (rest : list string) (w : world) :
  (count_occ string_dec
     (issued w (snd (VNAChannel.single_sweep_vna (channel ch) sweeps control idn w)))
     (sweep_start ch) <= 1)%nat
  /\ (xnum_of sweeps = Some target ->
      faults (wire w) = [] ->
      forallb (fun t => below target (fst t) && countable (snd t)) turns = true ->
      reaches target last = true ->
      pending (wire w) = (flat_turns turns ++ last :: rest)%list ->
      report_ready control idn rest = true ->
      let r := VNAChannel.single_sweep_vna (channel ch) sweeps control idn w in
      let n := (2 * length turns + 1 + (if truthy control then 1 else 0))%nat in
      fst r = Ok tt
      /\ issued w (snd r)
         = sweep_clear ch :: sweep_start ch :: repeat (sweep_query ch) n
      /\ count_occ string_dec (issued w (snd r)) (sweep_start ch) = 1%nat
      /\ pending (wire (snd r)) = (if truthy control then tl rest else rest)
      /\ polls_made w (snd r) = n).
Proof.
  split; [apply single_sweep_vna_starts_once|].
  intros Hsweeps Hfaults Hturns Hlast Hpending Hready.
  unfold report_ready in Hready. apply andb_prop in Hready as [Hidn Hextra].
  assert (Hok : next_write_ok w) by (unfold next_write_ok; rewrite Hfaults; reflexivity).
  set (w1 := after_write (sweep_clear ch) w).
  set (w2 := after_write (sweep_start ch) w1).
  set (q := sweep_query ch).
  set (k := (2 * length turns + 1)%nat).
  assert (Hf2 : faults (wire w2) = []) by (cbn; rewrite Hfaults; reflexivity).
  assert (Hp2 : pending (wire w2) = (flat_turns turns ++ last :: rest)%list)
    by exact Hpending.
  assert (Hloud : py_eq control (VBool true) = true -> is_str idn = true).
  { intros H. rewrite H in Hidn. exact Hidn. }
  destruct (sweep_loop_runs ch sweeps control idn target Hsweeps Hloud
              turns last rest Hturns Hlast
              (S (length (pending (wire w2)))) (-1) w2) as [out Hloop];
    [ rewrite Hp2, length_app, flat_turns_length; cbn [length]; lia
    | exact Hf2 | exact Hp2 |].
  fold q k in Hloop.
  assert (Hrest : pending (wire (Nat.iter k (after_query q) w2)) = rest).
  { rewrite polled_pending, Hp2, skipn_app, flat_turns_length. unfold k.
    replace (2 * length turns + 1 - 2 * length turns)%nat with 1%nat by lia.
    rewrite skipn_all2 by (rewrite flat_turns_length; lia). reflexivity. }
  assert (Hr : exists out',
             VNAChannel.single_sweep_vna (channel ch) sweeps control idn w
             = (Ok tt,
                set_stdout out'
                  (Nat.iter (k + (if truthy control then 1 else 0))
                     (after_query q) w2))).
  { unfold VNAChannel.single_sweep_vna.
    erewrite bind_ok; [| rewrite clear_avg_writes; apply adapter_write_ok; exact Hok].
    erewrite bind_ok;
      [| rewrite launch_single_sweep_writes; apply adapter_write_ok;
         unfold next_write_ok; cbn; rewrite Hfaults; reflexivity].
    fold w1. fold w2.
    erewrite bind_ok; [| exact Hloop].
    destruct (truthy control) eqn:Hfinal.
    - rewrite orb_true_r in Hidn. cbn [implb] in Hidn, Hextra.
      destruct (is_str_inv idn Hidn) as [s ->].
      destruct rest as [|extra rest']; [discriminate Hextra|].
      unfold countable in Hextra.
      destruct (parse_float extra) as [fe|] eqn:Hfe; [|discriminate Hextra].
      destruct (trunc_float fe) as [ze|] eqn:Hze; [|discriminate Hextra].
      cbn [py_add_str lift]. unfold bind at 1. cbn [ret].
      erewrite bind_ok;
        [| apply (sweep_counter_reads ch extra fe rest');
           [ unfold next_write_ok;
             change (faults (wire (set_stdout out (Nat.iter k (after_query q) w2))))
               with (faults (wire (Nat.iter k (after_query q) w2)));
             rewrite (polled_faults q k w2 Hf2); reflexivity
           | exact Hrest | exact Hfe ]].
      cbn [py_int]. rewrite Hze. cbn [lift]. unfold bind at 1. cbn [ret].
      unfold print. eexists.
      replace (k + 1)%nat with (S k) by lia. rewrite Nat.iter_succ. reflexivity.
    - exists out. rewrite Nat.add_0_r. reflexivity. }
  destruct Hr as [out' Hr]. cbv zeta. rewrite Hr. cbn [fst snd].
  fold k.
  set (n := (k + (if truthy control then 1 else 0))%nat).
  assert (Hsent : issued w (set_stdout out' (Nat.iter n (after_query q) w2))
                  = sweep_clear ch :: sweep_start ch :: repeat q n).
  { apply issued_app.
    change (sent (wire (set_stdout out' (Nat.iter n (after_query q) w2))))
      with (sent (wire (Nat.iter n (after_query q) w2))).
    rewrite polled_sent.
    change (sent (wire w2)) with ((sent (wire w) ++ [sweep_clear ch]) ++ [sweep_start ch])%list.
    rewrite <- !app_assoc. reflexivity. }
  assert (Hpend : pending (wire (set_stdout out' (Nat.iter n (after_query q) w2)))
                  = (if truthy control then tl rest else rest)).
  { change (pending (wire (set_stdout out' (Nat.iter n (after_query q) w2))))
      with (pending (wire (Nat.iter n (after_query q) w2))).
    unfold n. destruct (truthy control).
    - replace (k + 1)%nat with (S k) by lia.
      rewrite Nat.iter_succ, after_query_pending, Hrest. reflexivity.
    - rewrite Nat.add_0_r. exact Hrest. }
  split; [reflexivity|]. split; [exact Hsent|]. split; [|split].
  - rewrite Hsent. apply count_once; unfold sweep_start, sweep_clear, q, sweep_query;
      intros H; discriminate H.
  - exact Hpend.
  - unfold polls_made. rewrite Hpend, Hpending, length_app, flat_turns_length.
    unfold n, k. cbn [length]. destruct (truthy control) eqn:Hfinal; [|lia].
    cbn [implb] in Hextra. destruct rest as [|extra rest']; [discriminate Hextra|].
    cbn [tl length]. lia.
Qed.

(** Two turns, then the loop test reads the target: with reporting off
    one reply is left; with reporting on it is read for the final
    report. *)
Lemma single_sweep_vna_polls_witness :
  (let w := replying ["0"; "5"; "0"; "0"; "3"; "4"] in
   let r := VNAChannel.single_sweep_vna (channel (IdInt 1)) (VInt 3) VNone VNone w in
   fst r = Ok tt
   /\ issued w (snd r)
      = ["SENSe1:AVER:CLE"; "INIT1:IMM; *OPC"; "CALC1:DATA:NSW:COUN?";
         "CALC1:DATA:NSW:COUN?"; "CALC1:DATA:NSW:COUN?"; "CALC1:DATA:NSW:COUN?";
         "CALC1:DATA:NSW:COUN?"]
   /\ count_occ string_dec (issued w (snd r)) "INIT1:IMM; *OPC" = 1%nat
   /\ pending (wire (snd r)) = ["4"]
   /\ polls_made w (snd r) = 5%nat)
  /\ (let w := replying ["0"; "5"; "0"; "0"; "3"; "4"] in
      let r := VNAChannel.single_sweep_vna (channel (IdInt 1)) (VInt 3)
                 (VBool true) (VStr "ZVA") w in
      fst r = Ok tt
      /\ pending (wire (snd r)) = []
      /\ polls_made w (snd r) = 6%nat).
Proof.
  split.
  - apply (proj2 (single_sweep_vna_polls (IdInt 1) (VInt 3) VNone VNone (XFin 3 0)
                    [("0", "5"); ("0", "0")] "3" ["4"]
                    (replying ["0"; "5"; "0"; "0"; "3"; "4"])));
      reflexivity.
  - destruct (proj2 (single_sweep_vna_polls (IdInt 1) (VInt 3) (VBool true)
                       (VStr "ZVA") (XFin 3 0)
                       [("0", "5"); ("0", "0")] "3" ["4"]
                       (replying ["0"; "5"; "0"; "0"; "3"; "4"]))
                eq_refl eq_refl eq_refl eq_refl eq_refl eq_refl)
      as (Hr & _ & _ & Hp & Hn).
    split; [exact Hr|]. split; [exact Hp | exact Hn].
Defined.

(** C5 (counterexample).  With the readings 0, 3, 3 and the target 3,
    the first reading that reaches the target is the second, taken
    inside the loop body; the loop does not end there but at the third
    reading, the next loop test.  The start command was written once. *)
Lemma sweep_passes_over_reading_in_body :
  let w := replying ["0"; "3"; "3"] in
  let r := VNAChannel.single_sweep_vna (channel (IdInt 1)) (VInt 3) VNone VNone w in
  fst r = Ok tt
  /\ first_reaching (XFin 3 0) (pending (wire w)) = 2%nat
  /\ polls_made w (snd r) = 3%nat
  /\ count_occ string_dec (sent (wire (snd r))) "INIT1:IMM; *OPC" = 1%nat.
Proof. repeat split; vm_compute; reflexivity. Qed.

(* ===================================================================== *)
(** * Further properties of the drivers *)
(* ===================================================================== *)

Import Behaviour.

(** ** Values inside the range *)

Lemma truncated_range_inside (a b v : value) (lo hi x : xnum) :
  xnum_of a = Some lo -> xnum_of b = Some hi -> xnum_of v = Some x ->
  xlt lo hi = true -> in_range lo hi x = true ->
  run_truncated_range v [a; b] = Ok v.
Proof.
  intros Ha Hb Hv Hlt Hin. unfold run_truncated_range.
  rewrite (within_pair a b v lo hi x Ha Hb Hv Hlt), Hin. reflexivity.
Qed.

Lemma fset_send_validated (p : property) (h : handle) (v u : value) (w : world) :
  validate (prop_validator p) v (prop_values p) = Ok u ->
  fset p h v w = send_validated p h u w.
Proof.
  intros H. unfold fset, send_validated.
  destruct (set_command p) as [t|]; [|reflexivity].
  rewrite H. reflexivity.
Qed.

Lemma in_range_bounds (lo hi : xnum) :
  xlt lo hi = true -> in_range lo hi lo = true /\ in_range lo hi hi = true.
Proof.
  intros H. unfold in_range.
  rewrite (xlt_xle lo hi H), (xle_refl_left lo hi H), (xle_refl_right lo hi H).
  split; reflexivity.
Qed.

(** X1.  For every property of the two drivers declared with a numeric
    range [lo, hi] and a range validator, and every number assigned to
    it: either the assignment raises [ValueError] and changes nothing,
    or what is processed, formatted and written is a number inside
    [lo, hi]; a number inside the range is passed on as it is.  No
    number outside the range gets past the validator. *)
Theorem range_validator_lets_only_range_through (p : property) (lo hi x : xnum)
    (v : value) (h : handle) (w : world) :
  In p all_properties ->
  declared_range p = Some (lo, hi) ->
  prop_validator p = strict_range \/ prop_validator p = truncated_range ->
  xnum_of v = Some x ->
  (in_range lo hi x = true -> fset p h v w = send_validated p h v w)
  /\ (fset p h v w = (Raise ValueError, w)
      \/ exists u y, xnum_of u = Some y /\ in_range lo hi y = true
                     /\ fset p h v w = send_validated p h u w).
Proof.
  intros _ Hr Hk Hv.
  destruct (declared_range_inv p lo hi Hr) as (a & b & Hvals & Ha & Hb & Hlt).
  destruct (in_range_bounds lo hi Hlt) as [Hlo Hhi].
  assert (Hin : in_range lo hi x = true -> fset p h v w = send_validated p h v w).
  { intros Hin. apply fset_send_validated. unfold validate. rewrite Hvals.
    destruct Hk as [-> | ->]; cbn [bound_keys].
    - apply (strict_range_inside a b v lo hi x Ha Hb Hv Hlt Hin).
    - apply (truncated_range_inside a b v lo hi x Ha Hb Hv Hlt Hin). }
  split; [exact Hin|].
  destruct (in_range lo hi x) eqn:Hx.
  - right. exists v, x. split; [exact Hv|]. split; [exact Hx | apply Hin; reflexivity].
  - destruct Hk as [Hk | Hk].
    + destruct (set_command p) as [t|] eqn:Ht.
      * left. apply (fset_strict_range_rejects p lo hi x v h w Hk); try assumption.
        exists t. exact Ht.
      * right. exists a, lo. split; [exact Ha|]. split; [exact Hlo|].
        unfold fset, send_validated. rewrite Ht. reflexivity.
    + right. exists (if xlt hi x then b else a), (if xlt hi x then hi else lo).
      split; [destruct (xlt hi x); assumption|].
      split; [destruct (xlt hi x); assumption|].
      apply fset_send_validated. unfold validate. rewrite Hk, Hvals. cbn [bound_keys].
      apply (truncated_range_outside a b v lo hi x Ha Hb Hv Hlt Hx).
Qed.

(** [power] at 5 and at 11, [voltage_setpoint] at 60. *)
Lemma range_validator_lets_only_range_through_witness :
  fset VNAChannel.power (channel (IdInt 1)) (VInt 5) quiet
  = send_validated VNAChannel.power (channel (IdInt 1)) (VInt 5) quiet
  /\ (fset KepcoBOP5020.voltage_setpoint KepcoBOP5020.self (VInt 60) quiet
        = (Raise ValueError, quiet)
      \/ exists u y, xnum_of u = Some y /\ in_range (XFin (-50) 0) (XFin 50 0) y = true
           /\ fset KepcoBOP5020.voltage_setpoint KepcoBOP5020.self (VInt 60) quiet
              = send_validated KepcoBOP5020.voltage_setpoint KepcoBOP5020.self u quiet).
Proof.
  split.
  - apply (proj1 (range_validator_lets_only_range_through VNAChannel.power
                    (XFin (-40) 0) (XFin 10 0) (XFin 5 0) (VInt 5) (channel (IdInt 1)) quiet
                    ltac:(in_properties) eq_refl (or_introl eq_refl) eq_refl)).
    reflexivity.
  - apply (proj2 (range_validator_lets_only_range_through KepcoBOP5020.voltage_setpoint
                    (XFin (-50) 0) (XFin 50 0) (XFin 60 0) (VInt 60) KepcoBOP5020.self quiet
                    ltac:(in_properties) eq_refl (or_intror eq_refl) eq_refl)).
Defined.

(** ** Sequences of writes *)

Lemma bind_ret_tt (c : M unit) (w : world) : bind c (fun _ => ret tt) w = c w.
Proof. unfold bind, ret. destruct (c w) as [[[]|e] w']; reflexivity. Qed.

Lemma after_writes_sent (commands : list string) (w : world) :
  sent (wire (after_writes commands w)) = (sent (wire w) ++ commands)%list.
Proof.
  revert w. induction commands as [|c l IH]; intros w.
  - cbn. rewrite app_nil_r. reflexivity.
  - cbn [after_writes fold_left]. fold (after_writes l (after_write c w)).
    rewrite IH. cbn. rewrite <- app_assoc. reflexivity.
Qed.

Lemma after_writes_rest (commands : list string) (w : world) :
  channels (after_writes commands w) = channels w
  /\ stdout (after_writes commands w) = stdout w
  /\ pending (wire (after_writes commands w)) = pending (wire w).
Proof.
  revert w. induction commands as [|c l IH]; intros w; [repeat split|].
  cbn [after_writes fold_left]. fold (after_writes l (after_write c w)).
  destruct (IH (after_write c w)) as (H1 & H2 & H3). rewrite H1, H2, H3.
  repeat split.
Qed.

Lemma after_writes_faults (commands : list string) (w : world) :
  faults (wire (after_writes commands w)) = skipn (length commands) (faults (wire w)).
Proof.
  revert w. induction commands as [|c l IH]; intros w; [reflexivity|].
  cbn [after_writes fold_left]. fold (after_writes l (after_write c w)).
  rewrite IH. cbn. destruct (faults (wire w)); [apply skipn_nil | reflexivity].
Qed.

Lemma write_all_ok (commands : list string) (w : world) :
  writes_ok (length commands) w ->
  write_all commands w = (Ok tt, after_writes commands w).
Proof.
  revert w. induction commands as [|c l IH]; intros w Hok; [reflexivity|].
  unfold writes_ok in Hok. cbn [length] in Hok.
  cbn [write_all].
  assert (Hnext : next_write_ok w).
  { unfold next_write_ok. destruct (faults (wire w)) as [|[] fs];
      [reflexivity | discriminate Hok | reflexivity]. }
  erewrite bind_ok; [| apply adapter_write_ok; exact Hnext].
  apply IH. unfold writes_ok.
  destruct w as [[s p f] m o i]. cbn in *.
  destruct f as [|b f]; [rewrite firstn_nil; reflexivity|].
  cbn in Hok. apply andb_prop in Hok as [_ Hok]. exact Hok.
Qed.

Lemma write_all_fault (commands : list string) (k : nat) (fs : list bool) (w : world) :
  (k < length commands)%nat ->
  faults (wire w) = (repeat false k ++ true :: fs)%list ->
  write_all commands w
  = (Raise TransportError, after_fault (after_writes (firstn k commands) w)).
Proof.
  revert k w. induction commands as [|c l IH]; intros k w Hk Hf; [inversion Hk|].
  cbn [write_all]. destruct k as [|k].
  - cbn [repeat app] in Hf. erewrite bind_raise;
      [| apply (adapter_write_fault c w fs Hf)].
    cbn [firstn after_writes fold_left]. unfold after_fault. rewrite Hf. reflexivity.
  - cbn [repeat app] in Hf.
    erewrite bind_ok;
      [| apply adapter_write_ok; unfold next_write_ok; rewrite Hf; reflexivity].
    cbn [firstn after_writes fold_left].
    apply IH; [cbn [length] in Hk; lia|].
    cbn. rewrite Hf. reflexivity.
Qed.

Lemma after_fault_faults (commands : list string) (k : nat) (fs : list bool) (w : world) :
  (k < length commands)%nat ->
  faults (wire w) = (repeat false k ++ true :: fs)%list ->
  faults (wire (after_fault (after_writes (firstn k commands) w))) = fs.
Proof.
  intros Hk Hf.
  assert (E : faults (wire (after_writes (firstn k commands) w)) = true :: fs).
  { rewrite after_writes_faults, Hf.
    rewrite length_firstn, Nat.min_l by lia.
    rewrite skipn_app, skipn_all2 by (rewrite repeat_length; lia).
    rewrite repeat_length, Nat.sub_diag. reflexivity. }
  destruct (after_writes (firstn k commands) w) as [[s p f] m o i].
  cbn in *. rewrite E. reflexivity.
Qed.

Lemma after_fault_sent (w : world) : sent (wire (after_fault w)) = sent (wire w).
Proof. destruct w as [[s p f] m o i]. reflexivity. Qed.

Lemma in_py_range (a b v : Z) : a <= v < b -> In v (py_range a b).
Proof.
  intros H. unfold py_range. apply in_map_iff. exists (Z.to_nat (v - a)).
  split; [lia|]. apply in_seq. lia.
Qed.

Lemma fset_wire_text (p : property) (v : value) (c : string) (h : handle) (w : world) :
  wire_text p v = Some c -> fset p h v w = write h c w.
Proof.
  unfold wire_text, fset. destruct (set_command p) as [t|]; [|discriminate].
  destruct (validate (prop_validator p) v (prop_values p)) as [v1|]; [|discriminate].
  unfold bind, lift, ret.
  destruct (set_process p v1) as [v2|]; [|discriminate].
  destruct (if map_values p then to_wire (prop_values p) v2 else Ok v2) as [v3|];
    [|discriminate].
  destruct (percent t v3) as [c'|]; [|discriminate].
  intros H. injection H as <-. reflexivity.
Qed.

Lemma same_text_eq (o : option string) (s : string) :
  same_text o s = true -> o = Some s.
Proof.
  destruct o as [c|]; [|discriminate]. cbn. intros H.
  apply String.eqb_eq in H. subst c. reflexivity.
Qed.

Lemma bind_ext_on_both {A B} (c1 c2 : M A) (k1 k2 : A -> M B) (w : world) :
  c1 w = c2 w ->
  (forall a w', k1 a w' = k2 a w') ->
  bind c1 k1 w = bind c2 k2 w.
Proof.
  intros Hc Hk. unfold bind. rewrite Hc.
  destruct (c2 w) as [[a|e] w']; [apply Hk | reflexivity].
Qed.

(** ** Limits of the power supply *)

Lemma voltage_limit_table :
  forallb
    (fun v =>
       same_text (wire_text KepcoBOP5020.voltage_protect_limit
                    (VFloat (1.01 * float_of_Z v)%float))
         ("VOLT:PROT:LIM " +:+ str_of_Z v)
       && same_text (wire_text KepcoBOP5020.voltage_limit (VInt v))
            ("VOLT:LIM " +:+ str_of_Z v))
    (py_range (-50) 51) = true.
Proof. vm_compute. reflexivity. Qed.

Lemma current_limit_table :
  forallb
    (fun v =>
       same_text (wire_text KepcoBOP5020.current_protect_limit
                    (VFloat (1.01 * float_of_Z v)%float))
         ("CURR:PROT:LIM " +:+ str_of_Z v)
       && same_text (wire_text KepcoBOP5020.current_limit (VInt v))
            ("CURR:LIM " +:+ str_of_Z v))
    (py_range (-20) 21) = true.
Proof. vm_compute. reflexivity. Qed.

(** For whole-number limits within the rating, [establish_limits] is a
    plain sequence of writes. *)
Lemma establish_limits_writes (volt curr : Z) (store : value) (w : world) :
  -50 <= volt <= 50 ->
  -20 <= curr <= 20 ->
  KepcoBOP5020.establish_limits (VInt volt) (VInt curr) store w
  = write_all (limit_commands volt curr store) w.
Proof.
  intros Hv Hc.
  pose proof voltage_limit_table as Tv. rewrite forallb_forall in Tv.
  specialize (Tv volt (in_py_range (-50) 51 volt ltac:(lia))).
  apply andb_prop in Tv as [Tv1 Tv2].
  apply same_text_eq in Tv1. apply same_text_eq in Tv2.
  pose proof current_limit_table as Tc. rewrite forallb_forall in Tc.
  specialize (Tc curr (in_py_range (-20) 21 curr ltac:(lia))).
  apply andb_prop in Tc as [Tc1 Tc2].
  apply same_text_eq in Tc1. apply same_text_eq in Tc2.
  unfold KepcoBOP5020.establish_limits, limit_commands.
  cbn [float_times lift]. unfold bind at 1. cbn [ret].
  cbn [write_all app].
  apply bind_ext_on_both; [exact (fset_wire_text _ _ _ KepcoBOP5020.self _ Tv1)|]. intros _ w1.
  unfold bind at 1. cbn [ret].
  apply bind_ext_on_both; [exact (fset_wire_text _ _ _ KepcoBOP5020.self _ Tc1)|]. intros _ w2.
  apply bind_ext_on_both; [exact (fset_wire_text _ _ _ KepcoBOP5020.self _ Tv2)|]. intros _ w3.
  destruct (truthy store); cbn [app write_all].
  - apply bind_ext_on_both; [exact (fset_wire_text _ _ _ KepcoBOP5020.self _ Tc2)|]. intros _ w4.
    symmetry. apply bind_ret_tt.
  - apply bind_ext_on_both; [exact (fset_wire_text _ _ _ KepcoBOP5020.self _ Tc2)|]. intros _ w4.
    reflexivity.
Qed.

(** X2. [establish_limits] with whole-number limits within the rating
    (|volt| <= 50, |curr| <= 20), on a transport that accepts the writes:
    it returns normally and sends, in this order, the voltage and current
    protection limits, the voltage and current limits and, when [store]
    is truthy, "MEM:UPD LIM"; nothing else changes.  The protection
    limits go out as the same whole numbers as the limits: the 1.01
    margin is lost to the [%d] of their commands. *)
Theorem establish_limits_sends (volt curr : Z) (store : value) (w : world) :
  -50 <= volt <= 50 ->
  -20 <= curr <= 20 ->
  writes_ok (length (limit_commands volt curr store)) w ->
  exists w',
    KepcoBOP5020.establish_limits (VInt volt) (VInt curr) store w = (Ok tt, w')
    /\ sent (wire w') = (sent (wire w) ++ limit_commands volt curr store)%list
    /\ pending (wire w') = pending (wire w)
    /\ channels w' = channels w
    /\ stdout w' = stdout w.
Proof.
  intros Hv Hc Hok. exists (after_writes (limit_commands volt curr store) w).
  rewrite (establish_limits_writes volt curr store w Hv Hc).
  rewrite (write_all_ok _ w Hok).
  destruct (after_writes_rest (limit_commands volt curr store) w) as (H1 & H2 & H3).
  rewrite after_writes_sent. repeat split; assumption.
Qed.

Lemma establish_limits_sends_witness :
  exists w',
    KepcoBOP5020.establish_limits (VInt 50) (VInt (-20)) (VBool true) quiet
    = (Ok tt, w')
    /\ sent (wire w')
       = (sent (wire quiet)
          ++ ["VOLT:PROT:LIM 50"; "CURR:PROT:LIM -20"; "VOLT:LIM 50";
              "CURR:LIM -20"; "MEM:UPD LIM"])%list
    /\ pending (wire w') = pending (wire quiet)
    /\ channels w' = channels quiet
    /\ stdout w' = stdout quiet.
Proof.
  apply (establish_limits_sends 50 (-20) (VBool true) quiet); [lia | lia | reflexivity].
Defined.

(** X3. [establish_limits] does not undo what it has sent: when the
    transport refuses the write number k+1 of the sequence, the call
    raises the transport error, the first k commands have gone out and
    none of the later ones is attempted. *)
Theorem establish_limits_stops_at_fault (volt curr : Z) (store : value)
    (k : nat) (fs : list bool) (w : world) :
  -50 <= volt <= 50 ->
  -20 <= curr <= 20 ->
  (k < length (limit_commands volt curr store))%nat ->
  faults (wire w) = (repeat false k ++ true :: fs)%list ->
  exists w',
    KepcoBOP5020.establish_limits (VInt volt) (VInt curr) store w
    = (Raise TransportError, w')
    /\ sent (wire w')
       = (sent (wire w) ++ firstn k (limit_commands volt curr store))%list
    /\ faults (wire w') = fs.
Proof.
  intros Hv Hc Hk Hf.
  exists (after_fault (after_writes (firstn k (limit_commands volt curr store)) w)).
  rewrite (establish_limits_writes volt curr store w Hv Hc).
  rewrite (write_all_fault _ k fs w Hk Hf).
  split; [reflexivity|]. split.
  - rewrite after_fault_sent. apply after_writes_sent.
  - apply after_fault_faults; assumption.
Qed.

Lemma establish_limits_stops_at_fault_witness :
  exists w',
    KepcoBOP5020.establish_limits (VInt 30) (VInt 10) (VBool true)
      (failing [false; false; true; false])
    = (Raise TransportError, w')
    /\ sent (wire w')
       = (sent (wire (failing [false; false; true; false]))
          ++ ["VOLT:PROT:LIM 30"; "CURR:PROT:LIM 10"])%list
    /\ faults (wire w') = [false].
Proof.
  apply (establish_limits_stops_at_fault 30 10 (VBool true) 2 [false]
           (failing [false; false; true; false]));
    [lia | lia | cbn; lia | reflexivity].
Defined.

(** ** Default channels of the analyzer *)

Lemma writes_ok_next (n : nat) (w : world) : writes_ok (S n) w -> next_write_ok w.
Proof.
  unfold writes_ok, next_write_ok.
  destruct (faults (wire w)) as [|[] fs]; [reflexivity | discriminate | reflexivity].
Qed.

Lemma channels_created_stdout (ids : list Z) (w : world) :
  stdout (channels_created ids w) = (stdout w ++ map channel_created_line ids)%list.
Proof.
  revert w. induction ids as [|d ids IH]; intros w.
  - cbn. rewrite app_nil_r. reflexivity.
  - cbn [channels_created fold_left]. fold (channels_created ids (channel_created d w)).
    rewrite IH. cbn. rewrite <- app_assoc. reflexivity.
Qed.

Lemma channels_created_rest (ids : list Z) (w : world) :
  stdin (channels_created ids w) = stdin w
  /\ pending (wire (channels_created ids w)) = pending (wire w).
Proof.
  revert w. induction ids as [|d ids IH]; intros w; [split; reflexivity|].
  cbn [channels_created fold_left]. fold (channels_created ids (channel_created d w)).
  destruct (IH (channel_created d w)) as [H1 H2]. rewrite H1, H2. split; reflexivity.
Qed.

Lemma define_default_channels_loop_all (l : list Z) (w : world) :
  writes_ok (length l) w ->
  ZVA.define_default_channels_loop l w = (Ok tt, channels_created l w).
Proof.
  revert w. induction l as [|d l IH]; intros w Hok; [reflexivity|].
  rewrite define_default_channels_loop_ok by (apply (writes_ok_next _ _ Hok)).
  cbn [channels_created fold_left]. fold (channels_created l (channel_created d w)).
  apply IH. unfold writes_ok in *. cbn [length] in Hok.
  destruct w as [[s p f] m o i]. cbn in *.
  destruct f as [|b f]; [rewrite firstn_nil; reflexivity|].
  cbn in Hok. apply andb_prop in Hok as [_ Hok]. exact Hok.
Qed.

Lemma with_channels_lookup (ids : list Z) (m : gmap ident unit_tree) (i : Z) :
  In i ids -> with_channels ids m !! IdInt i = Some (Unit VNAChannel.class ∅).
Proof.
  revert m. induction ids as [|d ids IH] using rev_ind; intros m Hin; [destruct Hin|].
  rewrite with_channels_app. cbn [with_channels fold_left].
  destruct (Z.eq_dec d i) as [->|Hne].
  - apply lookup_insert_eq.
  - rewrite lookup_insert_ne by congruence.
    apply IH. apply in_app_or in Hin as [H|[H|[]]]; [exact H | contradiction].
Qed.

Lemma with_channels_lookup_other (ids : list Z) (m : gmap ident unit_tree) (id : ident) :
  (forall i, In i ids -> id <> IdInt i) ->
  with_channels ids m !! id = m !! id.
Proof.
  revert m. induction ids as [|d ids IH]; intros m H; [reflexivity|].
  cbn [with_channels fold_left]. fold (with_channels ids (<[IdInt d := Unit VNAChannel.class ∅]> m)).
  rewrite IH by (intros i Hi; apply H; right; exact Hi).
  apply lookup_insert_ne. intros E. apply (H d); [left; reflexivity | symmetry; exact E].
Qed.

Lemma in_py_range_inv (a b v : Z) : In v (py_range a b) -> a <= v < b.
Proof.
  unfold py_range. intros H. apply in_map_iff in H as (i & <- & Hi).
  apply in_seq in Hi. lia.
Qed.

Lemma define_default_channels_direct (name : string) (n : Z) (w : world) :
  1 <= n ->
  ZVA.define_default_channels name n w
  = ZVA.define_default_channels_loop (py_range 1 (n + 1)) w.
Proof.
  intros Hn. unfold ZVA.define_default_channels.
  unfold bind at 1. cbn [ZVA.read_channel_number].
  replace (n <? 1) with false by (symmetry; apply Z.ltb_ge; lia).
  reflexivity.
Qed.

(** X4. [define_default_channels] with a number of channels [n >= 1], on
    a transport that accepts [n] writes: it returns normally without
    prompting; it has sent the creation commands of the channels 1..n
    in order and announced each; every key 1..n of the child mapping now
    holds a fresh channel and no other key has changed. *)
Theorem define_default_channels_creates (name : string) (n : Z) (w : world) :
  1 <= n ->
  writes_ok (Z.to_nat n) w ->
  exists w',
    ZVA.define_default_channels name n w = (Ok tt, w')
    /\ sent (wire w')
       = (sent (wire w) ++ map channel_created_command (py_range 1 (n + 1)))%list
    /\ stdout w'
       = (stdout w ++ map channel_created_line (py_range 1 (n + 1)))%list
    /\ stdin w' = stdin w
    /\ (forall i, 1 <= i <= n ->
                  channels w' !! IdInt i = Some (Unit VNAChannel.class ∅))
    /\ (forall id, (forall i, 1 <= i <= n -> id <> IdInt i) ->
                   channels w' !! id = channels w !! id).
Proof.
  intros Hn Hok. exists (channels_created (py_range 1 (n + 1)) w).
  rewrite (define_default_channels_direct name n w Hn).
  rewrite define_default_channels_loop_all
    by (rewrite py_range_length; replace (n + 1 - 1) with n by lia; exact Hok).
  split; [reflexivity|].
  split; [apply channels_created_sent|].
  split; [apply channels_created_stdout|].
  split; [apply channels_created_rest|].
  rewrite channels_created_channels. split.
  - intros i Hi. apply with_channels_lookup. apply in_py_range. lia.
  - intros id Hid. apply with_channels_lookup_other.
    intros i Hi. apply in_py_range_inv in Hi. apply Hid. lia.
Qed.

Lemma define_default_channels_creates_witness :
  exists w',
    ZVA.define_default_channels "ZVA" 2 (set_stdin ["7"] quiet) = (Ok tt, w')
    /\ sent (wire w')
       = (sent (wire (set_stdin ["7"] quiet))
          ++ map channel_created_command (py_range 1 (2 + 1)))%list
    /\ stdout w'
       = (stdout (set_stdin ["7"] quiet)
          ++ map channel_created_line (py_range 1 (2 + 1)))%list
    /\ stdin w' = stdin (set_stdin ["7"] quiet)
    /\ (forall i, 1 <= i <= 2 ->
                  channels w' !! IdInt i = Some (Unit VNAChannel.class ∅))
    /\ (forall id, (forall i, 1 <= i <= 2 -> id <> IdInt i) ->
                   channels w' !! id = channels (set_stdin ["7"] quiet) !! id).
Proof.
  apply (define_default_channels_creates "ZVA" 2 (set_stdin ["7"] quiet));
    [lia | reflexivity].
Defined.








(** ** Default traces of a channel *)

Lemma traces_created_sent (ch : ident) (measurements : list string) (ids : list Z)
    (w : world) :
  sent (wire (traces_created ch measurements ids w))
  = (sent (wire w)
     ++ map (fun i => trace_created_command ch i (nth (Z.to_nat (i - 1)) measurements ""))
          ids)%list.
Proof.
  revert w. induction ids as [|d ids IH]; intros w.
  - cbn. rewrite app_nil_r. reflexivity.
  - cbn [traces_created fold_left].
    fold (traces_created ch measurements ids (trace_created ch measurements d w)).
    rewrite IH. cbn. rewrite <- app_assoc. reflexivity.
Qed.

Lemma traces_created_rest (ch : ident) (measurements : list string) (ids : list Z)
    (w : world) :
  stdout (traces_created ch measurements ids w) = stdout w
  /\ pending (wire (traces_created ch measurements ids w)) = pending (wire w)
  /\ faults (wire (traces_created ch measurements ids w))
     = skipn (length ids) (faults (wire w)).
Proof.
  revert w. induction ids as [|d ids IH]; intros w; [repeat split|].
  cbn [traces_created fold_left].
  fold (traces_created ch measurements ids (trace_created ch measurements d w)).
  destruct (IH (trace_created ch measurements d w)) as (H1 & H2 & H3).
  rewrite H1, H2, H3. repeat split.
  cbn. destruct (faults (wire w)); [apply skipn_nil | reflexivity].
Qed.

Lemma define_default_traces_loop_all (ch : ident) (measurements : list string)
    (k : nat) :
  brace_free (id_text ch) = true ->
  forallb brace_free measurements = true ->
  forall (i : Z) (acc : list string) (w : world),
  1 <= i ->
  i + Z.of_nat k = Z.of_nat (length measurements) + 1 ->
  length acc = Z.to_nat (i - 1) ->
  writes_ok k w ->
  VNAChannel.define_default_traces_loop (channel ch) measurements
    (py_range i (Z.of_nat (length measurements) + 1)) acc w
  = (Ok tt,
     traces_created ch measurements (py_range i (Z.of_nat (length measurements) + 1)) w).
Proof.
  intros Hch Hms. induction k as [|k IH]; intros i acc w Hi Hik Hacc Hok.
  - replace (Z.of_nat (length measurements) + 1) with i by lia.
    replace (py_range i i) with (@nil Z)
      by (unfold py_range; rewrite Z.sub_diag; reflexivity).
    reflexivity.
  - rewrite (py_range_split i i) by lia.
    replace (py_range i i) with (@nil Z)
      by (unfold py_range; rewrite Z.sub_diag; reflexivity).
    cbn [app].
    rewrite (define_default_traces_loop_ok ch measurements Hch Hms i _ acc w)
      by (try lia; try exact Hacc; apply (writes_ok_next _ _ Hok)).
    rewrite (IH (i + 1) (acc ++ [trace_name ch i])%list).
    + reflexivity.
    + lia.
    + lia.
    + rewrite length_app, Hacc. cbn [length]. lia.
    + unfold writes_ok in *. destruct w as [[s p f] m o j]. cbn in *.
      destruct f as [|b f]; [rewrite firstn_nil; reflexivity|].
      cbn in Hok. apply andb_prop in Hok as [_ Hok]. exact Hok.
Qed.

(** X7. [define_default_traces] on a registered channel whose identifier
    and measurement names hold no brace, on a transport that accepts one
    write for each measurement: it returns normally; for the i-th
    measurement (counted from 1) it has registered the trace
    "<channel>_<i>" under the channel and has sent
    "CALC<channel>:PAR:SDEF 'Trc<channel>_<i>', '<measurement>'", in
    order; it prints nothing.  The measurement names are not checked
    against the values the [measurement] property declares. *)
Theorem define_default_traces_creates (ch : ident) (measurements : list string)
    (kids : gmap ident unit_tree) (w : world) :
  brace_free (id_text ch) = true ->
  forallb brace_free measurements = true ->
  children_of (channel ch) w = Some kids ->
  writes_ok (length measurements) w ->
  exists w',
    VNAChannel.define_default_traces (channel ch) measurements w = (Ok tt, w')
    /\ sent (wire w')
       = (sent (wire w)
          ++ map (fun i => trace_created_command ch i
                             (nth (Z.to_nat (i - 1)) measurements ""))
               (py_range 1 (Z.of_nat (length measurements) + 1)))%list
    /\ children_of (channel ch) w'
       = Some (with_traces ch (py_range 1 (Z.of_nat (length measurements) + 1)) kids)
    /\ stdout w' = stdout w.
Proof.
  intros Hch Hms Hkids Hok.
  exists (traces_created ch measurements
            (py_range 1 (Z.of_nat (length measurements) + 1)) w).
  unfold VNAChannel.define_default_traces. cbv zeta.
  rewrite (define_default_traces_loop_all ch measurements (length measurements)
             Hch Hms 1 [] w) by (try lia; try reflexivity; exact Hok).
  split; [reflexivity|].
  split; [apply traces_created_sent|].
  split; [apply children_of_traces_created; exact Hkids|].
  apply traces_created_rest.
Qed.

Lemma define_default_traces_creates_witness :
  exists w',
    VNAChannel.define_default_traces (channel (IdInt 1)) ["S11"; "anything"]
      (channel_registered 1 quiet) = (Ok tt, w')
    /\ sent (wire w')
       = (sent (wire (channel_registered 1 quiet))
          ++ map (fun i => trace_created_command (IdInt 1) i
                             (nth (Z.to_nat (i - 1)) ["S11"; "anything"] ""))
               (py_range 1 (Z.of_nat (length ["S11"; "anything"]) + 1)))%list
    /\ children_of (channel (IdInt 1)) w'
       = Some (with_traces (IdInt 1)
                 (py_range 1 (Z.of_nat (length ["S11"; "anything"]) + 1)) ∅)
    /\ stdout w' = stdout (channel_registered 1 quiet).
Proof.
  apply (define_default_traces_creates (IdInt 1) ["S11"; "anything"] ∅
           (channel_registered 1 quiet)); reflexivity.
Defined.

(** ** Operating mode of the power supply *)

Lemma list_item_modes (i : Z) :
  list_item KepcoBOP5020.OPERATING_MODES i = mode_at i.
Proof.
  unfold list_item, mode_at, KepcoBOP5020.OPERATING_MODES. cbn [length].
  destruct (Z.ltb_spec i 0) as [Hneg|Hpos].
  - destruct (Z.ltb_spec (i + Z.of_nat 2) 0) as [H2|H2].
    + replace (i =? 0) with false by (symmetry; apply Z.eqb_neq; lia).
      replace (i =? -2) with false by (symmetry; apply Z.eqb_neq; lia).
      replace (i =? 1) with false by (symmetry; apply Z.eqb_neq; lia).
      replace (i =? -1) with false by (symmetry; apply Z.eqb_neq; lia).
      reflexivity.
    + assert (Hi : i = -2 \/ i = -1) by lia. destruct Hi as [-> | ->]; reflexivity.
  - destruct (Z.ltb_spec i 0) as [H2|_]; [lia|].
    destruct (Z.eq_dec i 0) as [->|H0]; [reflexivity|].
    destruct (Z.eq_dec i 1) as [->|H1]; [reflexivity|].
    replace (i =? 0) with false by (symmetry; apply Z.eqb_neq; lia).
    replace (i =? -2) with false by (symmetry; apply Z.eqb_neq; lia).
    replace (i =? 1) with false by (symmetry; apply Z.eqb_neq; lia).
    replace (i =? -1) with false by (symmetry; apply Z.eqb_neq; lia).
    cbn [orb].
    destruct (Z.to_nat i) as [|[|[|n]]] eqn:E; try lia; reflexivity.
Qed.

(** X8. Reading [operating_mode]: a reply that reads as a number is
    truncated toward zero and used as a Python index into
    ["VOLT", "CURR"].  So 0 gives "VOLT" and 1 gives "CURR", the negative
    indices -2 and -1 give "VOLT" and "CURR" as well, and every other
    number ends in the index error, the query having been sent and the
    reply consumed. *)
Theorem operating_mode_reads_index (r : string) (f : float) (i : Z)
    (rest : list string) (w : world) :
  next_write_ok w ->
  pending (wire w) = r :: rest ->
  parse_float r = Ok f ->
  trunc_float f = Ok i ->
  fget KepcoBOP5020.operating_mode KepcoBOP5020.self w
  = (mode_at i, after_query "FUNCtion:MODE?" w).
Proof.
  intros Hok Hp Hf Hi.
  unfold fget, KepcoBOP5020.operating_mode, with_get_process, with_validator, control.
  cbn [get_command prop_cast map_values get_process].
  erewrite bind_ok; [| exact (ask_instrument "FUNCtion:MODE?" r rest w Hok Hp)].
  unfold run_cast. rewrite Hf. cbn [rbind lift ret]. unfold bind at 1. cbn [ret].
  cbn [py_int]. rewrite Hi. cbn [rbind]. rewrite list_item_modes.
  unfold bind. destruct (mode_at i); reflexivity.
Qed.

Lemma operating_mode_reads_index_witness :
  fget KepcoBOP5020.operating_mode KepcoBOP5020.self (replying ["-1.7"])
  = (mode_at (-1), after_query "FUNCtion:MODE?" (replying ["-1.7"])).
Proof.
  apply (operating_mode_reads_index "-1.7" (-1.7)%float (-1) [] (replying ["-1.7"]));
    reflexivity.
Defined.

(** ** What [single_sweep_vna] prints *)

Lemma bind_result_ok {A B} (c : M A) (k : A -> M B) (w w2 : world) (b : B) :
  bind c k w = (Ok b, w2) ->
  exists a w1, c w = (Ok a, w1) /\ k a w1 = (Ok b, w2).
Proof.
  unfold bind. destruct (c w) as [[a|e] w1]; intros H; [|discriminate H].
  exists a, w1. split; [reflexivity | exact H].
Qed.

(** X9. [single_sweep_vna] with a truthy [control] and an [idn] that is
    not a string (the default, [None], is not) never returns normally:
    the final report adds [idn] to a string. *)
Theorem single_sweep_vna_needs_idn (self : handle) (sweeps control idn : value)
    (w : world) :
  truthy control = true ->
  is_str idn = false ->
  fst (VNAChannel.single_sweep_vna self sweeps control idn w) <> Ok tt.
Proof.
  intros Hc Hidn Hres.
  destruct (VNAChannel.single_sweep_vna self sweeps control idn w) as [r w'] eqn:E.
  cbn in Hres. subst r. unfold VNAChannel.single_sweep_vna in E. cbv zeta in E.
  apply bind_result_ok in E as (_ & w1 & _ & E).
  apply bind_result_ok in E as (_ & w2 & _ & E).
  apply bind_result_ok in E as (_ & w3 & _ & E).
  rewrite Hc in E.
  apply bind_result_ok in E as (head & w4 & E & _).
  destruct idn; try discriminate E. discriminate Hidn.
Qed.

Lemma single_sweep_vna_needs_idn_witness :
  fst (VNAChannel.single_sweep_vna (channel (IdInt 1)) (VInt 1) (VBool true) VNone
         (replying ["1"; "1"]))
  <> Ok tt.
Proof.
  apply (single_sweep_vna_needs_idn (channel (IdInt 1)) (VInt 1) (VBool true) VNone
           (replying ["1"; "1"])); reflexivity.
Defined.

Lemma silent_ret {A} (a : A) : silent (ret a).
Proof. intros w. reflexivity. Qed.

Lemma silent_lift {A} (r : result A) : silent (lift r).
Proof. intros w. destruct r; reflexivity. Qed.

Lemma silent_bind {A B} (c : M A) (k : A -> M B) :
  silent c -> (forall a, silent (k a)) -> silent (bind c k).
Proof.
  intros Hc Hk w. unfold bind. specialize (Hc w).
  destruct (c w) as [[a|e] w1]; cbn in Hc |- *; [|exact Hc].
  rewrite (Hk a w1). exact Hc.
Qed.

Lemma silent_adapter_write (command : string) : silent (adapter_write command).
Proof.
  intros w. unfold adapter_write. destruct (faults (wire w)) as [|[] fs]; reflexivity.
Qed.

Lemma silent_adapter_read : silent adapter_read.
Proof.
  intros w. unfold adapter_read. destruct (pending (wire w)); reflexivity.
Qed.

Lemma silent_write (h : handle) : forall command, silent (write h command).
Proof.
  induction h as [|l parent IH]; intros command; cbn [write].
  - apply silent_adapter_write.
  - apply silent_bind; [apply silent_lift | intros c; apply IH].
Qed.

Lemma silent_fget (p : property) (h : handle) : silent (fget p h).
Proof.
  unfold fget. destruct (get_command p) as [q|]; [|intros w; reflexivity].
  apply silent_bind.
  - unfold ask. apply silent_bind; [apply silent_write|].
    intros _. apply silent_adapter_read.
  - intros reply. apply silent_bind; [apply silent_lift|].
    intros v. apply silent_bind; [apply silent_lift|].
    intros v'. apply silent_lift.
Qed.

Lemma is_zero_xnum (f : float) : is_zero f = true -> xnum_of_float f = XFin 0 0.
Proof.
  unfold is_zero. rewrite FloatAxioms.eqb_spec. unfold xnum_of_float.
  destruct (Prim2SF f) as [s| s | | s m e]; try reflexivity;
    unfold SFeqb, SFcompare; cbn; try discriminate;
    destruct s; discriminate.
Qed.

Lemma falsy_is_not_true (v : value) :
  truthy v = false -> py_eq v (VBool true) = false.
Proof.
  destruct v as [|b|z|f|s|n]; cbn [truthy]; intros H; try reflexivity.
  - subst b. reflexivity.
  - apply negb_false_iff in H. apply Z.eqb_eq in H. subst z. reflexivity.
  - apply negb_false_iff in H. unfold py_eq. cbn [xnum_of].
    rewrite (is_zero_xnum f H). reflexivity.
Qed.

Lemma silent_sweep_loop (self : handle) (sweeps control idn : value) (fuel : nat) :
  py_eq control (VBool true) = false ->
  forall count2, silent (VNAChannel.sweep_loop fuel self sweeps control idn count2).
Proof.
  intros Hc. induction fuel as [|k IH]; intros count2; cbn [VNAChannel.sweep_loop].
  - intros w. reflexivity.
  - apply silent_bind; [apply silent_fget|]. intros c.
    apply silent_bind; [apply silent_lift|]. intros continue.
    destruct continue; [|apply silent_ret].
    apply silent_bind; [apply silent_fget|]. intros c'.
    apply silent_bind; [apply silent_lift|]. intros count.
    rewrite Hc, andb_false_r. apply IH.
Qed.

(** X10. [single_sweep_vna] with a falsy [control] (the default, [None],
    is falsy) prints nothing, however the call ends. *)
Theorem single_sweep_vna_quiet_by_default (self : handle)
    (sweeps control idn : value) (w : world) :
  truthy control = false ->
  stdout (snd (VNAChannel.single_sweep_vna self sweeps control idn w)) = stdout w.
Proof.
  intros Hc. revert w.
  change (silent (VNAChannel.single_sweep_vna self sweeps control idn)).
  unfold VNAChannel.single_sweep_vna. cbv zeta.
  apply silent_bind; [apply silent_write|]. intros _.
  apply silent_bind; [apply silent_write|]. intros _.
  apply silent_bind.
  - intros w. apply (silent_sweep_loop _ _ _ _ _ (falsy_is_not_true _ Hc)).
  - intros _. rewrite Hc. apply silent_ret.
Qed.

Lemma single_sweep_vna_quiet_by_default_witness :
  stdout (snd (VNAChannel.single_sweep_vna (channel (IdInt 1)) (VInt 2) VNone VNone
                 (replying ["0"; "0"; "1"; "1"; "2"])))
  = stdout (replying ["0"; "0"; "1"; "1"; "2"]).
Proof.
  apply (single_sweep_vna_quiet_by_default (channel (IdInt 1)) (VInt 2) VNone VNone
           (replying ["0"; "0"; "1"; "1"; "2"])).
  reflexivity.
Defined.

(** ** Enumerated strings *)

Lemma py_eq_str (v : value) (s : string) : py_eq v (VStr s) = true -> v = VStr s.
Proof.
  destruct v as [|b|z|f|t|n]; cbn; try discriminate.
  intros H. apply String.eqb_eq in H. subst t. reflexivity.
Qed.

Lemma existsb_listed (v : value) (l : list value) :
  forallb is_str l = true -> existsb (py_eq v) l = true -> In v l.
Proof.
  intros Hl H. apply existsb_exists in H as (x & Hx & E).
  rewrite forallb_forall in Hl. destruct (is_str_inv x (Hl x Hx)) as [s ->].
  apply py_eq_str in E. subst v. exact Hx.
Qed.

Lemma fset_unlisted (p : property) (v : value) (h : handle) (w : world) :
  set_command p <> None ->
  prop_validator p = strict_discrete_set ->
  string_valued p = true ->
  ~ In v (bound_keys (prop_values p)) ->
  fset p h v w = (Raise ValueError, w).
Proof.
  intros Hset Hk Hs Hv. unfold fset.
  destruct (set_command p) as [t|]; [|contradiction Hset; reflexivity].
  unfold validate. rewrite Hk. unfold run_strict_discrete_set.
  unfold string_valued in Hs. destruct (prop_values p) as [l|kv]; [|discriminate Hs].
  cbn [bound_keys] in *.
  destruct (existsb (py_eq v) l) eqn:E; [|reflexivity].
  contradiction Hv. apply (existsb_listed v l Hs E).
Qed.

Ltac cut_template p :=
  let t := eval vm_compute in (set_command p) in
  match t with
  | Some ?t' =>
      let r := eval vm_compute in (conversion_of t') in
      match r with
      | Some (?a, _, ?b) => exists t', a, b
      end
  end.

(** X11. For every property of the drivers that declares a list of
    strings with [strict_discrete_set] ([operating_mode], [output_mode],
    [trigger_source], [sweep_type], [meas_ports], [trigger_sequence],
    the [measurement] and [format] of a trace, [source]): assigning a
    listed string writes the set command with that string in the place
    of [%s]; assigning anything else, a string that is not listed or a
    value that is not a string, raises [ValueError] and changes
    nothing. *)
Theorem listed_strings_only (p : property) (h : handle) (w : world) :
  In p all_properties ->
  prop_validator p = strict_discrete_set ->
  string_valued p = true ->
  exists t pre post,
    set_command p = Some t
    /\ t = pre +:+ "%s" +:+ post
    /\ (forall s, In (VStr s) (bound_keys (prop_values p)) ->
          fset p h (VStr s) w = write h (pre +:+ s +:+ post) w)
    /\ (forall v, ~ In v (bound_keys (prop_values p)) ->
          fset p h v w = (Raise ValueError, w)).
Proof.
  intros Hin Hk Hs.
  each_property Hin; try discriminate Hk; try discriminate Hs;
    match goal with
    | |- exists t pre post, set_command ?p = Some t /\ _ =>
        cut_template p;
        (split; [reflexivity|]); (split; [reflexivity|]); split;
        [ intros s Hl; cbn in Hl;
          repeat (destruct Hl as [Hl | Hl]; [injection Hl as <-; reflexivity|]);
          contradiction Hl
        | intros v Hv; apply fset_unlisted;
          [discriminate | reflexivity | reflexivity | exact Hv] ]
    end.
Qed.

Lemma listed_strings_only_witness :
  exists t pre post,
    set_command VNAChannel.sweep_type = Some t
    /\ t = pre +:+ "%s" +:+ post
    /\ (forall s, In (VStr s) (bound_keys (prop_values VNAChannel.sweep_type)) ->
          fset VNAChannel.sweep_type (channel (IdInt 1)) (VStr s) quiet
          = write (channel (IdInt 1)) (pre +:+ s +:+ post) quiet)
    /\ (forall v, ~ In v (bound_keys (prop_values VNAChannel.sweep_type)) ->
          fset VNAChannel.sweep_type (channel (IdInt 1)) v quiet
          = (Raise ValueError, quiet)).
Proof.
  apply (listed_strings_only VNAChannel.sweep_type (channel (IdInt 1)) quiet).
  - in_properties.
  - reflexivity.
  - reflexivity.
Defined.

(** ** Flags *)

Lemma xeq_finite_inv (x : xnum) (c : Z) :
  xeq x (XFin c 0) = true ->
  exists m e, x = XFin m e
              /\ m * 2 ^ (e - Z.min e 0) = c * 2 ^ (0 - Z.min e 0).
Proof.
  unfold xeq. destruct x as [|s|m e]; cbn; try discriminate.
  - destruct s; discriminate.
  - destruct (Z.compare_spec (m * 2 ^ (e - Z.min e 0)) (c * 2 ^ (0 - Z.min e 0)))
      as [E|E|E]; try discriminate.
    intros _. exists m, e. split; [reflexivity | exact E].
Qed.

Lemma xeq_sym (x y : xnum) : xeq x y = xeq y x.
Proof.
  unfold xeq. destruct x as [|a|m1 e1], y as [|b|m2 e2]; cbn; try reflexivity.
  - destruct a, b; reflexivity.
  - destruct a; reflexivity.
  - destruct b; reflexivity.
  - rewrite (Z.min_comm e2 e1).
    rewrite (Z.compare_antisym (m1 * 2 ^ (e1 - Z.min e1 e2))).
    destruct (m1 * 2 ^ (e1 - Z.min e1 e2) ?= m2 * 2 ^ (e2 - Z.min e1 e2)); reflexivity.
Qed.

Lemma xeq_one_not_zero (x : xnum) :
  xeq x (XFin 1 0) = true -> xeq x (XFin 0 0) = false.
Proof.
  intros H. destruct (xeq_finite_inv x 1 H) as (m & e & -> & E).
  unfold xeq. cbn.
  destruct (Z.compare_spec (m * 2 ^ (e - Z.min e 0)) (0 * 2 ^ (0 - Z.min e 0)))
    as [E0|E0|E0]; try reflexivity.
  rewrite E0 in E. assert (0 < 2 ^ (0 - Z.min e 0)) by (apply Z.pow_pos_nonneg; lia).
  lia.
Qed.

Lemma xeq_zero_not_one (x : xnum) :
  xeq x (XFin 0 0) = true -> xeq x (XFin 1 0) = false.
Proof.
  intros H. destruct (xeq x (XFin 1 0)) eqn:E; [|reflexivity].
  rewrite (xeq_one_not_zero x E) in H. discriminate H.
Qed.

Lemma py_eq_bool (v : value) (b : bool) :
  py_eq v (VBool b) = true ->
  py_eq (VBool b) v = true
  /\ py_eq v (VBool (negb b)) = false
  /\ py_eq (VBool (negb b)) v = false.
Proof.
  unfold py_eq. cbn [xnum_of].
  destruct (xnum_of v) as [x|] eqn:Hx.
  - intros H. rewrite (xeq_sym (XFin (Z.b2z b) 0) x), H.
    rewrite (xeq_sym (XFin (Z.b2z (negb b)) 0) x).
    destruct b; cbn [negb Z.b2z] in *.
    + rewrite (xeq_one_not_zero x H). repeat split.
    + rewrite (xeq_zero_not_one x H). repeat split.
  - destruct v; discriminate.
Qed.

Lemma py_eq_no_bool (v : value) (b : bool) :
  py_eq v (VBool b) = false -> py_eq (VBool b) v = false.
Proof.
  unfold py_eq. cbn [xnum_of].
  destruct (xnum_of v) as [x|] eqn:Hx.
  - rewrite (xeq_sym (XFin (Z.b2z b) 0) x). intros H; exact H.
  - intros _. destruct v; reflexivity.
Qed.

Section Flag.
Variables (p : property) (t : string) (a : bool) (x y : value).
Hypothesis Hset : set_command p = Some t.
Hypothesis Hk : prop_validator p = strict_discrete_set.
Hypothesis Hvals : prop_values p = Dict [(VBool a, x); (VBool (negb a), y)].
Hypothesis Hmap : map_values p = true.
Hypothesis Hproc : forall u, set_process p u = Ok u.

Lemma fset_flag (v : value) (b : bool) (h : handle) (w : world) :
  py_eq v (VBool b) = true ->
  fset p h v w
  = (let* command := lift (percent t (if Bool.eqb b a then x else y)) in
     write h command) w.
Proof.
  intros Hv. destruct (py_eq_bool v b Hv) as (H1 & H2 & H3).
  unfold fset. rewrite Hset, Hk, Hvals, Hmap. cbn [validate bound_keys map fst].
  unfold run_strict_discrete_set. cbn [existsb].
  assert (E : py_eq v (VBool a) || (py_eq v (VBool (negb a)) || false) = true).
  { destruct b, a; cbn [negb] in *; rewrite ?Hv, ?H2; reflexivity. }
  rewrite E. cbn [lift]. unfold bind at 1. cbn [ret].
  rewrite Hproc. cbn [lift]. unfold bind at 1. cbn [ret].
  cbn [to_wire dict_get].
  destruct b, a; cbn [negb Bool.eqb] in *; rewrite ?H1, ?H3; reflexivity.
Qed.

Lemma fset_no_flag (v : value) (h : handle) (w : world) :
  py_eq v (VBool true) = false ->
  py_eq v (VBool false) = false ->
  fset p h v w = (Raise ValueError, w).
Proof.
  intros Ht Hf. unfold fset. rewrite Hset, Hk, Hvals. cbn [validate bound_keys map fst].
  unfold run_strict_discrete_set. cbn [existsb].
  destruct a; cbn [negb]; rewrite Ht, Hf; reflexivity.
Qed.
End Flag.

(** X12. For every property of the drivers mapped by a dictionary keyed
    by [True] and [False] ([output_enabled], [trigger_continuous],
    [selective_bandwidth], [sweep_continuity], [scope_single_sweep],
    [avg_active]): a value that compares equal to a boolean (1 and 1.0
    for [True], 0 and 0.0 for [False]) is accepted and does exactly what
    assigning that boolean does; every other value raises [ValueError]
    and changes nothing. *)
Theorem flags_accept_equal_numbers (p : property) (v : value) (h : handle)
    (w : world) :
  In p all_properties ->
  bool_keyed p = true ->
  (forall b, py_eq v (VBool b) = true -> fset p h v w = fset p h (VBool b) w)
  /\ (py_eq v (VBool true) = false -> py_eq v (VBool false) = false ->
      fset p h v w = (Raise ValueError, w)).
Proof.
  intros Hin Hb.
  each_property Hin; try discriminate Hb; split.
  all: match goal with
       | |- forall b, _ -> fset ?p _ _ _ = _ =>
           intros b Hv;
           rewrite (fset_flag p _ _ _ _ eq_refl eq_refl eq_refl eq_refl
                      (fun u => eq_refl) v b h w Hv);
           rewrite (fset_flag p _ _ _ _ eq_refl eq_refl eq_refl eq_refl
                      (fun u => eq_refl) (VBool b) b h w)
             by (destruct b; reflexivity);
           reflexivity
       | |- _ -> _ -> fset ?p _ _ _ = _ =>
           intros Ht Hf;
           apply (fset_no_flag p _ _ _ _ eq_refl eq_refl eq_refl v h w Ht Hf)
       end.
Qed.

(** [output_enabled] at 1.0 and at 2. *)
Lemma flags_accept_equal_numbers_witness :
  fset KepcoBOP5020.output_enabled KepcoBOP5020.self (VFloat 1) quiet
  = fset KepcoBOP5020.output_enabled KepcoBOP5020.self (VBool true) quiet
  /\ fset KepcoBOP5020.output_enabled KepcoBOP5020.self (VInt 2) quiet
     = (Raise ValueError, quiet).
Proof.
  destruct (flags_accept_equal_numbers KepcoBOP5020.output_enabled (VFloat 1)
              KepcoBOP5020.self quiet ltac:(in_properties) eq_refl) as [H _].
  destruct (flags_accept_equal_numbers KepcoBOP5020.output_enabled (VInt 2)
              KepcoBOP5020.self quiet ltac:(in_properties) eq_refl) as [_ H'].
  split; [apply (H true); reflexivity | apply H'; reflexivity].
Defined.

(** ** Whole-number commands *)

Lemma percent_loop_rest (post : list ascii) :
  forallb (fun c => negb (Ascii.eqb c "%")) post = true ->
  percent_loop post None = Ok (string_of_list_ascii post).
Proof.
  induction post as [|c post IH]; intros H; [reflexivity|].
  cbn [forallb] in H. apply andb_prop in H as [Hc H].
  cbn [percent_loop]. apply negb_true_iff in Hc. rewrite Hc, (IH H). reflexivity.
Qed.

Lemma percent_loop_cut (t : list ascii) :
  forall (pre : list ascii) (k : ascii) (post : list ascii) (v : value),
  cut_conversion t = Some (pre, k, post) ->
  Ascii.eqb k "%" = false ->
  forallb (fun c => negb (Ascii.eqb c "%")) post = true ->
  percent_loop t (Some v)
  = rbind (convert k v)
      (fun s => Ok (string_of_list_ascii pre +:+ s +:+ string_of_list_ascii post)).
Proof.
  induction t as [|c t1 IH]; intros pre k post v Hcut Hk Hpost; [discriminate Hcut|].
  cbn [cut_conversion] in Hcut. cbn [percent_loop].
  destruct (Ascii.eqb c "%") eqn:Hc.
  - destruct t1 as [|k' t2]; [discriminate Hcut|].
    injection Hcut as <- <- <-. rewrite Hk, (percent_loop_rest _ Hpost).
    destruct (convert k' v); reflexivity.
  - destruct (cut_conversion t1) as [[[pre' k'] post']|] eqn:E; [|discriminate Hcut].
    injection Hcut as <- <- <-.
    rewrite (IH pre' k' post' v eq_refl Hk Hpost).
    destruct (convert k' v) as [s|e]; [|reflexivity].
    cbn [rbind string_of_list_ascii]. rewrite append_cons. reflexivity.
Qed.

Lemma format_d_int (v : value) (x : xnum) (z : Z) :
  xnum_of v = Some x -> py_int v = Ok z -> format_d v = Ok (str_of_Z z).
Proof.
  destruct v as [|b|i|f|s|n]; cbn; intros Hx Hz; try discriminate Hx.
  - injection Hz as <-. reflexivity.
  - injection Hz as <-. reflexivity.
  - rewrite Hz. reflexivity.
Qed.

Lemma append_rev (pre suf t : string) :
  pre +:+ suf = t ->
  rev (list_ascii_of_string t)
  = (rev (list_ascii_of_string suf) ++ rev (list_ascii_of_string pre))%list.
Proof. intros <-. rewrite list_ascii_of_string_app. apply rev_app_distr. Qed.

Lemma rev_text (pre : string) (l : list ascii) :
  rev (list_ascii_of_string pre) = l -> pre = string_of_list_ascii (rev l).
Proof.
  intros <-. rewrite rev_involutive, string_of_list_ascii_of_string. reflexivity.
Qed.

Lemma fset_whole_number (p : property) (pre : list ascii) (v : value) (x : xnum)
    (z : Z) (h : handle) (w : world) :
  set_command p
  = Some (string_of_list_ascii pre +:+ "%d") ->
  forallb (fun c => negb (Ascii.eqb c "%")) pre = true ->
  map_values p = false ->
  validate (prop_validator p) v (prop_values p) = Ok v ->
  set_process p v = Ok v ->
  xnum_of v = Some x ->
  py_int v = Ok z ->
  fset p h v w = write h (string_of_list_ascii pre +:+ str_of_Z z) w.
Proof.
  intros Hset Hpre Hmap Hval Hproc Hx Hz.
  unfold fset. rewrite Hset, Hval, Hmap. cbn [lift]. unfold bind at 1. cbn [ret].
  rewrite Hproc. cbn [lift]. unfold bind at 1. cbn [ret]. unfold bind at 1. cbn [ret].
  unfold percent. rewrite list_ascii_of_string_app, list_ascii_of_string_of_list_ascii.
  rewrite (percent_loop_cut _ pre "d" [] v).
  - unfold convert. cbn [Ascii.eqb Bool.eqb]. rewrite (format_d_int v x z Hx Hz).
    cbn [rbind string_of_list_ascii]. rewrite append_nil_r. reflexivity.
  - clear -Hpre. induction pre as [|c pre IH]; [reflexivity|].
    cbn [forallb] in Hpre. apply andb_prop in Hpre as [Hc Hpre].
    apply negb_true_iff in Hc. cbn [app cut_conversion]. rewrite Hc, (IH Hpre).
    reflexivity.
  - reflexivity.
  - reflexivity.
Qed.

(** X13. For every property of the drivers declared with a numeric
    range, a range validator, no [set_process] and a set command that
    ends in [%d] (the trigger levels and the four limits of the power
    supply; [power], [if_bandwidth], [sweep_number] and [sweep_points]
    of a channel): a number inside the range is written truncated
    toward zero, not rounded; what is written is the set command with
    [int(value)] in the place of [%d]. *)
Theorem whole_number_commands_truncate (p : property) (lo hi x : xnum) (v : value)
    (z : Z) (pre : string) (h : handle) (w : world) :
  In p all_properties ->
  declared_range p = Some (lo, hi) ->
  prop_validator p = strict_range \/ prop_validator p = truncated_range ->
  (forall u, set_process p u = Ok u) ->
  set_command p = Some (pre +:+ "%d") ->
  xnum_of v = Some x ->
  in_range lo hi x = true ->
  py_int v = Ok z ->
  fset p h v w = write h (pre +:+ str_of_Z z) w.
Proof.
  intros Hin Hr Hk Hproc Hset Hx Hrange Hz.
  assert (Hval : validate (prop_validator p) v (prop_values p) = Ok v).
  { destruct (declared_range_inv p lo hi Hr) as (a & b & Hvals & Ha & Hb & Hlt).
    unfold validate. rewrite Hvals. destruct Hk as [-> | ->]; cbn [bound_keys].
    - apply (strict_range_inside a b v lo hi x Ha Hb Hx Hlt Hrange).
    - apply (truncated_range_inside a b v lo hi x Ha Hb Hx Hlt Hrange). }
  clear Hk Hrange.
  assert (Hcut : exists l, pre = string_of_list_ascii l
                           /\ forallb (fun c => negb (Ascii.eqb c "%")) l = true
                           /\ map_values p = false).
  { each_property Hin;
      try discriminate Hr;
      try (specialize (Hproc (VInt 1)); discriminate Hproc);
      try discriminate Hset;
      injection Hset as Hset; symmetry in Hset;
      apply append_rev in Hset; vm_compute in Hset;
      try discriminate Hset;
      injection Hset as Hset; symmetry in Hset; apply rev_text in Hset;
      eexists; (split; [exact Hset|]); split; reflexivity. }
  destruct Hcut as (l & -> & Hl & Hmap).
  apply (fset_whole_number p l v x z h w Hset Hl Hmap Hval (Hproc v) Hx Hz).
Qed.

(** [power] at -3.9 goes out as -3. *)
Lemma whole_number_commands_truncate_witness :
  fset VNAChannel.power (channel (IdInt 1)) (VFloat (-3.9)) quiet
  = write (channel (IdInt 1)) ("SOUR{ch}:POW " +:+ str_of_Z (-3)) quiet.
Proof.
  apply (whole_number_commands_truncate VNAChannel.power
           (XFin (-40) 0) (XFin 10 0) (xnum_of_float (-3.9)) (VFloat (-3.9)) (-3)
           "SOUR{ch}:POW " (channel (IdInt 1)) quiet).
  - in_properties.
  - reflexivity.
  - left. reflexivity.
  - intros u. reflexivity.
  - reflexivity.
  - reflexivity.
  - reflexivity.
  - reflexivity.
Defined.

(** ** The timer of the trigger *)

Lemma trigger_timer_table :
  forallb
    (fun z => same_text (wire_text VNAChannel.trigger_timer (VInt z))
                "TRIG{ch}:SEQ:TIM 0")
    (py_range 1 1000) = true.
Proof. vm_compute. reflexivity. Qed.

(** X14. [trigger_timer], documented in milliseconds, is converted to
    seconds and then formatted with [%d]: every whole period below one
    second, from 1 to 999 ms, is written as 0. *)
Theorem trigger_timer_below_one_second (z : Z) (h : handle) (w : world) :
  1 <= z <= 999 ->
  fset VNAChannel.trigger_timer h (VInt z) w = write h "TRIG{ch}:SEQ:TIM 0" w.
Proof.
  intros Hz. apply fset_wire_text. apply same_text_eq.
  pose proof trigger_timer_table as T. rewrite forallb_forall in T.
  apply (T z). apply in_py_range. lia.
Qed.

Lemma trigger_timer_below_one_second_witness :
  fset VNAChannel.trigger_timer (channel (IdInt 1)) (VInt 500) quiet
  = write (channel (IdInt 1)) "TRIG{ch}:SEQ:TIM 0" quiet.
Proof.
  apply (trigger_timer_below_one_second 500 (channel (IdInt 1)) quiet). lia.
Defined.

(** ** Channels: one placeholder *)

Lemma template_text_app (l k : list segment) :
  template_text (l ++ k) = template_text l +:+ template_text k.
Proof.
  induction l as [|g l IH]; [reflexivity|].
  cbn [app template_text fold_right]. fold (template_text (l ++ k)).
  fold (template_text l). rewrite IH, append_assoc. reflexivity.
Qed.

Lemma write_channel_suffix (ch : ident) (segs : list segment) (s : string)
    (w : world) :
  forallb (passes "ch") segs = true ->
  brace_free s = true ->
  write (channel ch) (template_text segs +:+ s) w
  = adapter_write (template_text (map (fill (id_text ch)) segs) +:+ s) w.
Proof.
  intros Hsegs Hs.
  replace (template_text segs +:+ s) with (template_text (segs ++ [Lit s]))
    by (rewrite template_text_app; cbn [template_text fold_right segment_text];
        rewrite append_nil_r; reflexivity).
  rewrite write_channel_segments.
  - rewrite map_app, template_text_app.
    cbn [map fill template_text fold_right segment_text].
    rewrite append_nil_r. reflexivity.
  - rewrite forallb_app, Hsegs. cbn [forallb passes]. rewrite Hs. reflexivity.
Qed.

Ltac by_segments t :=
  let segs := eval vm_compute in (segments_of t) in
  match goal with
  | |- write (channel ?ch) _ ?w = adapter_write (_ +:+ ?s) _ =>
      change (write (channel ch) (template_text segs +:+ s) w
              = adapter_write (template_text (map (fill (id_text ch)) segs) +:+ s) w);
      apply write_channel_suffix; [reflexivity | assumption]
  | |- write (channel ?ch) _ ?w = adapter_write _ _ =>
      change (write (channel ch) (template_text segs) w
              = adapter_write (template_text (map (fill (id_text ch)) segs)) w);
      apply write_channel_segments; reflexivity
  end.

(** X15. For every property of a channel and every channel identifier,
    numeric or string: the query goes out as the template with the
    identifier in the place of [{ch}], verbatim; so does the set
    command, whatever brace-free text is formatted into its [%d] or
    [%s]. *)
Theorem channel_placeholder_filled (ch : ident) (p : property) (w : world) :
  In p VNAChannel.properties ->
  (forall q, get_command p = Some q ->
     write (channel ch) q w = adapter_write (fill_ch (id_text ch) q) w)
  /\ (forall pre k s,
        set_command p = Some (pre +:+ String "%" (String k "")) ->
        brace_free s = true ->
        write (channel ch) (pre +:+ s) w
        = adapter_write (fill_ch (id_text ch) pre +:+ s) w).
Proof.
  intros Hin. unfold VNAChannel.properties in Hin. cbn [In] in Hin.
  repeat (destruct Hin as [<- | Hin]); [.. | contradiction Hin]; split.
  all: try (intros q Hq; first [discriminate Hq | injection Hq as <-];
            match goal with
            | |- write _ ?t _ = _ => by_segments t
            end).
  all: intros pre k s Hset Hs; first [discriminate Hset | injection Hset as Hset];
       symmetry in Hset; apply append_rev in Hset;
       remember (rev (list_ascii_of_string pre)) as r eqn:Hr;
       vm_compute in Hset; injection Hset as _ Hset;
       subst r; symmetry in Hset; apply rev_text in Hset;
       vm_compute in Hset; subst pre;
       match goal with
       | |- write _ (?t +:+ _) _ = _ => by_segments t
       end.
Qed.

(** The query of [power] on channel 2. *)
Lemma channel_placeholder_filled_witness :
  write (channel (IdInt 2)) "SOUR{ch}:POW?" quiet
  = adapter_write (fill_ch (id_text (IdInt 2)) "SOUR{ch}:POW?") quiet.
Proof.
  apply (proj1 (channel_placeholder_filled (IdInt 2) VNAChannel.power quiet
                  (or_introl eq_refl))).
  reflexivity.
Defined.

(** ** A trace and its window *)

(** X16. [assign_trace_to_window] on a trace [tr] of a channel [ch],
    the window text and the trace identifier containing no brace, sends
    "DISP:WIND<wnd>:TRAC:EFE 'Trc<tr>'": the command names the trace and
    not the channel, whatever the channel is. *)
Theorem assign_trace_to_window_writes (ch tr : ident) (wnd : string) (w : world) :
  brace_free wnd = true ->
  brace_free (id_text tr) = true ->
  VNAChannel.ChannelTrace.assign_trace_to_window (trace ch tr) wnd w
  = adapter_write ("DISP:WIND" +:+ wnd +:+ ":TRAC:EFE 'Trc" +:+ id_text tr +:+ "'") w.
Proof.
  intros Hw Htr. unfold VNAChannel.ChannelTrace.assign_trace_to_window. cbv zeta.
  transitivity
    (write (trace ch tr)
       (template_text [Lit "DISP:WIND"; Lit wnd; Lit ":TRAC:EFE 'Trc"; Field "tr"; Lit "'"])
       w).
  - reflexivity.
  - rewrite write_trace_segments.
    + reflexivity.
    + cbn [forallb passes]. rewrite Hw. reflexivity.
    + cbn [forallb map fill passes]. rewrite Hw, Htr. reflexivity.
Qed.

Lemma assign_trace_to_window_writes_witness :
  VNAChannel.ChannelTrace.assign_trace_to_window
    (trace (IdInt 3) (IdStr "3_1")) "2" quiet
  = adapter_write
      ("DISP:WIND" +:+ "2" +:+ ":TRAC:EFE 'Trc" +:+ id_text (IdStr "3_1") +:+ "'") quiet.
Proof.
  apply (assign_trace_to_window_writes (IdInt 3) (IdStr "3_1") "2" quiet);
    reflexivity.
Defined.

(** ** Start and stop frequencies *)

(** X17. [freq_start] and [freq_stop] at a whole number of GHz from 1 to
    50: the set command carries the frequency in Hz, the number times
    10^9, exactly; a device that reports this very number is read back,
    through the factor 1e-9, as a float that equals the number assigned
    except at 15, 29, 30 and 31 GHz, where the product is not exact. *)
Theorem frequency_round_trip (p : property) (z : Z) (h : handle) (w w' w'' : world) :
  p = VNAChannel.freq_start \/ p = VNAChannel.freq_stop ->
  1 <= z <= 50 ->
  exists pre q f,
    set_command p = Some (pre +:+ "%d")
    /\ get_command p = Some q
    /\ fset p h (VInt z) w = write h (pre +:+ str_of_Z (z * 1000000000)) w
    /\ (ask h q w' = (Ok (str_of_Z (z * 1000000000)), w'') ->
        fget p h w' = (Ok (VFloat f), w''))
    /\ py_eq (VFloat f) (VInt z) = negb (existsb (Z.eqb z) [15; 29; 30; 31]).
Proof.
  intros Hp Hz.
  assert (Hin : In z (py_range 1 51)) by (apply in_py_range; lia).
  clear Hz. vm_compute in Hin.
  destruct Hp as [-> | ->];
    [ exists "SENS{ch}:FREQ:STAR ", "SENS{ch}:FREQ:STAR?"
    | exists "SENS{ch}:FREQ:STOP ", "SENS{ch}:FREQ:STOP?" ];
    (repeat (destruct Hin as [<- | Hin]); [.. | contradiction Hin]);
    eexists;
    (split; [reflexivity|]); (split; [reflexivity|]);
    (split; [apply fset_wire_text; vm_compute; reflexivity|]);
    (split;
     [ intros Hask; eapply fget_decoded;
       [ reflexivity | exact Hask | vm_compute; reflexivity
       | vm_compute; reflexivity | reflexivity ]
     | vm_compute; reflexivity ]).
Qed.

(** [freq_start] at 15 GHz. *)
Lemma frequency_round_trip_witness :
  exists pre q f,
    set_command VNAChannel.freq_start = Some (pre +:+ "%d")
    /\ get_command VNAChannel.freq_start = Some q
    /\ fset VNAChannel.freq_start (channel (IdInt 1)) (VInt 15) quiet
       = write (channel (IdInt 1)) (pre +:+ str_of_Z (15 * 1000000000)) quiet
    /\ (ask (channel (IdInt 1)) q (replying ["15000000000"])
        = (Ok (str_of_Z (15 * 1000000000)),
           after_query "SENS1:FREQ:STAR?" (replying ["15000000000"])) ->
        fget VNAChannel.freq_start (channel (IdInt 1)) (replying ["15000000000"])
        = (Ok (VFloat f), after_query "SENS1:FREQ:STAR?" (replying ["15000000000"])))
    /\ py_eq (VFloat f) (VInt 15) = negb (existsb (Z.eqb 15) [15; 29; 30; 31]).
Proof.
  apply (frequency_round_trip VNAChannel.freq_start 15 (channel (IdInt 1)) quiet
           (replying ["15000000000"])
           (after_query "SENS1:FREQ:STAR?" (replying ["15000000000"]))).
  - left. reflexivity.
  - lia.
Defined.

(** ** Setpoints of the power supply *)

Lemma voltage_setpoint_table :
  forallb
    (fun m => echo_ok KepcoBOP5020.voltage_setpoint "VOLTage "
                (float_of_Z m / 100)%float)
    (py_range (-5000) 5001) = true.
Proof. vm_compute. reflexivity. Qed.

Lemma current_setpoint_table :
  forallb
    (fun m => echo_ok KepcoBOP5020.current_setpoint "CURRent "
                (float_of_Z m / 100)%float)
    (py_range (-2000) 2001) = true.
Proof. vm_compute. reflexivity. Qed.

Lemma echo_ok_inv (p : property) (pre : string) (f : float) :
  echo_ok p pre f = true ->
  exists reply,
    wire_text p (VFloat f) = Some (pre +:+ reply) /\ parse_float reply = Ok f.
Proof.
  unfold echo_ok. destruct (wire_text p (VFloat f)) as [c|]; [|discriminate].
  intros H. apply andb_prop in H as [Hc Hf]. apply String.eqb_eq in Hc.
  exists (argument_of c). split; [f_equal; exact Hc|].
  destruct (parse_float (argument_of c)) as [g|e]; [|discriminate Hf].
  apply FloatAxioms.Leibniz.eqb_spec in Hf. subst g. reflexivity.
Qed.

(** X18. [voltage_setpoint] and [current_setpoint] at a value given to
    the hundredth within the rating (m/100 with |m| <= 5000 for the
    voltage, |m| <= 2000 for the current): the set command carries a
    number that reads back as exactly the value assigned, so a device
    that reports what it was sent returns the value unchanged. *)
Theorem setpoint_round_trip (m : Z) (h : handle) (w w' w'' : world) :
  (-5000 <= m <= 5000 ->
   exists reply,
     fset KepcoBOP5020.voltage_setpoint h (VFloat (float_of_Z m / 100)) w
     = write h ("VOLTage " +:+ reply) w
     /\ (ask h "VOLTage?" w' = (Ok reply, w'') ->
         fget KepcoBOP5020.voltage_setpoint h w'
         = (Ok (VFloat (float_of_Z m / 100)), w'')))
  /\ (-2000 <= m <= 2000 ->
      exists reply,
        fset KepcoBOP5020.current_setpoint h (VFloat (float_of_Z m / 100)) w
        = write h ("CURRent " +:+ reply) w
        /\ (ask h "CURRent?" w' = (Ok reply, w'') ->
            fget KepcoBOP5020.current_setpoint h w'
            = (Ok (VFloat (float_of_Z m / 100)), w''))).
Proof.
  split; intros Hm.
  - pose proof voltage_setpoint_table as T. rewrite forallb_forall in T.
    destruct (echo_ok_inv _ _ _ (T m (in_py_range (-5000) 5001 m ltac:(lia))))
      as (reply & Hc & Hf).
    exists reply. split; [apply fset_wire_text; exact Hc|].
    intros Hask.
    apply (fget_decoded KepcoBOP5020.voltage_setpoint "VOLTage?" reply
             (VFloat (float_of_Z m / 100)) (VFloat (float_of_Z m / 100))
             (VFloat (float_of_Z m / 100)) h w' w'' eq_refl Hask);
      [unfold run_cast; cbn [prop_cast]; rewrite Hf; reflexivity
      | reflexivity | reflexivity].
  - pose proof current_setpoint_table as T. rewrite forallb_forall in T.
    destruct (echo_ok_inv _ _ _ (T m (in_py_range (-2000) 2001 m ltac:(lia))))
      as (reply & Hc & Hf).
    exists reply. split; [apply fset_wire_text; exact Hc|].
    intros Hask.
    apply (fget_decoded KepcoBOP5020.current_setpoint "CURRent?" reply
             (VFloat (float_of_Z m / 100)) (VFloat (float_of_Z m / 100))
             (VFloat (float_of_Z m / 100)) h w' w'' eq_refl Hask);
      [unfold run_cast; cbn [prop_cast]; rewrite Hf; reflexivity
      | reflexivity | reflexivity].
Qed.

(** 12.5 V, the example of the round-trip law. *)
Lemma setpoint_round_trip_witness :
  exists reply,
    fset KepcoBOP5020.voltage_setpoint KepcoBOP5020.self
      (VFloat (float_of_Z 1250 / 100)) quiet
    = write KepcoBOP5020.self ("VOLTage " +:+ reply) quiet
    /\ (ask KepcoBOP5020.self "VOLTage?" (replying ["12.5"])
        = (Ok reply, after_query "VOLTage?" (replying ["12.5"])) ->
        fget KepcoBOP5020.voltage_setpoint KepcoBOP5020.self (replying ["12.5"])
        = (Ok (VFloat (float_of_Z 1250 / 100)),
           after_query "VOLTage?" (replying ["12.5"]))).
Proof.
  apply (proj1 (setpoint_round_trip 1250 KepcoBOP5020.self quiet (replying ["12.5"])
                  (after_query "VOLTage?" (replying ["12.5"])))).
  lia.
Defined.
